(** * Interview orchestration engine: a shallow embedding

    The development follows [src/langchain_agent.py] (class [InterviewAgent])
    and [src/app.py] (the Flask handlers working on the session dictionary).

    Conventions of the embedding.
    - A Python [str] is a [string]; every character stands for the code point
      of the same number, so the model covers the texts over U+0000..U+00FF.
    - A Python [float] is a primitive binary64 [float]; a Python [int] is a [Z].
    - A Python exception is a value of [exn]; a call that may raise returns a
      [result].
    - The language model is an oracle answering the calls in order; the
      prompts sent to it are logged, each as its template with the values
      that fill it.
    - The library functions [json.loads], [repr] and [float] on strings are
      the fields of the class [Builtins]: the statements that quantify over
      it hold for any decoder; [reference] gives them as defined here, for
      the statements that run the program on concrete texts. The class also
      says which of the two ways of CPython [sum] adds floats: plainly from
      the left (before version 3.12) or with the rounding errors compensated
      (from 3.12 on); both are defined here.
    - The session is a record of optional fields, a field being [None] while
      the dictionary has no such key. The JSON body of a request is an
      object, given by the fields the handler reads, whose values are
      strings where the handlers use them as text, or a JSON value of
      another type (null, a boolean, a number, a string, an array). *)

From Stdlib Require Import ZArith NArith List String Ascii Bool Lia
  Floats.
Import ListNotations.

Set Warnings "-inexact-float,-register-all".

Local Open Scope string_scope.
Local Open Scope Z_scope.

(** ** Exceptions and results *)

Inductive exn : Type :=
| JSONDecodeError
| ValueError
| TypeError
| OverflowError
| UnboundLocalError
| KeyError
| ZeroDivisionError
| OtherError (name : string).

(** [except (json.JSONDecodeError, ValueError)]: [JSONDecodeError] is a
    subclass of [ValueError]; the other classes of [exn] are not. *)
Definition is_value_error (e : exn) : bool :=
  match e with
  | JSONDecodeError | ValueError => true
  | _ => false
  end.

Inductive result (A : Type) : Type :=
| Ok (a : A)
| Raise (e : exn).
Arguments Ok {A} a.
Arguments Raise {A} e.

Definition bind {A B : Type} (r : result A) (k : A -> result B) : result B :=
  match r with
  | Ok a => k a
  | Raise e => Raise e
  end.

Notation "x <- r ;; k" := (bind r (fun x => k))
  (at level 61, r at next level, right associativity).

(** ** Python string operations *)

Module Str.

(** [str.isspace] on the code points below 256. *)
Definition isspace (c : ascii) : bool :=
  let n := nat_of_ascii c in
  (((9 <=? n) && (n <=? 13)) || ((28 <=? n) && (n <=? 32))
   || (n =? 133) || (n =? 160))%nat.

(** [str.lower] on one code point below 256: A-Z, and the accented capitals
    U+00C0..U+00DE without the multiplication sign U+00D7. *)
Definition lower_char (c : ascii) : ascii :=
  let n := nat_of_ascii c in
  if (((65 <=? n) && (n <=? 90))
      || ((192 <=? n) && (n <=? 222) && negb (n =? 215)))%nat
  then ascii_of_nat (n + 32) else c.

Fixpoint lower (s : string) : string :=
  match s with
  | EmptyString => EmptyString
  | String c s' => String (lower_char c) (lower s')
  end.

Fixpoint rev_append (s acc : string) : string :=
  match s with
  | EmptyString => acc
  | String c s' => rev_append s' (String c acc)
  end.

Definition rev (s : string) : string := rev_append s EmptyString.

Fixpoint lstrip (s : string) : string :=
  match s with
  | EmptyString => EmptyString
  | String c s' => if isspace c then lstrip s' else s
  end.

Definition rstrip (s : string) : string := rev (lstrip (rev s)).

(** [s.strip()] *)
Definition strip (s : string) : string := rstrip (lstrip s).

(** [sub in s] *)
Fixpoint contains (sub s : string) : bool :=
  prefix sub s ||
  match s with
  | EmptyString => false
  | String _ s' => contains sub s'
  end.

Fixpoint drop (n : nat) (s : string) : string :=
  match n, s with
  | O, _ => s
  | S n', String _ s' => drop n' s'
  | S _, EmptyString => EmptyString
  end.

Fixpoint take (n : nat) (s : string) : string :=
  match n, s with
  | S n', String c s' => String c (take n' s')
  | _, _ => EmptyString
  end.

(** [s.endswith(suf)] *)
Definition endswith (suf s : string) : bool :=
  (String.length suf <=? String.length s)%nat
  && String.eqb (drop (String.length s - String.length suf) s) suf.

(** [s.count(sub)] for a non-empty [sub]: the occurrences are counted from
    the left and do not overlap; [skip] is the number of characters of the
    occurrence found last that are still to be passed. *)
Fixpoint count_go (sub : string) (skip : nat) (s : string) : Z :=
  match s with
  | EmptyString => 0
  | String _ s' =>
      match skip with
      | S k => count_go sub k s'
      | O => if prefix sub s
             then 1 + count_go sub (String.length sub - 1) s'
             else count_go sub O s'
      end
  end.

Definition count (sub s : string) : Z := count_go sub O s.

(** [s.split(sep)] for a non-empty [sep]; [acc] holds the current piece,
    reversed. *)
Fixpoint split_go (sep : string) (skip : nat) (acc : string) (s : string)
  : list string :=
  match s with
  | EmptyString => [rev acc]
  | String c s' =>
      match skip with
      | S k => split_go sep k acc s'
      | O => if prefix sep s
             then rev acc :: split_go sep (String.length sep - 1) EmptyString s'
             else split_go sep O (String c acc) s'
      end
  end.

Definition split (sep s : string) : list string :=
  split_go sep O EmptyString s.

(** [s.split()]: the maximal runs of characters that are not whitespace. *)
Fixpoint words_go (acc : string) (s : string) : list string :=
  match s with
  | EmptyString =>
      match acc with
      | EmptyString => []
      | _ => [rev acc]
      end
  | String c s' =>
      if isspace c then
        match acc with
        | EmptyString => words_go EmptyString s'
        | _ => rev acc :: words_go EmptyString s'
        end
      else words_go (String c acc) s'
  end.

Definition words (s : string) : list string := words_go EmptyString s.

(** A slice bound as Python normalises it: a negative bound counts from the
    end, and the outcome is clipped to [0, len]. *)
Definition clip (len i : Z) : Z :=
  let i' := if i <? 0 then i + len else i in
  Z.max 0 (Z.min len i').

(** [s[lo:hi]] *)
Definition slice (s : string) (lo hi : Z) : string :=
  let len := Z.of_nat (String.length s) in
  let lo' := clip len lo in
  let hi' := clip len hi in
  take (Z.to_nat (hi' - lo')) (drop (Z.to_nat lo') s).

(** The greatest index [i >= pos] at which [sub] occurs in [s], or [best]. *)
Fixpoint rfind_go (sub : string) (pos : Z) (best : Z) (s : string) : Z :=
  let best' := if prefix sub s then pos else best in
  match s with
  | EmptyString => best'
  | String _ s' => rfind_go sub (pos + 1) best' s'
  end.

(** [s.rfind(sub, lo, hi)]: the greatest index of an occurrence of [sub]
    inside [s[lo:hi]], or -1. *)
Definition rfind_in (sub s : string) (lo hi : Z) : Z :=
  let len := Z.of_nat (String.length s) in
  let lo' := clip len lo in
  let hi' := clip len hi in
  if hi' <? lo' then -1
  else rfind_go sub lo' (-1) (slice s lo' hi').

(** [s.rfind(sub)] *)
Definition rfind (sub s : string) : Z :=
  rfind_in sub s 0 (Z.of_nat (String.length s)).

(** [sep.join(l)] *)
Fixpoint join (sep : string) (l : list string) : string :=
  match l with
  | [] => EmptyString
  | [x] => x
  | x :: l' => x ++ sep ++ join sep l'
  end.

(** [s * n] *)
Definition repeat (s : string) (n : Z) : string :=
  String.concat EmptyString (List.repeat s (Z.to_nat n)).

(** [s.replace(old, new)] for a non-empty [old]: the pieces between the
    occurrences of [old], taken from the left, with [new] between them. *)
Definition replace (old new s : string) : string :=
  join new (split old s).

End Str.

(** ** Python floats *)

Module PyFloat.

(** The binary64 number nearest to [n / d] (ties to even), with sign [s],
    for [0 <= n] and [0 < d]: the quotient is taken with more than 53
    significant bits and rounded once, the remainder deciding the side. *)
Definition nearest (s : bool) (n d : Z) : float :=
  if n =? 0 then (if s then neg_zero else zero)
  else
    let k := Z.max 0 (64 + Z.log2 d - Z.log2 n) in
    let q := (n * 2 ^ k) / d in
    let r := (n * 2 ^ k) mod d in
    let loc := if r =? 0 then loc_Exact else loc_Inexact (2 * r ?= d) in
    SF2Prim (binary_round_aux prec emax s q (- k) loc).

(** [float(z)] for an [int]: correctly rounded, [OverflowError] beyond the
    range of the format. *)
Definition of_int (z : Z) : result float :=
  let f := nearest (z <? 0) (Z.abs z) 1 in
  if is_infinity f then Raise OverflowError else Ok f.

(** Rounding half to even of the non-negative rational [n / d] to an
    integer. *)
Definition round_half_even (n d : Z) : Z :=
  let q := n / d in
  let r := n mod d in
  match 2 * r ?= d with
  | Lt => q
  | Gt => q + 1
  | Eq => if Z.even q then q else q + 1
  end.

(** [round(x, 2)]: the exact value of [x] is rounded, half to even, to a
    multiple of 1/100, and the outcome is the float nearest to that decimal;
    zeros, infinities and nan are returned as they are. *)
Definition round2 (x : float) : float :=
  match Prim2SF x with
  | S754_finite s m e =>
      let n := if 0 <=? e then Zpos m * 2 ^ e else Zpos m in
      let d := if 0 <=? e then 1 else 2 ^ (- e) in
      nearest s (round_half_even (100 * n) d) 100
  | _ => x
  end.

(** [min(a, b)] and [max(a, b)] of two floats: the first argument unless the
    second is strictly smaller (greater). *)
Definition min (a b : float) : float := if (b <? a)%float then b else a.
Definition max (a b : float) : float := if (a <? b)%float then b else a.

(** [sum(l)] over floats as CPython computes it before version 3.12: from
    the integer 0, by additions from the left. *)
Definition sum_plain (l : list float) : float :=
  fold_left PrimFloat.add l zero.

(** One step of the summation of CPython from version 3.12 on (Neumaier's):
    [x] is added to the total [f_result], and the rounding error of this
    addition to the compensation [c]. *)
Definition sum_step (acc : float * float) (x : float) : float * float :=
  let (f_result, c) := acc in
  let t := (f_result + x)%float in
  if (abs x <=? abs f_result)%float
  then (t, (c + ((f_result - t) + x))%float)
  else (t, (c + ((x - t) + f_result))%float).

(** [sum(l)] over floats as CPython computes it from version 3.12 on: the
    first float is added to the integer 0, the others with [sum_step], and
    the compensation is added at the end unless it is zero or not finite.
    The sum of no float is the integer 0. *)
Definition sum_compensated (l : list float) : float :=
  match l with
  | [] => zero
  | x :: l' =>
      let (f_result, c) := fold_left sum_step l' ((zero + x)%float, zero) in
      if negb (c =? zero)%float && is_finite c then (f_result + c)%float
      else f_result
  end.

End PyFloat.

(** ** Python values *)

(** The values [json.loads] produces. A [dict] is the list of its items in
    insertion order, every key occurring once. *)
Inductive py_value : Type :=
| PyNone
| PyBool (b : bool)
| PyInt (z : Z)
| PyFloat (f : float)
| PyStr (s : string)
| PyList (l : list py_value)
| PyDict (d : list (string * py_value)).

(** The library functions the agent calls and this development does not
    define: [json.loads] (the decoder), [repr] (which [str] uses for every
    value that is not a string) and [float] on a string; and whether [sum]
    compensates the rounding errors of its additions, as CPython does from
    version 3.12 on. *)
Class Builtins : Type := {
  json_loads : string -> result py_value;
  py_repr : py_value -> string;
  float_of_str : string -> option float;
  sum_is_compensated : bool
}.

Module Py.

Fixpoint dict_get (k : string) (d : list (string * py_value))
  : option py_value :=
  match d with
  | [] => None
  | (k', v) :: d' => if String.eqb k' k then Some v else dict_get k d'
  end.

(** [d[k] = v]: the item is replaced where it stands, or added last. *)
Fixpoint dict_set (k : string) (v : py_value) (d : list (string * py_value))
  : list (string * py_value) :=
  match d with
  | [] => [(k, v)]
  | (k', v') :: d' =>
      if String.eqb k' k then (k, v) :: d' else (k', v') :: dict_set k v d'
  end.

(** [k in c] for a string [k]: a key of a dict, an element of a list, a
    substring of a string; the other values are not containers. *)
Definition contains (k : string) (c : py_value) : result bool :=
  match c with
  | PyDict d => Ok (match dict_get k d with Some _ => true | None => false end)
  | PyList l =>
      Ok (existsb (fun x => match x with
                            | PyStr s => String.eqb s k
                            | _ => false
                            end) l)
  | PyStr s => Ok (Str.contains k s)
  | _ => Raise TypeError
  end.

(** [c[k]] for a string [k]. *)
Definition getitem (c : py_value) (k : string) : result py_value :=
  match c with
  | PyDict d =>
      match dict_get k d with
      | Some v => Ok v
      | None => Raise KeyError
      end
  | _ => Raise TypeError
  end.

(** [c[k] = v] for a string [k]. *)
Definition setitem (c : py_value) (k : string) (v : py_value)
  : result py_value :=
  match c with
  | PyDict d => Ok (PyDict (dict_set k v d))
  | _ => Raise TypeError
  end.

(** [str(v)] *)
Definition str `{Builtins} (v : py_value) : string :=
  match v with
  | PyStr s => s
  | _ => py_repr v
  end.

(** [float(v)] *)
Definition float `{Builtins} (v : py_value) : result float :=
  match v with
  | PyFloat f => Ok f
  | PyInt z => PyFloat.of_int z
  | PyBool b => Ok (if b then one else zero)
  | PyStr s =>
      match float_of_str s with
      | Some f => Ok f
      | None => Raise ValueError
      end
  | _ => Raise TypeError
  end.

(** [sum(l)] over floats *)
Definition sum `{Builtins} (l : list PrimFloat.float) : PrimFloat.float :=
  if sum_is_compensated then PyFloat.sum_compensated l
  else PyFloat.sum_plain l.

(** The truth value of [v] in a condition. *)
Definition truthy (v : py_value) : bool :=
  match v with
  | PyNone => false
  | PyBool b => b
  | PyInt z => negb (z =? 0)
  | PyFloat f => negb (f =? zero)%float
  | PyStr s => negb (String.eqb s EmptyString)
  | PyList l => match l with [] => false | _ => true end
  | PyDict d => match d with [] => false | _ => true end
  end.

End Py.

(** ** The language model *)

(** The templates of [prompts.py]. *)
Inductive template : Type :=
| QUESTION_GENERATION_PROMPT_EN
| QUESTION_GENERATION_PROMPT_HI
| EVALUATION_PROMPT_EN_GEMINI
| EVALUATION_PROMPT_EN_OPENROUTER
| EVALUATION_PROMPT_HI_GEMINI
| EVALUATION_PROMPT_HI_OPENROUTER
| OVERALL_SUMMARY_PROMPT.

(** One question with its scored answer: an item of [interview_history]. *)
Record entry : Type := {
  question : string;
  answer : string;
  rating : float;
  strengths : string;
  improvements : string;
  missing_points : string
}.

(** A formatted prompt, [template.format(...)], kept as the template with
    the values that fill it. [last_rating] is [None] for ["N/A"]. *)
Inductive prompt : Type :=
| QuestionPrompt (t : template) (resume_summary role difficulty : string)
    (history : list entry) (last_rating : option float)
| EvaluationPrompt (t : template) (question answer : string)
| SummaryPrompt (t : template) (role : string) (num_questions : Z)
    (avg_rating : float) (history : list entry).

Definition template_of (p : prompt) : template :=
  match p with
  | QuestionPrompt t _ _ _ _ _ => t
  | EvaluationPrompt t _ _ => t
  | SummaryPrompt t _ _ _ _ => t
  end.

(** The world outside the program: [replies n] is what the [n]-th call of
    [llm.invoke] does (the text of the response, or the exception raised),
    [client_init model_id] is the exception raised when the client for that
    model is built, if any, and [calls] logs the prompts sent so far. *)
Record world : Type := {
  replies : nat -> result string;
  client_init : string -> option exn;
  calls : list prompt
}.

(** [self.llm.invoke(prompt)], then [response.content] *)
Definition invoke (p : prompt) (w : world) : result string * world :=
  (replies w (List.length (calls w)),
   {| replies := replies w;
      client_init := client_init w;
      calls := calls w ++ [p] |}).

(** ** [InterviewAgent] *)

Module Agent.

(** The messages of the conversation memory: [add_user_message] of
    "Generated question: ..." and [add_ai_message] of "Answer evaluated:
    Rating .../10". *)
Inductive message : Type :=
| GeneratedQuestion (question : string)
| AnswerEvaluated (rating : float).

Record agent : Type := {
  model_id : string;
  language : string;
  memory : list message
}.

Definition with_memory (a : agent) (m : list message) : agent :=
  {| model_id := model_id a; language := language a; memory := m |}.

(** [InterviewAgent(model_id, api_keys, language)]: the client is built
    and the memory starts empty. *)
Definition init (w : world) (model_id language : string) : result agent :=
  match client_init w model_id with
  | Some e => Raise e
  | None => Ok {| model_id := model_id; language := language; memory := [] |}
  end.

(** [_manage_memory_threshold] *)
Definition manage_memory_threshold (a : agent) : agent :=
  let messages := memory a in
  if (20 <? Z.of_nat (List.length messages)) then
    with_memory a (skipn 10 messages)
  else a.

(** [generate_question] *)
Definition generate_question (resume_summary role difficulty : string)
    (history : list entry) (a : agent) (w : world)
  : result string * agent * world :=
  let a := manage_memory_threshold a in
  let prompt_template :=
    if String.eqb (language a) "hi" then QUESTION_GENERATION_PROMPT_HI
    else QUESTION_GENERATION_PROMPT_EN in
  let last_rating :=
    match rev history with
    | [] => None
    | last_entry :: _ => Some (rating last_entry)
    end in
  let prompt :=
    QuestionPrompt prompt_template resume_summary role difficulty history
                   last_rating in
  let (response, w) := invoke prompt w in
  match response with
  | Ok content =>
      let question := Str.strip content in
      (Ok question,
       with_memory a (memory a ++ [GeneratedQuestion question]), w)
  | Raise e => (Raise e, a, w)
  end.

(** The evaluation dictionary [evaluate_answer] returns, read at the four
    keys its callers use; the other keys a model may have sent are left
    out. *)
Record evaluation : Type := {
  ev_rating : float;
  ev_strengths : string;
  ev_improvements : string;
  ev_missing_points : string
}.

Definition backticks : string := "```".
Definition dquote : string := String (ascii_of_nat 34) EmptyString.

(** Lines 204-207: the text inside the first code fence, if there is one. *)
Definition strip_code_fence (result : string) : string :=
  if Str.contains (backticks ++ "json") result then
    Str.strip
      (nth 0 (Str.split backticks
                (nth 1 (Str.split (backticks ++ "json") result) "")) "")
  else if Str.contains backticks result then
    Str.strip
      (nth 0 (Str.split backticks
                (nth 1 (Str.split backticks result) "")) "")
  else result.

(** Lines 210-228: the repair of a text that looks cut off. *)
Definition repair_truncated (result : string) : string :=
  if Str.endswith "..." result || negb (Str.endswith "}" result) then
    let open_braces := Str.count "{" result - Str.count "}" result in
    let result :=
      if Str.contains "..." result then
        let last_comma := Str.rfind "," result in
        let last_quote := Str.rfind_in dquote result 0 last_comma in
        if 0 <? last_quote then Str.slice result 0 (last_quote + 1)
        else result
      else result in
    let result :=
      if negb (Str.count dquote result mod 2 =? 0) then result ++ dquote
      else result in
    result ++ Str.repeat "}" open_braces
  else result.

Definition required_fields : list string :=
  ["rating"; "strengths"; "improvements"].

(** Lines 241-244: the first required field that is missing raises
    [ValueError]. *)
Fixpoint check_required (fields : list string) (ev : py_value)
  : result unit :=
  match fields with
  | [] => Ok tt
  | field :: fields' =>
      present <- Py.contains field ev ;;
      if present then check_required fields' ev else Raise ValueError
  end.

(** Lines 252-254: a rating below 1.0 or above 10.0 is brought back to the
    nearer bound. *)
Definition clamp (rating : float) : float :=
  if ((rating <? 1.0) || (10.0 <? rating))%float
  then PyFloat.max 1.0 (PyFloat.min 10.0 rating)
  else rating.

(** Lines 234-260: validation and normalisation of the parsed value. *)
Definition normalize `{Builtins} (ev : py_value) : result evaluation :=
  has_mp <- Py.contains "missing_points" ev ;;
  ev <- (if has_mp then
           mp <- Py.getitem ev "missing_points" ;;
           match mp with
           | PyList items =>
               Py.setitem ev "missing_points"
                 (PyStr (Str.join ", " (map Py.str items)))
           | PyStr _ => Ok ev
           | _ => Py.setitem ev "missing_points" (PyStr (Py.str mp))
           end
         else Ok ev) ;;
  _ <- check_required required_fields ev ;;
  has_mp <- Py.contains "missing_points" ev ;;
  ev <- (if negb has_mp then Py.setitem ev "missing_points" (PyStr "N/A")
         else Ok ev) ;;
  r <- Py.getitem ev "rating" ;;
  rating <- Py.float r ;;
  let rating := clamp rating in
  ev <- Py.setitem ev "rating" (PyFloat (PyFloat.round2 rating)) ;;
  s <- Py.getitem ev "strengths" ;;
  ev <- Py.setitem ev "strengths" (PyStr (Str.strip (Py.str s))) ;;
  i <- Py.getitem ev "improvements" ;;
  ev <- Py.setitem ev "improvements" (PyStr (Str.strip (Py.str i))) ;;
  m <- Py.getitem ev "missing_points" ;;
  ev <- Py.setitem ev "missing_points" (PyStr (Str.strip (Py.str m))) ;;
  Ok {| ev_rating := PyFloat.round2 rating;
        ev_strengths := Str.strip (Py.str s);
        ev_improvements := Str.strip (Py.str i);
        ev_missing_points := Str.strip (Py.str m) |}.

Definition dont_know_phrases : list string :=
  ["i dont know"; "i don't know"; "idk"; "no idea"; "dont know";
   "don't know"; "not sure"; "no clue"].

(** Lines 277-283: the local variables [answer_length] and [is_dont_know]
    of the fallback. *)
Definition answer_length (answer : string) : Z :=
  Z.of_nat (List.length (Str.words answer)).

Definition is_dont_know (answer : string) : bool :=
  let answer_lower := Str.strip (Str.lower answer) in
  existsb (fun phrase => Str.contains phrase answer_lower) dont_know_phrases.

Definition unparsed : string :=
  "Unable to parse detailed feedback from evaluation system".

(** Lines 276-307: the evaluation made from the answer alone. *)
Definition fallback (answer : string) : evaluation :=
  if is_dont_know answer || (answer_length answer <? 3) then
    {| ev_rating := 1.50;
       ev_strengths := "Candidate was honest about not knowing";
       ev_improvements := "Study the topic and provide a substantive answer";
       ev_missing_points := unparsed |}
  else if answer_length answer <? 10 then
    {| ev_rating := 3.00;
       ev_strengths := "Brief attempt at answering";
       ev_improvements := "Provide more detailed explanation with examples";
       ev_missing_points := unparsed |}
  else if answer_length answer <? 30 then
    {| ev_rating := 5.00;
       ev_strengths := "Provided some relevant information";
       ev_improvements := "Expand on concepts and add more depth";
       ev_missing_points := unparsed |}
  else
    {| ev_rating := 6.00;
       ev_strengths := "Detailed response provided";
       ev_improvements := "Structure could be improved for clarity";
       ev_missing_points := unparsed |}.

Definition max_retries : Z := 2.

(** The body of the [try] of one attempt, from the response of the model
    on: the value of the variable [result] where the body stopped, and the
    evaluation or the exception. *)
Definition parse_response `{Builtins} (content : string)
  : string * result evaluation :=
  let result := Str.strip content in
  let result := strip_code_fence result in
  let result := repair_truncated result in
  (result, (ev <- json_loads result ;; normalize ev)).

(** The loop [for attempt in range(max_retries)], [n] attempts being left.
    [result_var] is the variable [result], unbound until a response has
    come; the handler of the parsing errors reads it. A loop that runs out
    returns [None]. *)
Fixpoint attempts `{Builtins} (n : nat) (attempt : Z) (prompt : prompt)
    (answer : string) (result_var : option string) (a : agent) (w : world)
  : result (option evaluation) * agent * world :=
  match n with
  | O => (Ok None, a, w)
  | S n' =>
      let (response, w) := invoke prompt w in
      let (result_var, outcome) :=
        match response with
        | Ok content =>
            let (result, outcome) := parse_response content in
            (Some result, outcome)
        | Raise e => (result_var, Raise e)
        end in
      match outcome with
      | Ok evaluation =>
          (Ok (Some evaluation),
           with_memory a
             (memory a ++ [AnswerEvaluated (ev_rating evaluation)]), w)
      | Raise e =>
          if is_value_error e then
            match result_var with
            | None => (Raise UnboundLocalError, a, w)
            | Some _ =>
                if attempt =? max_retries - 1
                then (Ok (Some (fallback answer)), a, w)
                else attempts n' (attempt + 1) prompt answer result_var a w
            end
          else if attempt =? max_retries - 1 then (Raise e, a, w)
          else attempts n' (attempt + 1) prompt answer result_var a w
      end
  end.

(** ['gemini' in self.model_id.lower()] *)
Definition is_gemini (a : agent) : bool :=
  Str.contains "gemini" (Str.lower (model_id a)).

(** [evaluate_answer] *)
Definition evaluate_answer `{Builtins} (question answer : string)
    (a : agent) (w : world)
  : result (option evaluation) * agent * world :=
  let prompt_template :=
    if String.eqb (language a) "hi" then
      if is_gemini a then EVALUATION_PROMPT_HI_GEMINI
      else EVALUATION_PROMPT_HI_OPENROUTER
    else
      if is_gemini a then EVALUATION_PROMPT_EN_GEMINI
      else EVALUATION_PROMPT_EN_OPENROUTER in
  let prompt := EvaluationPrompt prompt_template question answer in
  attempts (Z.to_nat max_retries) 0 prompt answer None a w.

(** [generate_overall_summary] *)
Definition generate_overall_summary `{Builtins} (role : string)
    (history : list entry) (a : agent) (w : world) : result string * world :=
  match history with
  | [] => (Raise ZeroDivisionError, w)
  | _ =>
      let avg_rating :=
        (Py.sum (map rating history)
         / PyFloat.nearest false (Z.of_nat (List.length history)) 1)%float in
      let prompt :=
        SummaryPrompt OVERALL_SUMMARY_PROMPT role
                      (Z.of_nat (List.length history))
                      (PyFloat.round2 avg_rating) history in
      let (response, w) := invoke prompt w in
      match response with
      | Ok content => (Ok (Str.strip content), w)
      | Raise e => (Raise e, w)
      end
  end.

End Agent.

(** ** The Flask handlers of [app.py] *)

Module App.

Record api_keys_t : Type := {
  openrouter : option string;
  gemini : option string
}.

(** The session dictionary: a field is [None] while its key is absent. *)
Record session : Type := {
  resume_summary : option string;
  api_keys : option api_keys_t;
  role : option string;
  difficulty : option string;
  model_id : option string;
  language : option string;
  stt_mode : option string;
  hinglish_mode : option py_value;
  interview_history : option (list entry);
  question_count : option Z;
  current_question : option string;
  last_rating : option float
}.

(** [session.clear()] *)
Definition cleared : session :=
  {| resume_summary := None; api_keys := None; role := None;
     difficulty := None; model_id := None; language := None;
     stt_mode := None; hinglish_mode := None; interview_history := None;
     question_count := None; current_question := None;
     last_rating := None |}.

Definition set_difficulty (s : session) (v : string) : session :=
  {| resume_summary := resume_summary s; api_keys := api_keys s;
     role := role s; difficulty := Some v; model_id := model_id s;
     language := language s; stt_mode := stt_mode s;
     hinglish_mode := hinglish_mode s;
     interview_history := interview_history s;
     question_count := question_count s;
     current_question := current_question s;
     last_rating := last_rating s |}.

Definition set_language (s : session) (v : string) : session :=
  {| resume_summary := resume_summary s; api_keys := api_keys s;
     role := role s; difficulty := difficulty s; model_id := model_id s;
     language := Some v; stt_mode := stt_mode s;
     hinglish_mode := hinglish_mode s;
     interview_history := interview_history s;
     question_count := question_count s;
     current_question := current_question s;
     last_rating := last_rating s |}.

Definition set_interview_history (s : session) (v : list entry) : session :=
  {| resume_summary := resume_summary s; api_keys := api_keys s;
     role := role s; difficulty := difficulty s; model_id := model_id s;
     language := language s; stt_mode := stt_mode s;
     hinglish_mode := hinglish_mode s;
     interview_history := Some v;
     question_count := question_count s;
     current_question := current_question s;
     last_rating := last_rating s |}.

Definition set_question_count (s : session) (v : Z) : session :=
  {| resume_summary := resume_summary s; api_keys := api_keys s;
     role := role s; difficulty := difficulty s; model_id := model_id s;
     language := language s; stt_mode := stt_mode s;
     hinglish_mode := hinglish_mode s;
     interview_history := interview_history s;
     question_count := Some v;
     current_question := current_question s;
     last_rating := last_rating s |}.

Definition set_current_question (s : session) (v : string) : session :=
  {| resume_summary := resume_summary s; api_keys := api_keys s;
     role := role s; difficulty := difficulty s; model_id := model_id s;
     language := language s; stt_mode := stt_mode s;
     hinglish_mode := hinglish_mode s;
     interview_history := interview_history s;
     question_count := question_count s;
     current_question := Some v;
     last_rating := last_rating s |}.

Definition set_last_rating (s : session) (v : float) : session :=
  {| resume_summary := resume_summary s; api_keys := api_keys s;
     role := role s; difficulty := difficulty s; model_id := model_id s;
     language := language s; stt_mode := stt_mode s;
     hinglish_mode := hinglish_mode s;
     interview_history := interview_history s;
     question_count := question_count s;
     current_question := current_question s;
     last_rating := Some v |}.

(** [session[k]] *)
Definition key {A : Type} (field : option A) : result A :=
  match field with
  | Some v => Ok v
  | None => Raise KeyError
  end.

(** The bundle handed to [generate_pdf_report]. *)
Record report_data : Type := {
  rd_role : string;
  rd_difficulty : string;
  rd_model : string;
  rd_language : string;
  rd_num_questions : Z;
  rd_history : list entry;
  rd_overall_summary : string;
  rd_avg_rating : float
}.

(** The JSON bodies of the responses. [Failure what e] is the body
    [{"error": f"{what}: {str(e)}"}] of a handler that caught [e], and
    [Unhandled e] the page Flask answers with, under the status 500, when
    [e] leaves a handler. *)
Inductive body : Type :=
| Error (message : string)
| Failure (what : string) (e : exn)
| Unhandled (e : exn)
| Initialized (role difficulty model language : string)
| Question (question : string) (question_number : Z) (language : string)
| Evaluated (evaluation : Agent.evaluation)
    (updated_difficulty previous_difficulty : string)
    (total_questions : Z) (language : string)
| ReportFile (report : report_data)
| Ended.

Record response : Type := {
  status : Z;
  payload : body
}.

Definition respond (code : Z) (b : body) : response :=
  {| status := code; payload := b |}.

(** A JSON body that is no object, as [request.get_json()] returns it:
    [None] for null, a [bool], an [int], a [float], a [str] or a [list]. *)
Inductive other_json : Type :=
| JsonNull
| JsonBool (b : bool)
| JsonInt (z : Z)
| JsonFloat (f : float)
| JsonString (s : string)
| JsonArray (l : list py_value).

Definition value (data : other_json) : py_value :=
  match data with
  | JsonNull => PyNone
  | JsonBool b => PyBool b
  | JsonInt z => PyInt z
  | JsonFloat f => PyFloat f
  | JsonString s => PyStr s
  | JsonArray l => PyList l
  end.

(** The fields of the JSON body of [/api/start-interview], when the body
    is an object: a field is [None] when the object has no such key. The
    values of the fields that the program later uses as text are strings
    here; [hinglish_mode] is any value. *)
Record start_data : Type := {
  sd_role : option string;
  sd_difficulty : option string;
  sd_model_id : option string;
  sd_language : option string;
  sd_stt_mode : option string;
  sd_hinglish_mode : option py_value
}.

(** [start_interview] *)
Definition start_interview (data : start_data) (s : session)
  : response * session :=
  match sd_role data, sd_difficulty data, sd_model_id data,
        sd_language data with
  | None, _, _, _ =>
      (respond 400 (Error "Missing required field: role"), s)
  | _, None, _, _ =>
      (respond 400 (Error "Missing required field: difficulty"), s)
  | _, _, None, _ =>
      (respond 400 (Error "Missing required field: model_id"), s)
  | _, _, _, None =>
      (respond 400 (Error "Missing required field: language"), s)
  | Some d_role, Some d_difficulty, Some d_model_id, Some d_language =>
      match resume_summary s with
      | None => (respond 400 (Error "Please upload a resume first"), s)
      | Some _ =>
          let hinglish :=
            match sd_hinglish_mode data with
            | Some v => v
            | None => PyBool false
            end in
          let language :=
            if Py.truthy hinglish then "hi" else d_language in
          let s :=
            {| resume_summary := resume_summary s;
               api_keys := api_keys s;
               role := Some d_role;
               difficulty := Some d_difficulty;
               model_id := Some d_model_id;
               language := Some language;
               stt_mode := Some match sd_stt_mode data with
                                | Some m => m
                                | None => "browser"
                                end;
               hinglish_mode := Some hinglish;
               interview_history := Some [];
               question_count := Some 0;
               current_question := current_question s;
               last_rating := last_rating s |} in
          (respond 200 (Initialized d_role d_difficulty d_model_id language),
           s)
      end
  end.

Definition required_fields : list string :=
  ["role"; "difficulty"; "model_id"; "language"].

(** Lines 168-171 of [start_interview] on any value: the first required
    field that is not [in data]. *)
Fixpoint first_missing (fields : list string) (data : py_value)
  : result (option string) :=
  match fields with
  | [] => Ok None
  | field :: fields' =>
      present <- Py.contains field data ;;
      if present then first_missing fields' data else Ok (Some field)
  end.

(** [start_interview] for a body that is no object. [field not in data]
    raises [TypeError] for a value that is no container, outside any [try];
    a string or an array that holds the four names passes the checks of the
    fields, and [data['role']] then raises [TypeError], before anything is
    stored. *)
Definition start_interview_other (data : other_json) (s : session)
  : response * session :=
  match first_missing required_fields (value data) with
  | Raise e => (respond 500 (Unhandled e), s)
  | Ok (Some field) =>
      (respond 400 (Error ("Missing required field: " ++ field)), s)
  | Ok None =>
      match resume_summary s with
      | None => (respond 400 (Error "Please upload a resume first"), s)
      | Some _ => (respond 500 (Unhandled TypeError), s)
      end
  end.

(** ["hinglish" if session.get('hinglish_mode') else session['language']] *)
Definition shown_language (s : session) : result string :=
  match hinglish_mode s with
  | Some v => if Py.truthy v then Ok "hinglish" else key (language s)
  | None => key (language s)
  end.

(** [get_next_question] *)
Definition get_next_question (s : session) (w : world)
  : response * session * world :=
  let missing (k : string) :=
    (respond 400 (Error ("Session expired or incomplete. Missing: " ++ k)),
     s, w) in
  match resume_summary s, role s, difficulty s, model_id s, language s,
        api_keys s with
  | None, _, _, _, _, _ => missing "resume_summary"
  | _, None, _, _, _, _ => missing "role"
  | _, _, None, _, _, _ => missing "difficulty"
  | _, _, _, None, _, _ => missing "model_id"
  | _, _, _, _, None, _ => missing "language"
  | _, _, _, _, _, None => missing "api_keys"
  | Some s_summary, Some s_role, Some s_difficulty, Some s_model_id,
    Some s_language, Some _ =>
      match Agent.init w s_model_id s_language with
      | Raise e =>
          (respond 500 (Failure "Failed to generate question" e), s, w)
      | Ok agent =>
          let history :=
            match interview_history s with
            | Some h => h
            | None => []
            end in
          let '(generated, _, w) :=
            Agent.generate_question s_summary s_role s_difficulty history
                                    agent w in
          match generated with
          | Raise e =>
              (respond 500 (Failure "Failed to generate question" e), s, w)
          | Ok question =>
              let s := set_current_question s question in
              let count :=
                match question_count s with
                | Some c => c
                | None => 0
                end + 1 in
              let s := set_question_count s count in
              match shown_language s with
              | Raise e =>
                  (respond 500 (Failure "Failed to generate question" e),
                   s, w)
              | Ok shown =>
                  (respond 200 (Question question count shown), s, w)
              end
          end
      end
  end.

Definition difficulty_order : list string := ["Easy"; "Medium"; "Hard"].

(** [l.index(x)] *)
Fixpoint index (x : string) (l : list string) : result Z :=
  match l with
  | [] => Raise ValueError
  | y :: l' =>
      if String.eqb y x then Ok 0
      else i <- index x l' ;; Ok (i + 1)
  end.

(** Lines 352-369 of [evaluate_answer]: the difficulty after an answer
    rated [rating]. *)
Definition next_difficulty (current_difficulty : string) (rating : float)
  : result string :=
  let new_difficulty := current_difficulty in
  current_index <- index current_difficulty difficulty_order ;;
  Ok (if (7.0 <? rating)%float then
        if current_index <? Z.of_nat (List.length difficulty_order) - 1
        then nth (Z.to_nat (current_index + 1)) difficulty_order ""
        else new_difficulty
      else if (rating <? 4.0)%float then
        if 0 <? current_index
        then nth (Z.to_nat (current_index - 1)) difficulty_order ""
        else new_difficulty
      else new_difficulty).

(** The fields of the JSON body of [/api/evaluate], when the body is an
    object: [ed_answer] is [None] when the object has no key [answer], and
    the answer is a string here. *)
Record evaluate_data : Type := {
  ed_answer : option string
}.

(** [evaluate_answer] *)
Definition evaluate_answer `{Builtins} (data : evaluate_data) (s : session)
    (w : world) : response * session * world :=
  let failed (e : exn) (s : session) (w : world) :=
    (respond 500 (Failure "Evaluation failed" e), s, w) in
  match ed_answer data with
  | None => (respond 400 (Error "No answer provided"), s, w)
  | Some d_answer =>
      match current_question s with
      | None => (respond 400 (Error "No active question to evaluate"), s, w)
      | Some s_question =>
          match (m <- key (model_id s) ;;
                 _ <- key (api_keys s) ;;
                 l <- key (language s) ;;
                 Agent.init w m l) with
          | Raise e => failed e s w
          | Ok agent =>
              let '(evaluated, _, w) :=
                Agent.evaluate_answer s_question d_answer agent w in
              match evaluated with
              | Raise e => failed e s w
              | Ok None => failed TypeError s w
              | Ok (Some evaluation) =>
                  let history_entry :=
                    {| question := s_question;
                       answer := d_answer;
                       rating := Agent.ev_rating evaluation;
                       strengths := Agent.ev_strengths evaluation;
                       improvements := Agent.ev_improvements evaluation;
                       missing_points :=
                         Agent.ev_missing_points evaluation |} in
                  let history :=
                    (match interview_history s with
                     | Some h => h
                     | None => []
                     end ++ [history_entry])%list in
                  let s := set_interview_history s history in
                  let s := set_last_rating s (Agent.ev_rating evaluation) in
                  match (current_difficulty <- key (difficulty s) ;;
                         new_difficulty <-
                           next_difficulty current_difficulty
                                           (Agent.ev_rating evaluation) ;;
                         Ok (current_difficulty, new_difficulty)) with
                  | Raise e => failed e s w
                  | Ok (current_difficulty, new_difficulty) =>
                      let s := set_difficulty s new_difficulty in
                      match shown_language s with
                      | Raise e => failed e s w
                      | Ok shown =>
                          (respond 200
                             (Evaluated evaluation new_difficulty
                                current_difficulty
                                (Z.of_nat (List.length history)) shown),
                           s, w)
                      end
                  end
              end
          end
      end
  end.

(** [evaluate_answer] for a body that is no object. ['answer' not in data]
    raises [TypeError] for a value that is no container, outside any [try];
    for a string or an array that holds ["answer"] the handler goes on, and
    once the agent is built [data['answer']] raises [TypeError] inside the
    [try]. *)
Definition evaluate_answer_other (data : other_json) (s : session)
    (w : world) : response * session * world :=
  match Py.contains "answer" (value data) with
  | Raise e => (respond 500 (Unhandled e), s, w)
  | Ok false => (respond 400 (Error "No answer provided"), s, w)
  | Ok true =>
      match current_question s with
      | None => (respond 400 (Error "No active question to evaluate"), s, w)
      | Some _ =>
          match (m <- key (model_id s) ;;
                 _ <- key (api_keys s) ;;
                 l <- key (language s) ;;
                 Agent.init w m l) with
          | Raise e => (respond 500 (Failure "Evaluation failed" e), s, w)
          | Ok _ =>
              (respond 500 (Failure "Evaluation failed" TypeError), s, w)
          end
      end
  end.

(** [f"interview_report_{report_data['role'].replace(' ', '_')}.pdf"] *)
Definition download_name (role : string) : string :=
  "interview_report_" ++ Str.replace " " "_" role ++ ".pdf".

(** [generate_report]; [render report] is the exception
    [generate_pdf_report] raises on [report], if any, and
    [send_file report name] the exception [send_file] raises for the
    document rendered from [report] and the download name [name], if any.
    The session is cleared between the two, inside the [try], so that an
    exception of [send_file] is answered with the status 500 when the
    session is empty already. *)
Definition generate_report `{Builtins} (render : report_data -> option exn)
    (send_file : report_data -> string -> option exn)
    (s : session) (w : world) : response * session * world :=
  let failed (e : exn) (s : session) (w : world) :=
    (respond 500 (Failure "Failed to generate report" e), s, w) in
  match interview_history s with
  | None | Some [] =>
      (respond 400 (Error "No interview data available"), s, w)
  | Some history =>
      match (m <- key (model_id s) ;;
             _ <- key (api_keys s) ;;
             l <- key (language s) ;;
             agent <- Agent.init w m l ;;
             s_role <- key (role s) ;;
             Ok (agent, s_role, m, l)) with
      | Raise e => failed e s w
      | Ok (agent, s_role, s_model_id, s_language) =>
          let (summarized, w) :=
            Agent.generate_overall_summary s_role history agent w in
          match (overall_summary <- summarized ;;
                 s_difficulty <- key (difficulty s) ;;
                 Ok (overall_summary, s_difficulty)) with
          | Raise e => failed e s w
          | Ok (overall_summary, s_difficulty) =>
              let report :=
                {| rd_role := s_role;
                   rd_difficulty := s_difficulty;
                   rd_model := s_model_id;
                   rd_language := s_language;
                   rd_num_questions := Z.of_nat (List.length history);
                   rd_history := history;
                   rd_overall_summary := overall_summary;
                   rd_avg_rating :=
                     (Py.sum (map rating history)
                      / PyFloat.nearest false
                          (Z.of_nat (List.length history)) 1)%float |} in
              match render report with
              | Some e => failed e s w
              | None =>
                  let s := cleared in
                  match send_file report (download_name (rd_role report)) with
                  | Some e => failed e s w
                  | None => (respond 200 (ReportFile report), s, w)
                  end
              end
          end
      end
  end.

(** [end_session] *)
Definition end_session (s : session) : response * session :=
  (respond 200 Ended, cleared).

(** The requests of one client, and the handler each one reaches; a
    request with a body is given with the fields of its object, or with its
    value when the body is no object. *)
Inductive request : Type :=
| StartInterview (data : start_data)
| NextQuestion
| Evaluate (data : evaluate_data)
| GenerateReport
| EndSession
| StartInterviewOther (data : other_json)
| EvaluateOther (data : other_json).

Definition handle `{Builtins} (render : report_data -> option exn)
    (send_file : report_data -> string -> option exn)
    (r : request) (s : session) (w : world) : response * session * world :=
  match r with
  | StartInterview data =>
      let (resp, s) := start_interview data s in (resp, s, w)
  | NextQuestion => get_next_question s w
  | Evaluate data => evaluate_answer data s w
  | GenerateReport => generate_report render send_file s w
  | EndSession => let (resp, s) := end_session s in (resp, s, w)
  | StartInterviewOther data =>
      let (resp, s) := start_interview_other data s in (resp, s, w)
  | EvaluateOther data => evaluate_answer_other data s w
  end.

(** The requests served in order, with the responses given. *)
Fixpoint serve `{Builtins} (render : report_data -> option exn)
    (send_file : report_data -> string -> option exn)
    (rs : list request) (s : session) (w : world)
  : list response * session * world :=
  match rs with
  | [] => ([], s, w)
  | r :: rs' =>
      let '(resp, s, w) := handle render send_file r s w in
      let '(resps, s, w) := serve render send_file rs' s w in
      (resp :: resps, s, w)
  end.

End App.

(** ** A decoder for JSON documents

    [Json.loads] follows [json.loads] on the documents whose characters and
    escapes stay below U+0100: its grammar (with the constants [NaN],
    [Infinity] and [-Infinity] the Python decoder accepts), integers of any
    size, floats rounded correctly, the last of several equal keys winning.
    An escape for a code point from U+0100 on is outside the model and is
    refused here. *)

Module Json.

Definition is_ws (c : ascii) : bool :=
  let n := nat_of_ascii c in
  ((n =? 32) || (n =? 9) || (n =? 10) || (n =? 13))%nat.

Fixpoint skip_ws (s : string) : string :=
  match s with
  | String c s' => if is_ws c then skip_ws s' else s
  | EmptyString => s
  end.

Definition digit (c : ascii) : option Z :=
  let n := nat_of_ascii c in
  if ((48 <=? n) && (n <=? 57))%nat then Some (Z.of_nat (n - 48)) else None.

Definition hex_digit (c : ascii) : option Z :=
  let n := nat_of_ascii c in
  if ((48 <=? n) && (n <=? 57))%nat then Some (Z.of_nat (n - 48))
  else if ((65 <=? n) && (n <=? 70))%nat then Some (Z.of_nat (n - 55))
  else if ((97 <=? n) && (n <=? 102))%nat then Some (Z.of_nat (n - 87))
  else None.

(** The digits at the head of [s]: their value after the digits read so far
    ([acc]), their number, and the rest. *)
Fixpoint digits (s : string) (acc : Z) (len : Z) : Z * Z * string :=
  match s with
  | String c s' =>
      match digit c with
      | Some d => digits s' (10 * acc + d) (len + 1)
      | None => (acc, len, s)
      end
  | EmptyString => (acc, len, s)
  end.

(** The text of a string after its opening quote, up to the closing one. *)
Fixpoint string_body (s : string) (acc : string) : option (string * string) :=
  match s with
  | EmptyString => None
  | String c s' =>
      let n := nat_of_ascii c in
      if (n =? 34)%nat then Some (Str.rev acc, s')
      else if (n =? 92)%nat then
        match s' with
        | EmptyString => None
        | String e s'' =>
            let simple (k : nat) :=
              string_body s'' (String (ascii_of_nat k) acc) in
            match nat_of_ascii e with
            | 34%nat => simple 34%nat
            | 92%nat => simple 92%nat
            | 47%nat => simple 47%nat
            | 98%nat => simple 8%nat
            | 102%nat => simple 12%nat
            | 110%nat => simple 10%nat
            | 114%nat => simple 13%nat
            | 116%nat => simple 9%nat
            | 117%nat =>
                match s'' with
                | String h1 (String h2 (String h3 (String h4 rest))) =>
                    match hex_digit h1, hex_digit h2, hex_digit h3,
                          hex_digit h4 with
                    | Some 0, Some 0, Some a, Some b =>
                        string_body rest
                          (String (ascii_of_nat (Z.to_nat (16 * a + b))) acc)
                    | _, _, _, _ => None
                    end
                | _ => None
                end
            | _ => None
            end
        end
      else if (n <? 32)%nat then None
      else string_body s' (String c acc)
  end.

(** A number at the head of [s]: an optional minus sign, then 0 or a run of
    digits that does not start with 0, then an optional fraction (a point
    and at least one digit) and an optional exponent (e or E, an optional
    sign, at least one digit). It is an [int] without fraction and exponent
    and a [float] with one of them. *)
Definition number (s : string) : option (py_value * string) :=
  let (neg, s1) :=
    match s with
    | String "-" r => (true, r)
    | _ => (false, s)
    end in
  let int_part :=
    match s1 with
    | String "0" r => Some (0, r)
    | String c _ =>
        match digit c with
        | Some _ => let '(v, _, r) := digits s1 0 0 in Some (v, r)
        | None => None
        end
    | EmptyString => None
    end in
  match int_part with
  | None => None
  | Some (ipart, s2) =>
      let '(mant, frac_len, s3) :=
        match s2 with
        | String "." r =>
            let '(v, len, r') := digits r ipart 0 in
            if 0 <? len then (v, Some len, r') else (ipart, None, s2)
        | _ => (ipart, None, s2)
        end in
      let exponent (r : string) (negative : bool) :=
        let '(v, len, r') := digits r 0 0 in
        if 0 <? len then (Some (if negative then - v else v), r')
        else (None, s3) in
      let '(exp, s4) :=
        match s3 with
        | String c r =>
            if Ascii.eqb c "e" || Ascii.eqb c "E" then
              match r with
              | String "-" r' => exponent r' true
              | String "+" r' => exponent r' false
              | _ => exponent r false
              end
            else (None, s3)
        | EmptyString => (None, s3)
        end in
      match frac_len, exp with
      | None, None => Some (PyInt (if neg then - ipart else ipart), s4)
      | _, _ =>
          let e10 :=
            match exp with Some e => e | None => 0 end
            - match frac_len with Some l => l | None => 0 end in
          let f :=
            if 0 <=? e10 then PyFloat.nearest neg (mant * 10 ^ e10) 1
            else PyFloat.nearest neg mant (10 ^ (- e10)) in
          Some (PyFloat f, s4)
      end
  end.

(** [s] without the word [w] at its head. *)
Definition after (w s : string) : option string :=
  if prefix w s then Some (Str.drop (String.length w) s) else None.

Definition dict_of_items (items : list (string * py_value))
  : list (string * py_value) :=
  fold_left (fun d kv => Py.dict_set (fst kv) (snd kv) d) items [].

(** One value at the head of [s], and what follows a list or a dict once
    its first item is due. [fuel] bounds the number of nested calls. *)
Fixpoint value (fuel : nat) (s : string) : option (py_value * string) :=
  match fuel with
  | O => None
  | S fuel' =>
      match s with
      | EmptyString => None
      | String c s' =>
          match nat_of_ascii c with
          | 34%nat =>
              match string_body s' EmptyString with
              | Some (str, r) => Some (PyStr str, r)
              | None => None
              end
          | 123%nat =>
              match skip_ws s' with
              | String "}" r => Some (PyDict [], r)
              | r =>
                  match members fuel' r [] with
                  | Some (items, r') => Some (PyDict (dict_of_items items), r')
                  | None => None
                  end
              end
          | 91%nat =>
              match skip_ws s' with
              | String "]" r => Some (PyList [], r)
              | r =>
                  match elements fuel' r [] with
                  | Some (items, r') => Some (PyList items, r')
                  | None => None
                  end
              end
          | 110%nat => option_map (pair PyNone) (after "null" s)
          | 116%nat => option_map (pair (PyBool true)) (after "true" s)
          | 102%nat => option_map (pair (PyBool false)) (after "false" s)
          | 78%nat => option_map (pair (PyFloat nan)) (after "NaN" s)
          | 73%nat =>
              option_map (pair (PyFloat infinity)) (after "Infinity" s)
          | _ =>
              match number s with
              | Some r => Some r
              | None =>
                  option_map (pair (PyFloat neg_infinity))
                             (after "-Infinity" s)
              end
          end
      end
  end

with elements (fuel : nat) (s : string) (acc : list py_value)
  : option (list py_value * string) :=
  match fuel with
  | O => None
  | S fuel' =>
      match value fuel' s with
      | None => None
      | Some (v, r) =>
          match skip_ws r with
          | String "]" r' => Some (rev (v :: acc), r')
          | String "," r' => elements fuel' (skip_ws r') (v :: acc)
          | _ => None
          end
      end
  end

with members (fuel : nat) (s : string) (acc : list (string * py_value))
  : option (list (string * py_value) * string) :=
  match fuel with
  | O => None
  | S fuel' =>
      match s with
      | String c s' =>
          if (nat_of_ascii c =? 34)%nat then
            match string_body s' EmptyString with
            | None => None
            | Some (k, r) =>
                match skip_ws r with
                | String ":" r' =>
                    match value fuel' (skip_ws r') with
                    | None => None
                    | Some (v, r'') =>
                        match skip_ws r'' with
                        | String "}" r3 => Some (rev ((k, v) :: acc), r3)
                        | String "," r3 =>
                            members fuel' (skip_ws r3) ((k, v) :: acc)
                        | _ => None
                        end
                    end
                | _ => None
                end
            end
          else None
      | EmptyString => None
      end
  end.

(** [json.loads(s)] *)
Definition loads (s : string) : result py_value :=
  match value (2 * String.length s + 2) (skip_ws s) with
  | Some (v, r) =>
      match skip_ws r with
      | EmptyString => Ok v
      | _ => Raise JSONDecodeError
      end
  | None => Raise JSONDecodeError
  end.

End Json.

(** ** [repr] and [float] on strings *)

Module Repr.

Fixpoint nat_digits (fuel : nat) (n : Z) (acc : string) : string :=
  match fuel with
  | O => acc
  | S fuel' =>
      let acc := String (ascii_of_nat (Z.to_nat (48 + n mod 10))) acc in
      if n <? 10 then acc else nat_digits fuel' (n / 10) acc
  end.

(** The decimal digits of [n >= 0]. *)
Definition decimal (n : Z) : string :=
  nat_digits (S (Z.to_nat (Z.log2 n))) n EmptyString.

(** [repr(z)] for an [int] *)
Definition of_int (z : Z) : string :=
  if z <? 0 then "-" ++ decimal (- z) else decimal z.

Definition hex_char (n : Z) : ascii :=
  ascii_of_nat (Z.to_nat (if n <? 10 then 48 + n else 87 + n)).

Fixpoint escape (quote : ascii) (s : string) : string :=
  match s with
  | EmptyString => EmptyString
  | String c s' =>
      let n := Z.of_nat (nat_of_ascii c) in
      let piece :=
        if Ascii.eqb c quote || (n =? 92) then String "\" (String c "")
        else if n =? 9 then "\t"
        else if n =? 10 then "\n"
        else if n =? 13 then "\r"
        else if (n <? 32) || ((127 <=? n) && (n <=? 160)) || (n =? 173) then
          "\x" ++ String (hex_char (n / 16)) (String (hex_char (n mod 16)) "")
        else String c "" in
      piece ++ escape quote s'
  end.

(** [repr(s)] for a [str] *)
Definition of_str (s : string) : string :=
  let apostrophe := ascii_of_nat 39 in
  let quote :=
    if Str.contains (String apostrophe "") s
       && negb (Str.contains Agent.dquote s)
    then ascii_of_nat 34 else apostrophe in
  String quote (escape quote s ++ String quote "").

(** The number of decimal digits before the point of [n / d > 0]: the
    [decpt] with [10 ^ (decpt - 1) <= n / d < 10 ^ decpt]. The estimate from
    the binary logarithms is at most one off, and corrected. *)
Definition decimal_point (n d : Z) : Z :=
  let below (e : Z) :=
    (* n / d < 10 ^ e *)
    if 0 <=? e then n <? d * 10 ^ e else n * 10 ^ (- e) <? d in
  let guess := ((Z.log2 n - Z.log2 d) * 30103) / 100000 in
  if below (guess - 1) then guess - 1
  else if below guess then guess
  else if below (guess + 1) then guess + 1
  else guess + 2.

(** The float nearest to [c * 10 ^ e]. *)
Definition of_decimal (neg : bool) (c e : Z) : float :=
  if 0 <=? e then PyFloat.nearest neg (c * 10 ^ e) 1
  else PyFloat.nearest neg c (10 ^ (- e)).

(** The shortest digit string that reads back as [x = n / d > 0], the
    nearest to [x] among those of that length: [p] digits are tried for
    [p = 18 - fuel, ...]; the result is the digits as a number, and their
    count. *)
Fixpoint shortest (fuel : nat) (x : float) (n d decpt : Z) (p : Z)
  : Z * Z :=
  (* x * 10 ^ (p - decpt) = sn / sd *)
  let e := p - decpt in
  let sn := if 0 <=? e then n * 10 ^ e else n in
  let sd := if 0 <=? e then d else d * 10 ^ (- e) in
  let lo := sn / sd in
  let hi := lo + 1 in
  let reads (c : Z) := (of_decimal false c (- e) =? x)%float in
  let pick :=
    match reads lo, reads hi with
    | true, false => Some lo
    | false, true => Some hi
    | false, false => None
    | true, true =>
        match 2 * (sn mod sd) ?= sd with
        | Lt => Some lo
        | Gt => Some hi
        | Eq => Some (if Z.even lo then lo else hi)
        end
    end in
  match pick, fuel with
  | Some c, _ => (c, p)
  | None, O => (lo, p)
  | None, S fuel' => shortest fuel' x n d decpt (p + 1)
  end.

Fixpoint strip_zeros (fuel : nat) (c len : Z) : Z * Z :=
  match fuel with
  | O => (c, len)
  | S fuel' =>
      if (c mod 10 =? 0) && (1 <? len) then strip_zeros fuel' (c / 10) (len - 1)
      else (c, len)
  end.

Definition zeros (n : Z) : string := Str.repeat "0" n.

(** [repr(x)] for a [float] *)
Definition of_float (x : float) : string :=
  match Prim2SF x with
  | S754_nan => "nan"
  | S754_infinity s => if s then "-inf" else "inf"
  | S754_zero s => if s then "-0.0" else "0.0"
  | S754_finite s m e =>
      let n := if 0 <=? e then Zpos m * 2 ^ e else Zpos m in
      let d := if 0 <=? e then 1 else 2 ^ (- e) in
      let decpt := decimal_point n d in
      let '(c, p) := shortest 17 (abs x) n d decpt 1 in
      (* c may have reached 10 ^ p *)
      let decpt := if c =? 10 ^ p then decpt + 1 else decpt in
      let '(c, len) :=
        strip_zeros 20 c (if c =? 10 ^ p then p + 1 else p) in
      let ds := decimal c in
      let body :=
        if (decpt <=? -4) || (16 <? decpt) then
          let ex := decpt - 1 in
          let mantissa :=
            if len =? 1 then ds
            else Str.take 1 ds ++ "." ++ Str.drop 1 ds in
          let ex_digits :=
            if Z.abs ex <? 10 then "0" ++ decimal (Z.abs ex)
            else decimal (Z.abs ex) in
          mantissa ++ "e" ++ (if ex <? 0 then "-" else "+") ++ ex_digits
        else if decpt <=? 0 then "0." ++ zeros (- decpt) ++ ds
        else if len <=? decpt then ds ++ zeros (decpt - len) ++ ".0"
        else Str.take (Z.to_nat decpt) ds ++ "."
             ++ Str.drop (Z.to_nat decpt) ds in
      if s then "-" ++ body else body
  end.

(** [repr(v)] *)
Fixpoint repr (v : py_value) : string :=
  match v with
  | PyNone => "None"
  | PyBool b => if b then "True" else "False"
  | PyInt z => of_int z
  | PyFloat f => of_float f
  | PyStr s => of_str s
  | PyList l => "[" ++ Str.join ", " (map repr l) ++ "]"
  | PyDict d =>
      "{" ++ Str.join ", "
               (map (fun kv => of_str (fst kv) ++ ": " ++ repr (snd kv)) d)
          ++ "}"
  end.

(** Digits with single underscores between them, as [float] and [int]
    accept them in a string: the value after [acc], the count, the rest. *)
Fixpoint grouped_digits (s : string) (acc : Z) (len : Z) : Z * Z * string :=
  match s with
  | String c s' =>
      match Json.digit c with
      | Some d =>
          match s' with
          | String "_" (String c' _ as s'') =>
              match Json.digit c' with
              | Some _ => grouped_digits s'' (10 * acc + d) (len + 1)
              | None => (10 * acc + d, len + 1, s')
              end
          | _ => grouped_digits s' (10 * acc + d) (len + 1)
          end
      | None => (acc, len, s)
      end
  | EmptyString => (acc, len, s)
  end.

(** [float(s)] for a [str]: surrounding whitespace is dropped; then a sign,
    and [inf], [infinity] or [nan] in any case, or digits with an optional
    point and an optional exponent. *)
Definition float_of_str (s : string) : option float :=
  let s := Str.strip s in
  let (neg, s1) :=
    match s with
    | String "-" r => (true, r)
    | String "+" r => (false, r)
    | _ => (false, s)
    end in
  let word := Str.lower s1 in
  if String.eqb word "inf" || String.eqb word "infinity" then
    Some (if neg then neg_infinity else infinity)
  else if String.eqb word "nan" then Some nan
  else
    let '(ipart, ilen, s2) := grouped_digits s1 0 0 in
    let '(mant, flen, s3) :=
      match s2 with
      | String "." r => grouped_digits r ipart 0
      | _ => (ipart, 0, s2)
      end in
    if (ilen + flen =? 0) then None
    else
      let exponent (r : string) (negative : bool) :=
        let '(v, len, r') := grouped_digits r 0 0 in
        if 0 <? len then Some (if negative then - v else v, r') else None in
      let tail :=
        match s3 with
        | EmptyString => Some (0, s3)
        | String c r =>
            if Ascii.eqb c "e" || Ascii.eqb c "E" then
              match r with
              | String "-" r' => exponent r' true
              | String "+" r' => exponent r' false
              | _ => exponent r false
              end
            else None
        end in
      match tail with
      | Some (ex, EmptyString) => Some (of_decimal neg mant (ex - flen))
      | _ => None
      end.

End Repr.

(** The library functions as defined above, with the [sum] of CPython
    before version 3.12, and with the one of the later versions. *)
Definition reference : Builtins :=
  {| json_loads := Json.loads;
     py_repr := Repr.repr;
     float_of_str := Repr.float_of_str;
     sum_is_compensated := false |}.

Definition reference_compensated : Builtins :=
  {| json_loads := Json.loads;
     py_repr := Repr.repr;
     float_of_str := Repr.float_of_str;
     sum_is_compensated := true |}.

(** ** The levels of the specification *)

(** The ordered levels EASY < MEDIUM < HARD, with the names the program
    gives them, one step up and one step down. *)
Inductive level : Type := EASY | MEDIUM | HARD.

Definition level_name (l : level) : string :=
  match l with
  | EASY => "Easy"
  | MEDIUM => "Medium"
  | HARD => "Hard"
  end.

Definition step_up (l : level) : level :=
  match l with
  | EASY => MEDIUM
  | MEDIUM => HARD
  | HARD => HARD
  end.

Definition step_down (l : level) : level :=
  match l with
  | EASY => EASY
  | MEDIUM => EASY
  | HARD => MEDIUM
  end.

(** ** Notions used in the statements *)

(** What one attempt comes to: the evaluation parsed from the text of the
    response, or the exception of the call or of the parsing. *)
Definition attempt_outcome `{Builtins} (response : result string)
  : result Agent.evaluation :=
  match response with
  | Ok content => snd (Agent.parse_response content)
  | Raise e => Raise e
  end.

(** The configuration of a session: what [start_interview] and the upload
    set, and the turns of the interview read. *)
Definition same_setup (s s' : App.session) : Prop :=
  App.resume_summary s' = App.resume_summary s
  /\ App.api_keys s' = App.api_keys s
  /\ App.role s' = App.role s
  /\ App.model_id s' = App.model_id s
  /\ App.language s' = App.language s
  /\ App.stt_mode s' = App.stt_mode s
  /\ App.hinglish_mode s' = App.hinglish_mode s.

(** The requests of the turns of an interview: for a question, and for
    the evaluation of an answer, whatever the body. *)
Definition is_turn (r : App.request) : Prop :=
  match r with
  | App.NextQuestion | App.Evaluate _ | App.EvaluateOther _ => True
  | _ => False
  end.

Fixpoint questions_asked (rs : list App.request) : Z :=
  match rs with
  | [] => 0
  | App.NextQuestion :: rs' => 1 + questions_asked rs'
  | _ :: rs' => questions_asked rs'
  end.

Fixpoint answers_given (rs : list App.request) : nat :=
  match rs with
  | [] => 0
  | App.Evaluate _ :: rs' => S (answers_given rs')
  | _ :: rs' => answers_given rs'
  end.

Definition hindi_template (t : template) : bool :=
  match t with
  | QUESTION_GENERATION_PROMPT_HI
  | EVALUATION_PROMPT_HI_GEMINI
  | EVALUATION_PROMPT_HI_OPENROUTER => true
  | _ => false
  end.

(** The templates a session of the given language may use in its turns. *)
Definition templates_for (language : string) : list template :=
  if String.eqb language "hi" then
    [QUESTION_GENERATION_PROMPT_HI; EVALUATION_PROMPT_HI_GEMINI;
     EVALUATION_PROMPT_HI_OPENROUTER]
  else
    [QUESTION_GENERATION_PROMPT_EN; EVALUATION_PROMPT_EN_GEMINI;
     EVALUATION_PROMPT_EN_OPENROUTER].

(** The prompts [p] logged between [w] and [w'] all satisfy [P]. *)
Definition calls_added (P : prompt -> Prop) (w w' : world) : Prop :=
  exists new : list prompt,
    calls w' = (calls w ++ new)%list /\ Forall P new.


(** The report built from a session with history [h] once the model gave
    the text [text] for the summary. *)
Definition report_for `{Builtins} (role difficulty model language : string)
    (h : list entry) (text : string) : App.report_data :=
  {| App.rd_role := role;
     App.rd_difficulty := difficulty;
     App.rd_model := model;
     App.rd_language := language;
     App.rd_num_questions := Z.of_nat (List.length h);
     App.rd_history := h;
     App.rd_overall_summary := Str.strip text;
     App.rd_avg_rating :=
       (Py.sum (map rating h)
        / PyFloat.nearest false (Z.of_nat (List.length h)) 1)%float |}.



(** The float nearest to [k] hundredths lies between 1 and 10 and is left
    as it is by the rounding to two decimals. *)
Definition stable (k : Z) : bool :=
  let v := PyFloat.nearest false k 100 in
  (1 <=? v)%float && (v <=? 10)%float
  && PrimFloat.Leibniz.eqb (PyFloat.round2 v) v.

(** Strings of whitespace only; strings that start, and that end, with a
    character that is no whitespace. *)
Fixpoint all_space (s : string) : bool :=
  match s with
  | EmptyString => true
  | String c s' => Str.isspace c && all_space s'
  end.

Definition starts_solid (p : string) : bool :=
  match p with
  | EmptyString => false
  | String c _ => negb (Str.isspace c)
  end.

Fixpoint ends_solid (p : string) : bool :=
  match p with
  | EmptyString => false
  | String c EmptyString => negb (Str.isspace c)
  | String _ p' => ends_solid p'
  end.

(** ** A concrete interview *)

(** A world whose model gives the listed responses in order and whose
    clients are built without error. *)
Definition scripted (responses : list (result string)) : world :=
  {| replies := fun n => nth n responses (Raise (OtherError "no response"));
     client_init := fun _ => None;
     calls := [] |}.

(** The session after a resume was uploaded. *)
Definition uploaded : App.session :=
  {| App.resume_summary := Some "Backend developer, five years of Python";
     App.api_keys := Some {| App.openrouter := None;
                             App.gemini := Some "key" |};
     App.role := None; App.difficulty := None; App.model_id := None;
     App.language := None; App.stt_mode := None;
     App.hinglish_mode := None; App.interview_history := None;
     App.question_count := None; App.current_question := None;
     App.last_rating := None |}.

Definition start_easy (language : string) (hinglish : option py_value)
  : App.start_data :=
  {| App.sd_role := Some "Backend Engineer";
     App.sd_difficulty := Some "Easy";
     App.sd_model_id := Some "gemini-2.5-flash";
     App.sd_language := Some language;
     App.sd_stt_mode := None;
     App.sd_hinglish_mode := hinglish |}.

Definition answer_of (text : string) : App.evaluate_data :=
  {| App.ed_answer := Some text |}.

Definition quoted (s : string) : string :=
  Agent.dquote ++ s ++ Agent.dquote.

(** The JSON text of an evaluation with the rating written [rating]. *)
Definition evaluation_json (rating : string) : string :=
  "{" ++ quoted "rating" ++ ": " ++ rating ++ ", "
      ++ quoted "strengths" ++ ": " ++ quoted "clear" ++ ", "
      ++ quoted "improvements" ++ ": " ++ quoted "give examples" ++ ", "
      ++ quoted "missing_points" ++ ": " ++ quoted "complexity" ++ "}".

Definition renders : App.report_data -> option exn := fun _ => None.

Definition sends : App.report_data -> string -> option exn :=
  fun _ _ => None.

Definition first_turn : list App.request :=
  [App.StartInterview (start_easy "en" None);
   App.NextQuestion;
   App.Evaluate (answer_of "A list keeps its items in order")].

Definition first_turn_world : world :=
  scripted [Ok "What is a list?"; Ok (evaluation_json "8.2")].

Definition two_questions : list App.request :=
  [App.NextQuestion;
   App.Evaluate (answer_of "A list keeps its items in order");
   App.NextQuestion].

Definition two_questions_world : world :=
  scripted [Ok "What is a list?"; Ok (evaluation_json "8.2");
            Ok "How does a dictionary find a key?"].

Definition started : App.session :=
  snd (App.start_interview (start_easy "en" None) uploaded).

Definition hinglish_turn_world : world :=
  scripted [Ok "Python mein list kya hoti hai?"; Ok (evaluation_json "8.2")].

(** The interview of the specification: ratings 8.2, 3.0 and 5.0. *)
Definition three_turns : list App.request :=
  [App.StartInterview (start_easy "en" None);
   App.NextQuestion;
   App.Evaluate (answer_of "A list keeps its items in order");
   App.NextQuestion;
   App.Evaluate (answer_of "It compares the key with every entry");
   App.NextQuestion;
   App.Evaluate (answer_of "A tuple cannot be changed once it is built")].

Definition three_turns_world (summary : result string) : world :=
  scripted [Ok "What is a list?"; Ok (evaluation_json "8.2");
            Ok "How does a dictionary find a key?";
            Ok (evaluation_json "3.0");
            Ok "What is a tuple?"; Ok (evaluation_json "5.0");
            summary].

(** The session when the three answers are recorded. *)
Definition interviewed : App.session :=
  snd (fst (@App.serve reference renders sends three_turns uploaded
                       (three_turns_world (Ok "Solid basics")))).

Definition interviewed_world : world :=
  snd (@App.serve reference renders sends three_turns uploaded
                  (three_turns_world (Ok "Solid basics"))).

(** The difficulty before and after, as a response to an answer reports
    them. *)
Definition difficulty_step (resp : App.response) : option (string * string) :=
  match App.payload resp with
  | App.Evaluated _ updated previous _ _ => Some (previous, updated)
  | _ => None
  end.

Definition gemini_agent : Agent.agent :=
  {| Agent.model_id := "gemini-2.5-flash";
     Agent.language := "en";
     Agent.memory := [] |}.

Definition fifteen_words : string :=
  "the quick brown fox jumps over the lazy dog and then it runs far away".

Definition numbered (ks : list nat) : list Agent.message :=
  map (fun k => Agent.GeneratedQuestion (Repr.decimal (Z.of_nat k))) ks.

Definition agent_with_22_messages : Agent.agent :=
  Agent.with_memory gemini_agent (numbered (seq 1 22)).

(** A record whose rating lies above the range. *)
Definition parsed_record : py_value :=
  PyDict [("rating", PyFloat 11.5); ("strengths", PyStr "clear");
          ("improvements", PyStr "give examples")].

(** * The rest of the program

    What follows embeds the code around the interview turns: the choice of
    the model client and the texts of the prompts ([langchain_agent.py],
    [prompts.py]), the handlers for the upload, the transcription and the
    configuration ([app.py]), and the contents of the report
    ([report_generator.py]). *)

(** ** The templates of [prompts.py] *)

Module Prompts.

Definition q : string := Agent.dquote.

Definition RESUME_SUMMARY_PROMPT : string :=
  "You are an expert resume analyzer. Your task is to read the provided resume text and generate a concise, structured summary in exactly 150 words.

Focus on:
1. Professional background and years of experience
2. Key technical skills and expertise areas
3. Notable achievements or projects
4. Educational qualifications
5. Domain specialization

Resume Text:
{resume_text}

Provide a professional summary that captures the candidate's core competencies.".

Definition QUESTION_GENERATION_PROMPT_EN : string :=
  "You are an expert technical interviewer conducting a {difficulty} difficulty interview for a {role} position.

Resume Summary:
{resume_summary}

Current Difficulty Level: {difficulty}

Last Answer Rating: {last_rating}/10

Conversation History:
{history}

Instructions:
1. Generate ONE relevant interview question appropriate for the {difficulty} level.
2. The question should be based on the candidate's resume and the role requirements.
3. For Easy: Focus on fundamental concepts and definitions.
4. For Medium: Ask about practical applications and problem-solving.
5. For Hard: Dive into complex scenarios, system design, or advanced concepts.
6. Ensure variety - don't repeat similar questions.
7. Keep questions clear and concise (max 2 sentences).

TONE INSTRUCTIONS (CRITICAL):
- Be conversational and human-like.
- **CONDITIONAL PRAISE**: If last_rating >= 7.0, use positive reinforcement (e.g., " ++ q ++ "Great explanation!" ++ q ++ ", " ++ q ++ "That's a solid answer." ++ q ++ "). If last_rating < 7.0 or is " ++ q ++ "N/A" ++ q ++ ", use neutral transitions (e.g., " ++ q ++ "Moving on..." ++ q ++ ", " ++ q ++ "Let's discuss..." ++ q ++ ").
- Use natural transitions based on the previous answer context.
- **DO NOT** use robotic meta-commentary like " ++ q ++ "Here is your question" ++ q ++ ", " ++ q ++ "Based on your resume" ++ q ++ ", or " ++ q ++ "Let's switch topics" ++ q ++ ". Just ask the question naturally.
- **DO NOT** explicitly mention the difficulty level or rating score in your output.

Generate the next interview question:".

Definition QUESTION_GENERATION_PROMPT_HI : string :=
  "Aap ek expert technical interviewer hain jo {role} profile ke liye {difficulty} difficulty level ka interview le rahe hain.

Resume Summary:
{resume_summary}

Current Difficulty Level: {difficulty}

Last Answer Rating: {last_rating}/10

Conversation History:
{history}

Instructions:
1. {difficulty} level ke liye ek relevant interview question generate kijiye.
2. Question candidate ke resume aur role requirements par based hona chahiye.
3. Easy ke liye: Basic concepts aur definitions par focus karein.
4. Medium ke liye: Practical applications aur problem-solving ke baare mein puchiye.
5. Hard ke liye: Complex scenarios, system design ya advanced concepts mein jaiye.
6. Variety ensure karein - similar questions repeat mat kijiye.

TONE INSTRUCTIONS (CRITICAL):
- Conversational aur human-like rahiye.
- **CONDITIONAL PRAISE**: Agar last_rating >= 7.0 hai, toh positive reinforcement dijiye (jaise, " ++ q ++ "Bahut badhiya!" ++ q ++ ", " ++ q ++ "Ekdum sahi!" ++ q ++ ", " ++ q ++ "Great answer!" ++ q ++ "). Agar last_rating < 7.0 ya " ++ q ++ "N/A" ++ q ++ " hai, toh neutral transitions use karein (jaise, " ++ q ++ "Chalo aage badhte hain..." ++ q ++ ", " ++ q ++ "Ab next topic pe baat karte hain..." ++ q ++ ").
- Previous answer ke context ke basis par natural transitions use karein.
- **Robotic meta-commentary mat dijiye** jaise " ++ q ++ "Yeh hai aapka question" ++ q ++ ", " ++ q ++ "Aapke resume ke basis par" ++ q ++ ". Bas naturally question puchiye.
- Apne output mein difficulty level ya rating score ka mention mat karein.

Agla interview question generate karein (Hinglish mein):".

Definition EVALUATION_PROMPT_EN_GEMINI : string :=
  "You are an expert interviewer evaluating a candidate's answer.
Note: This answer is transcribed from speech, so focus on content rather than minor grammatical issues.

Interview Question: {question}

Candidate's Answer: {answer}

Evaluation Criteria:
1. Correctness: Is the answer factually accurate?
2. Completeness: Does it address all parts of the question?
3. Clarity: Is the explanation clear and well-structured?
4. Depth: Does it demonstrate understanding beyond surface level?

Provide your evaluation in the following JSON format:
{{
    " ++ q ++ "rating" ++ q ++ ": <float between 1.00 and 10.00, two decimal places>,
    " ++ q ++ "strengths" ++ q ++ ": " ++ q ++ "<detailed points on what was good>" ++ q ++ ",
    " ++ q ++ "improvements" ++ q ++ ": " ++ q ++ "<specific suggestions for improvement>" ++ q ++ ",
    " ++ q ++ "missing_points" ++ q ++ ": " ++ q ++ "<key concepts or details that were not mentioned>" ++ q ++ "
}}

IMPORTANT: Respond ONLY with valid JSON, no additional text.".

Definition EVALUATION_PROMPT_EN_OPENROUTER : string :=
  "You are an expert interviewer evaluating a candidate's answer.
Note: This answer is transcribed from speech, so focus on content rather than minor grammatical issues.

Interview Question: {question}

Candidate's Answer: {answer}

Provide your evaluation in the following JSON format (BE CONCISE):
{{
    " ++ q ++ "rating" ++ q ++ ": <float between 1.00 and 10.00, two decimal places>,
    " ++ q ++ "strengths" ++ q ++ ": " ++ q ++ "<brief points on what was good, max 50 words>" ++ q ++ ",
    " ++ q ++ "improvements" ++ q ++ ": " ++ q ++ "<specific suggestions, max 50 words>" ++ q ++ ",
    " ++ q ++ "missing_points" ++ q ++ ": " ++ q ++ "<key concepts not mentioned, max 50 words>" ++ q ++ "
}}

IMPORTANT: Respond ONLY with valid JSON, no additional text. Keep all fields under 50 words each.".

Definition EVALUATION_PROMPT_HI_GEMINI : string :=
  "Aap ek expert interviewer hain jo candidate ke answer ka evaluation kar rahe hain.

Note: Candidate ne English, Hindi, ya Hinglish (mix) mein answer diya hoga. 
Speech-to-text transcription mein errors ho sakti hain.
Aapka kaam: semantic intent ko samjhein aur accordingly evaluate karein.

Interview Question: {question}

Candidate ka Answer: {answer}

Evaluation Criteria:
1. Correctness: Kya answer factually sahi hai?
2. Completeness: Kya yeh question ke saare parts ko address karta hai?
3. Clarity: Kya explanation clear hai?
4. Depth: Kya yeh surface level se aage understanding dikhata hai?

Niche diye gaye JSON format mein apna evaluation provide karein (Hinglish mein):
{{
    " ++ q ++ "rating" ++ q ++ ": <1.00 se 10.00 ke beech float, do decimal places>,
    " ++ q ++ "strengths" ++ q ++ ": " ++ q ++ "<Kya achha tha - detail mein Hinglish mein>" ++ q ++ ",
    " ++ q ++ "improvements" ++ q ++ ": " ++ q ++ "<Improvement ke liye suggestions - detail mein Hinglish mein>" ++ q ++ ",
    " ++ q ++ "missing_points" ++ q ++ ": " ++ q ++ "<Jo main concepts nahi bataye gaye - detail mein Hinglish mein>" ++ q ++ "
}}

Important: Sirf valid JSON mein answer dein, koi extra text nahi.".

Definition EVALUATION_PROMPT_HI_OPENROUTER : string :=
  "Aap ek expert interviewer hain jo candidate ke answer ka evaluation kar rahe hain.

Note: Candidate ne English, Hindi, ya Hinglish (mix) mein answer diya hoga. 
Speech-to-text transcription mein errors ho sakti hain.

Interview Question: {question}

Candidate ka Answer: {answer}

Niche diye gaye JSON format mein apna evaluation provide karein (concise rakhein):
{{
    " ++ q ++ "rating" ++ q ++ ": <1.00 se 10.00 ke beech float, do decimal places>,
    " ++ q ++ "strengths" ++ q ++ ": " ++ q ++ "<Kya achha tha - Hinglish mein, max 50 words>" ++ q ++ ",
    " ++ q ++ "improvements" ++ q ++ ": " ++ q ++ "<Improvement ke liye suggestions - Hinglish mein, max 50 words>" ++ q ++ ",
    " ++ q ++ "missing_points" ++ q ++ ": " ++ q ++ "<Jo main concepts nahi bataye gaye - Hinglish mein, max 50 words>" ++ q ++ "
}}

Important: Sirf valid JSON mein answer dein, koi extra text nahi. Saare fields 50 words se kam rakhein.".

Definition OVERALL_SUMMARY_PROMPT : string :=
  "You are an expert career coach reviewing a candidate's complete interview performance.

Role: {role}
Number of Questions: {num_questions}
Average Rating: {avg_rating}/10.00

Detailed Q&A History:
{history}

Provide a comprehensive performance summary covering:
1. Overall Strengths: Key areas where the candidate excelled
2. Areas for Improvement: Specific topics or skills needing development
3. Readiness Assessment: Is the candidate ready for this role? (Be honest)
4. Actionable Recommendations: 3-5 specific steps to improve

Keep the summary professional, constructive, and actionable (200-250 words).".

(** The value a name of a replacement field stands for, with keyword
    arguments only: a field without a name or with a number asks for a
    positional argument, which there is none of. *)
Definition all_digits (s : string) : bool :=
  forallb (fun c => match Json.digit c with Some _ => true | None => false end)
          (list_ascii_of_string s).

Definition field `{Builtins} (name : string)
    (kwargs : list (string * py_value)) : result string :=
  if all_digits name then Raise (OtherError "IndexError")
  else
    match Py.dict_get name kwargs with
    | Some v => Ok (Py.str v)
    | None => Raise KeyError
    end.

(** [template.format] with keyword arguments, read from the left: [{{] and [}}] stand
    for a brace, [{name}] for [str] of the value of [name], which is not
    read again; a brace on its own and a field that is not closed raise
    [ValueError]. [name] holds, reversed, the characters of the field being
    read. The fields with a conversion, a format, an attribute or an index
    are outside the model and reported as such. *)
Fixpoint scan `{Builtins} (s : string) (name : option string)
    (kwargs : list (string * py_value)) : result string :=
  match s, name with
  | EmptyString, None => Ok EmptyString
  | EmptyString, Some _ => Raise ValueError
  | String c s', Some acc =>
      if Ascii.eqb c "}" then
        value <- field (Str.rev acc) kwargs ;;
        rest <- scan s' None kwargs ;;
        Ok (value ++ rest)
      else if Ascii.eqb c "{" then Raise ValueError
      else if Ascii.eqb c "[" || Ascii.eqb c ":" || Ascii.eqb c "!"
              || Ascii.eqb c "." then
        Raise (OtherError "field outside the model")
      else scan s' (Some (String c acc)) kwargs
  | String c s', None =>
      if Ascii.eqb c "{" then
        match s' with
        | EmptyString => Raise ValueError
        | String c' s'' =>
            if Ascii.eqb c' "{" then
              rest <- scan s'' None kwargs ;;
              Ok (String "{" rest)
            else scan s' (Some EmptyString) kwargs
        end
      else if Ascii.eqb c "}" then
        match s' with
        | EmptyString => Raise ValueError
        | String c' s'' =>
            if Ascii.eqb c' "}" then
              rest <- scan s'' None kwargs ;;
              Ok (String "}" rest)
            else Raise ValueError
        end
      else
        rest <- scan s' None kwargs ;;
        Ok (String c rest)
  end.

Definition format `{Builtins} (template : string)
    (kwargs : list (string * py_value)) : result string :=
  scan template None kwargs.

End Prompts.

(** ** The texts of the prompts *)

Module PromptText.

Definition newline : string := String (ascii_of_nat 10) EmptyString.

(** The loop of [_format_history], from the entry numbered [i] on. *)
Fixpoint format_entries `{Builtins} (history : list entry) (i : Z)
    (formatted : string) : string :=
  match history with
  | [] => formatted
  | e :: history' =>
      let formatted :=
        formatted ++ "Q" ++ Py.str (PyInt i) ++ ": " ++ question e
                  ++ newline in
      let formatted :=
        formatted ++ "A" ++ Py.str (PyInt i) ++ ": " ++ answer e
                  ++ " (Rating: " ++ Py.str (PyFloat (rating e)) ++ "/10)"
                  ++ newline ++ newline in
      format_entries history' (i + 1) formatted
  end.

(** [_format_history] *)
Definition format_history `{Builtins} (history : list entry) : string :=
  match history with
  | [] => "No previous questions asked yet."
  | _ => Str.strip (format_entries history 1 EmptyString)
  end.

(** Lines 330-334 of [generate_overall_summary]: the text of the history
    for the summary. *)
Fixpoint history_text `{Builtins} (history : list entry) (i : Z)
    (text : string) : string :=
  match history with
  | [] => text
  | e :: history' =>
      let text :=
        text ++ newline ++ "Q" ++ Py.str (PyInt i) ++ ": " ++ question e
             ++ newline in
      let text :=
        text ++ "A" ++ Py.str (PyInt i) ++ ": " ++ answer e ++ newline in
      let text :=
        text ++ "Rating: " ++ Py.str (PyFloat (rating e))
             ++ "/10 | Strengths: " ++ strengths e
             ++ " | Improvements: " ++ improvements e ++ newline in
      history_text history' (i + 1) text
  end.

Definition template_text (t : template) : string :=
  match t with
  | QUESTION_GENERATION_PROMPT_EN => Prompts.QUESTION_GENERATION_PROMPT_EN
  | QUESTION_GENERATION_PROMPT_HI => Prompts.QUESTION_GENERATION_PROMPT_HI
  | EVALUATION_PROMPT_EN_GEMINI => Prompts.EVALUATION_PROMPT_EN_GEMINI
  | EVALUATION_PROMPT_EN_OPENROUTER =>
      Prompts.EVALUATION_PROMPT_EN_OPENROUTER
  | EVALUATION_PROMPT_HI_GEMINI => Prompts.EVALUATION_PROMPT_HI_GEMINI
  | EVALUATION_PROMPT_HI_OPENROUTER =>
      Prompts.EVALUATION_PROMPT_HI_OPENROUTER
  | OVERALL_SUMMARY_PROMPT => Prompts.OVERALL_SUMMARY_PROMPT
  end.

(** The text a logged prompt stands for: its template formatted with the
    keyword arguments the agent passes for a prompt of its kind. *)
Definition prompt_text `{Builtins} (p : prompt) : result string :=
  match p with
  | QuestionPrompt t resume_summary role difficulty history last_rating =>
      Prompts.format (template_text t)
        [("resume_summary", PyStr resume_summary);
         ("role", PyStr role);
         ("difficulty", PyStr difficulty);
         ("history", PyStr (format_history history));
         ("last_rating", match last_rating with
                         | Some r => PyFloat r
                         | None => PyStr "N/A"
                         end)]
  | EvaluationPrompt t question answer =>
      Prompts.format (template_text t)
        [("question", PyStr question); ("answer", PyStr answer)]
  | SummaryPrompt t role num_questions avg_rating history =>
      Prompts.format (template_text t)
        [("role", PyStr role);
         ("num_questions", PyInt num_questions);
         ("avg_rating", PyFloat avg_rating);
         ("history", PyStr (history_text history 1 EmptyString))]
  end.

(** The text of the prompt of [summarize_resume]. *)
Definition resume_prompt_text `{Builtins} (resume_text : string)
  : result string :=
  Prompts.format Prompts.RESUME_SUMMARY_PROMPT
                 [("resume_text", PyStr resume_text)].

End PromptText.

(** ** More string operations *)

Module StrOps.

(** [s.startswith(p)] *)
Definition startswith (p s : string) : bool := prefix p s.

(** [s.rsplit(sep, 1)] for a non-empty [sep]: the text is cut at its last
    occurrence of [sep], if it has one. *)
Definition rsplit1 (sep s : string) : list string :=
  let i := Str.rfind sep s in
  if i <? 0 then [s]
  else [Str.slice s 0 i; Str.drop (Z.to_nat i + String.length sep) s].

(** [l[i]] for [i >= 0] *)
Definition item {A : Type} (l : list A) (i : nat) : result A :=
  match nth_error l i with
  | Some x => Ok x
  | None => Raise (OtherError "IndexError")
  end.

(** [d.get(k, default)] on a dictionary of strings *)
Fixpoint get (k : string) (d : list (string * string)) (default : string)
  : string :=
  match d with
  | [] => default
  | (k', v) :: d' => if String.eqb k' k then v else get k d' default
  end.

End StrOps.

(** ** The model client *)

Module Llm.

(** The client [_initialize_llm] builds, with the arguments it passes. *)
Inductive client : Type :=
| ChatGoogleGenerativeAI (model : string) (google_api_key : option string)
    (temperature : float) (max_output_tokens : Z)
    (convert_system_message_to_human : bool)
| ChatOpenAI (model_name : string) (openai_api_key : option string)
    (openai_api_base : string) (temperature : float) (max_tokens : Z).

Definition model_mapping : list (string * string) :=
  [("gemini-2.5-flash", "models/gemini-2.5-flash");
   ("gemini-flash-latest", "models/gemini-flash-latest");
   ("gemini-2.5-flash-lite", "models/gemini-2.5-flash-lite");
   ("gemini-2.5-pro", "models/gemini-2.5-pro");
   ("gemini-pro-latest", "models/gemini-pro-latest")].

(** [_initialize_llm]. The dictionary [api_keys] is the one the handlers
    build: it has both keys, with the value [None] where the environment
    gives none. *)
Definition initialize_llm (model_id : string) (api_keys : App.api_keys_t)
  : client :=
  if Str.contains "gemini" (Str.lower model_id) then
    let actual_model := StrOps.get model_id model_mapping model_id in
    let actual_model :=
      if negb (StrOps.startswith "models/" actual_model)
      then "models/" ++ actual_model
      else actual_model in
    ChatGoogleGenerativeAI actual_model (App.gemini api_keys) 0.7 2048 true
  else
    ChatOpenAI model_id (App.openrouter api_keys)
               "https://openrouter.ai/api/v1" 0.7 4096.

(** [summarize_resume]; [reply] is what the call of [llm.invoke] on the
    formatted prompt does. *)
Definition summarize_resume `{Builtins} (resume_text : string)
    (reply : result string) : result string :=
  _ <- PromptText.resume_prompt_text resume_text ;;
  match reply with
  | Ok content => Ok (Str.strip content)
  | Raise e => Raise e
  end.

End Llm.

(** ** The other handlers of [app.py] *)

Module Routes.

(** The environment the module reads when it is loaded:
    [session_timeout_minutes] is [int(os.getenv('SESSION_TIMEOUT_MINUTES',
    10))], the other fields are the variables as [os.getenv] gives them. *)
Record environment : Type := {
  ENABLE_USER_API_KEYS : option string;
  session_timeout_minutes : Z;
  OPENROUTER_API_KEY : option string;
  GEMINI_API_KEY : option string
}.

Definition USE_USER_API_KEYS (env : environment) : bool :=
  String.eqb match ENABLE_USER_API_KEYS env with
             | Some v => v
             | None => "False"
             end "True".

Definition ALLOWED_EXTENSIONS : list string := ["pdf"].

(** [allowed_file] *)
Definition allowed_file (filename : string) : result bool :=
  if Str.contains "." filename then
    extension <- StrOps.item (StrOps.rsplit1 "." filename) 1 ;;
    Ok (existsb (String.eqb (Str.lower extension)) ALLOWED_EXTENSIONS)
  else Ok false.

(** The loop of [extract_text_from_pdf]: the texts of the pages are added
    to [text] until a page raises. *)
Fixpoint extract_pages (pages : list (result string)) (text : string)
  : result string :=
  match pages with
  | [] => Ok text
  | page :: pages' =>
      page_text <- page ;;
      extract_pages pages' (text ++ page_text)
  end.

(** [extract_text_from_pdf]; [pdf_file] is what [PdfReader] makes of the
    file: an exception, or the pages with what [extract_text] does on each.
    The outcome [None] is the value [None] the function returns. *)
Definition extract_text_from_pdf (pdf_file : result (list (result string)))
  : option string :=
  match (pages <- pdf_file ;; extract_pages pages "") with
  | Ok text => Some (Str.strip text)
  | Raise _ => None
  end.

Record model_info : Type := {
  id : string;
  name : string;
  provider : string
}.

Record config : Type := {
  requireUserKeys : bool;
  sessionTimeout : Z;
  availableModels : list (string * list model_info)
}.

(** [get_config] *)
Definition get_config (env : environment) : config :=
  {| requireUserKeys := USE_USER_API_KEYS env;
     sessionTimeout := session_timeout_minutes env;
     availableModels :=
       [("gemini",
         [{| id := "gemini-2.5-flash";
             name := "Gemini 2.5 Flash (Recommended)";
             provider := "gemini" |};
          {| id := "gemini-2.5-flash-lite";
             name := "Gemini 2.5 Flash-Lite (Faster)";
             provider := "gemini" |};
          {| id := "gemini-2.5-pro";
             name := "Gemini 2.5 Pro (Best Quality)";
             provider := "gemini" |};
          {| id := "gemini-flash-latest";
             name := "Gemini Flash Latest (Auto-update)";
             provider := "gemini" |}]);
        ("openrouter",
         [{| id := "microsoft/phi-3-mini-128k-instruct:free";
             name := "Phi-3 Mini (Free)";
             provider := "openrouter" |};
          {| id := "meta-llama/llama-3.2-3b-instruct:free";
             name := "Llama 3.2 3B (Free)";
             provider := "openrouter" |}])] |}.

(** The JSON bodies of the responses of these handlers; [Unhandled e] is
    the page Flask answers with when [e] leaves a handler. *)
Inductive body : Type :=
| Error (message : string)
| Failure (what : string) (e : exn)
| Unhandled (e : exn)
| ResumeUploaded (summary : string)
| Transcript (transcript : string) (confidence : float).

Record response : Type := {
  status : Z;
  payload : body
}.

Definition respond (code : Z) (b : body) : response :=
  {| status := code; payload := b |}.

(** An uploaded file: its name, and what [PdfReader] makes of it. *)
Record file_storage : Type := {
  filename : string;
  pdf : result (list (result string))
}.

(** The request of [/api/upload]: the file of the form, if there is one,
    and the two keys of the form. *)
Record upload_request : Type := {
  files_resume : option file_storage;
  form_openrouter_key : option string;
  form_gemini_key : option string
}.

Definition set_resume (s : App.session) (summary : string)
    (keys : App.api_keys_t) : App.session :=
  {| App.resume_summary := Some summary;
     App.api_keys := Some keys;
     App.role := App.role s;
     App.difficulty := App.difficulty s;
     App.model_id := App.model_id s;
     App.language := App.language s;
     App.stt_mode := App.stt_mode s;
     App.hinglish_mode := App.hinglish_mode s;
     App.interview_history := App.interview_history s;
     App.question_count := App.question_count s;
     App.current_question := App.current_question s;
     App.last_rating := App.last_rating s |}.

(** [upload_resume]; [reply] is what the call of the model for the summary
    does, should the handler come to it. The call is not one of the calls
    [world] logs. *)
Definition upload_resume `{Builtins} (env : environment)
    (request : upload_request) (s : App.session) (w : world)
    (reply : result string) : response * App.session :=
  match files_resume request with
  | None => (respond 400 (Error "No file uploaded"), s)
  | Some file =>
      if String.eqb (filename file) "" then
        (respond 400 (Error "No file selected"), s)
      else
        match allowed_file (filename file) with
        | Raise e => (respond 500 (Unhandled e), s)
        | Ok false =>
            (respond 400
               (Error "Only PDF files are accepted. Scanned/OCR PDFs are not supported."),
             s)
        | Ok true =>
            match extract_text_from_pdf (pdf file) with
            | None | Some "" =>
                (respond 500 (Error "Failed to extract text from PDF"), s)
            | Some raw_text =>
                if Z.of_nat (String.length raw_text) <? 100 then
                  (respond 400
                     (Error "Insufficient text extracted. This may be a scanned/image-based PDF. Please upload a text-based PDF."),
                   s)
                else
                  let api_keys :=
                    if USE_USER_API_KEYS env then
                      {| App.openrouter :=
                           Some match form_openrouter_key request with
                                | Some k => k
                                | None => ""
                                end;
                         App.gemini :=
                           Some match form_gemini_key request with
                                | Some k => k
                                | None => ""
                                end |}
                    else
                      {| App.openrouter := OPENROUTER_API_KEY env;
                         App.gemini := GEMINI_API_KEY env |} in
                  match (_ <- Agent.init w "gemini-2.5-flash" "en" ;;
                         Llm.summarize_resume raw_text reply) with
                  | Ok summary =>
                      (respond 200 (ResumeUploaded summary),
                       set_resume s summary api_keys)
                  | Raise e =>
                      (respond 500 (Failure "Failed to process resume" e), s)
                  end
            end
        end
  end.

(** The speech service of [transcribe_audio]: the exception of the import
    of the library and of the construction of the client, if any, and what
    [client.recognize] does for a configuration and the bytes of the audio:
    it raises, or gives the results, each the list of its alternatives. *)
Record recognition_config : Type := {
  encoding : string;
  sample_rate_hertz : Z;
  language_code : string;
  enable_automatic_punctuation : bool;
  model : string
}.

Record speech : Type := {
  import_speech : option exn;
  speech_client : option exn;
  recognize : recognition_config -> string
              -> result (list (list (string * float)))
}.

(** The request of [/api/transcribe]: what [read] does on the file
    [audio] of the form, if there is one. *)
Record transcribe_request : Type := {
  files_audio : option (result string)
}.

(** [transcribe_audio] *)
Definition transcribe_audio (service : speech) (request : transcribe_request)
    (s : App.session) : response :=
  match files_audio request with
  | None => respond 400 (Error "No audio file provided")
  | Some audio_file =>
      let outcome :=
        _ <- match import_speech service with
             | Some e => Raise e
             | None => Ok tt
             end ;;
        _ <- match speech_client service with
             | Some e => Raise e
             | None => Ok tt
             end ;;
        content <- audio_file ;;
        let language_code :=
          match App.language s with
          | Some "hi" => "hi-IN"
          | _ => "en-US"
          end in
        let config :=
          {| encoding := "WEBM_OPUS";
             sample_rate_hertz := 48000;
             language_code := language_code;
             enable_automatic_punctuation := true;
             model := "latest_long" |} in
        results <- recognize service config content ;;
        match results with
        | [] => Ok (respond 400 (Error "No speech detected"))
        | _ =>
            alternatives <- StrOps.item results 0 ;;
            best <- StrOps.item alternatives 0 ;;
            Ok (respond 200 (Transcript (fst best) (snd best)))
        end in
      match outcome with
      | Ok resp => resp
      | Raise e => respond 500 (Failure "Transcription failed" e)
      end
  end.

End Routes.

(** ** Notions used in the further statements *)

(** The rating [generate_question] reads off the history for the prompt:
    that of the last entry, if there is one. *)
Definition last_rating_of (history : list entry) : option float :=
  match rev history with
  | [] => None
  | last_entry :: _ => Some (rating last_entry)
  end.

(** A session that holds what [get_next_question] requires. *)
Definition configured (s : App.session) : Prop :=
  App.resume_summary s <> None
  /\ App.api_keys s <> None
  /\ App.role s <> None
  /\ App.difficulty s <> None
  /\ App.model_id s <> None
  /\ App.language s <> None.

(** The JSON values that are no objects and that [in] searches: a string
    and an array. On the others, [in] raises [TypeError]. *)
Definition searched (data : App.other_json) : bool :=
  match data with
  | App.JsonString _ | App.JsonArray _ => true
  | _ => false
  end.

(** The answer an empty session gives to a request: [end_session] succeeds,
    a body that [in] cannot search ends in the page of an unhandled
    [TypeError], every other request is refused with the status 400. *)
Definition empty_session_response (r : App.request)
    (resp : App.response) : Prop :=
  match r with
  | App.EndSession => App.status resp = 200
  | App.StartInterviewOther data | App.EvaluateOther data =>
      if searched data then App.status resp = 400
      else resp = App.respond 500 (App.Unhandled TypeError)
  | _ => App.status resp = 400
  end.

(** The speech service that recognises the language [code] as [service]
    does and refuses every other language. *)
Definition only_language (code : string) (service : Routes.speech)
  : Routes.speech :=
  {| Routes.import_speech := Routes.import_speech service;
     Routes.speech_client := Routes.speech_client service;
     Routes.recognize := fun config content =>
       if String.eqb (Routes.language_code config) code
       then Routes.recognize service config content
       else Raise (OtherError "language not served") |}.

(** ** The contents of the report *)

Module Report.

(** A [str] of any code points, as their list. *)
Definition text : Type := list N.

Definition of_string (s : string) : text :=
  map N_of_ascii (list_ascii_of_string s).

(** [t.startswith(old)] *)
Fixpoint starts (old t : text) : bool :=
  match old, t with
  | [], _ => true
  | o :: old', c :: t' => N.eqb o c && starts old' t'
  | _ :: _, [] => false
  end.

(** [t.replace(old, new)] for a non-empty [old]: the occurrences are taken
    from the left and do not overlap; [skip] is the number of characters of
    the occurrence found last that are still to be passed. *)
Fixpoint replace_go (old new : text) (skip : nat) (t : text) : text :=
  match t with
  | [] => []
  | c :: t' =>
      match skip with
      | S k => replace_go old new k t'
      | O => if starts old t
             then (new ++ replace_go old new (List.length old - 1) t')%list
             else c :: replace_go old new O t'
      end
  end.

Definition replace (old new t : text) : text := replace_go old new O t.

(** The code points U+0900 to U+097F. *)
Definition devanagari (char : N) : bool :=
  ((0x0900 <=? char) && (char <=? 0x097F))%N.

(** The dictionary [replacements] of [clean_text], in its order. *)
Definition replacements : list (text * text) :=
  [([0x2022%N], of_string "*");
   ([0x2013%N], of_string "-");
   ([0x2014%N], of_string "--");
   ([0x2019%N], of_string "'");
   ([0x2018%N], of_string "'");
   ([0x201c%N], of_string Agent.dquote);
   ([0x201d%N], of_string Agent.dquote);
   ([0x2026%N], of_string "...");
   ([0x2122%N], of_string "(TM)");
   ([0x00ae%N], of_string "(R)");
   ([0x00a9%N], of_string "(c)")].

(** [clean_text] on a [str]; [translit t] is what the import of
    [transliterate] and the call [translit(t, 'hi', reversed=True)] come
    to: the text returned, or the exception of either. *)
Definition clean_text (translit : text -> result text) (t : text) : text :=
  match t with
  | [] => []
  | _ =>
      let has_devanagari := existsb devanagari t in
      let t :=
        if has_devanagari then
          match translit t with
          | Ok t' => t'
          | Raise _ => filter (fun char => negb (devanagari char)) t
          end
        else t in
      fold_left (fun t r => replace (fst r) (snd r) t) replacements t
  end.

Definition color : Type := (Z * Z * Z)%type.

(** [_get_rating_color] *)
Definition get_rating_color (rating : float) : color :=
  if (8.0 <=? rating)%float then (39, 174, 96)
  else if (6.0 <=? rating)%float then (241, 196, 15)
  else if (4.0 <=? rating)%float then (230, 126, 34)
  else (231, 76, 60).

(** Lines 89-100 of [generate_pdf_report]: the assessment of the average
    and the colour it is written in. *)
Definition assessment (avg_rating : float) : string * color :=
  if (8.0 <=? avg_rating)%float then
    ("Excellent - Strong command of subject matter with clear articulation",
     (39, 174, 96))
  else if (6.0 <=? avg_rating)%float then
    ("Good - Solid understanding with minor areas for improvement",
     (241, 196, 15))
  else if (4.0 <=? avg_rating)%float then
    ("Fair - Basic knowledge demonstrated, needs focused development",
     (230, 126, 34))
  else
    ("Needs Improvement - Significant knowledge gaps identified",
     (231, 76, 60)).

(** [_generate_recommendations] *)
Definition generate_recommendations (avg_rating : float) : string :=
  if (8.0 <=? avg_rating)%float then
    "Outstanding Performance!

You demonstrated excellent knowledge and communication skills throughout the interview.

Recommendations:
* Continue practicing with real-world scenarios and advanced technical questions
* Focus on system design and architectural thinking for senior-level positions  
* Prepare behavioral interview questions to complement your technical strength
* Consider conducting mock interviews with industry professionals
* Stay updated with latest industry trends and best practices

You are well-prepared for interviews in this domain. Keep refining your skills!"
  else if (6.0 <=? avg_rating)%float then
    "Good Performance with Room for Growth

You showed solid understanding of core concepts with some areas needing improvement.

Recommendations:
* Review the specific topics where you received lower ratings
* Practice explaining technical concepts more clearly and concisely
* Work on providing complete answers that address all parts of questions
* Use the STAR method (Situation, Task, Action, Result) for better structure
* Practice with coding problems or case studies relevant to your target role
* Schedule follow-up mock interviews in 2-3 weeks to track improvement

Focus on the improvement areas highlighted in this report for best results."
  else if (4.0 <=? avg_rating)%float then
    "Fair Performance - Focused Preparation Needed

Your interview revealed gaps in knowledge and explanation skills that need attention.

Recommendations:
* Strengthen fundamentals in your target domain through structured learning
* Use online courses, textbooks, or tutorials to fill knowledge gaps
* Practice explaining concepts out loud to improve articulation
* Work through beginner to intermediate level practice problems daily
* Join study groups or find a mentor for guidance and feedback
* Create a study plan focusing on topics where you struggled
* Schedule another mock interview after 3-4 weeks of focused preparation

Consistent effort will lead to significant improvement. Don't get discouraged!"
  else
    "Needs Significant Improvement

This interview identified substantial gaps that require dedicated preparation.

Recommendations:
* Start with foundational concepts and build understanding from the ground up
* Invest time in comprehensive learning resources (courses, books, boot camps)
* Break down complex topics into smaller, manageable study sessions
* Practice basic problems before moving to intermediate difficulty
* Seek mentorship or tutoring for personalized guidance
* Join online communities or forums for learning support
* Set realistic goals and track your progress weekly
* Don't attempt real interviews until you've built a solid foundation
* Schedule a follow-up mock interview after 4-6 weeks of intensive study

Remember: Everyone starts somewhere. With dedication and the right approach, you can make significant progress. Focus on consistent daily practice rather than cramming.".

(** The digits of [k] hundredths, with two digits after the point. *)
Definition two_decimals (k : Z) : string :=
  let cents := k mod 100 in
  Repr.decimal (k / 100) ++ "."
    ++ (if cents <? 10 then "0" else "") ++ Repr.decimal cents.

(** [f"{x:.2f}"]: the exact value of [x] rounded, half to even, to two
    digits after the point. *)
Definition format_2f (x : float) : string :=
  match Prim2SF x with
  | S754_nan => "nan"
  | S754_infinity s => if s then "-inf" else "inf"
  | S754_zero s => if s then "-0.00" else "0.00"
  | S754_finite s m e =>
      let n := if 0 <=? e then Zpos m * 2 ^ e else Zpos m in
      let d := if 0 <=? e then 1 else 2 ^ (- e) in
      let body := two_decimals (PyFloat.round_half_even (100 * n) d) in
      if s then "-" ++ body else body
  end.

(** Line 158 of [generate_pdf_report]: whether the section of the missing
    key points is written for an entry. *)
Definition shows_missing_points (e : entry) : bool :=
  negb (String.eqb (missing_points e) "")
  && negb (existsb (String.eqb (missing_points e))
                   ["N/A"; "Unable to parse detailed feedback"]).

End Report.

(** ** Notions used in the statements on the prompts *)

(** The text made of fixed pieces with values between them. *)
Fixpoint interleave (pieces values : list string) : string :=
  match pieces, values with
  | piece :: pieces', value :: values' =>
      piece ++ value ++ interleave pieces' values'
  | piece :: _, [] => piece
  | [], _ => EmptyString
  end.

(** The pieces of a template between its fields, with the doubled braces
    read as braces; [acc] holds the current piece, reversed. *)
Fixpoint pieces_of (s : string) (in_field : bool) (acc : string)
  : list string :=
  match s with
  | EmptyString => [Str.rev acc]
  | String c s' =>
      if in_field then
        if Ascii.eqb c "}" then pieces_of s' false EmptyString
        else pieces_of s' true acc
      else if Ascii.eqb c "{" then
        match s' with
        | String "{" s'' => pieces_of s'' false (String "{" acc)
        | _ => Str.rev acc :: pieces_of s' true EmptyString
        end
      else if Ascii.eqb c "}" then
        match s' with
        | String "}" s'' => pieces_of s'' false (String "}" acc)
        | _ => pieces_of s' false acc
        end
      else pieces_of s' false (String c acc)
  end.

(** A text as a template writes it: with every brace doubled. *)
Fixpoint literal (s : string) : string :=
  match s with
  | EmptyString => EmptyString
  | String c s' =>
      if Ascii.eqb c "{" || Ascii.eqb c "}"
      then String c (String c (literal s'))
      else String c (literal s')
  end.

(** The template that writes the texts [pieces] with the fields named
    [names] between them. *)
Definition written (pieces names : list string) : string :=
  interleave (map literal pieces) (map (fun name => "{" ++ name ++ "}") names).

(** The templates of the evaluation. *)
Definition evaluation_templates : list template :=
  [EVALUATION_PROMPT_EN_GEMINI; EVALUATION_PROMPT_EN_OPENROUTER;
   EVALUATION_PROMPT_HI_GEMINI; EVALUATION_PROMPT_HI_OPENROUTER].

(** The lines [_format_history] writes for the entry numbered [i], without
    the blank line after them, and the lines of the entries numbered from
    [i] on. *)
Definition history_block `{Builtins} (i : Z) (e : entry) : string :=
  "Q" ++ Py.str (PyInt i) ++ ": " ++ question e ++ PromptText.newline
      ++ "A" ++ Py.str (PyInt i) ++ ": " ++ answer e
      ++ " (Rating: " ++ Py.str (PyFloat (rating e)) ++ "/10)".

Fixpoint history_blocks `{Builtins} (i : Z) (history : list entry)
  : list string :=
  match history with
  | [] => []
  | e :: history' => history_block i e :: history_blocks (i + 1) history'
  end.

(** A prompt has a text: formatting its template raises nothing. *)
Definition has_text `{Builtins} (p : prompt) : Prop :=
  exists text : string, PromptText.prompt_text p = Ok text.

(** ** Notions used in the statements on the report *)

(** The replacements put plain characters in the place of characters that
    are not plain: a pair of the table replaces one character from U+0080
    on by characters below U+0080. *)
Definition plain_for_special (r : Report.text * Report.text) : Prop :=
  exists c : N,
    fst r = [c] /\ (128 <= c)%N /\ Forall (fun x => (x < 128)%N) (snd r).

Definition green : Report.color := (39, 174, 96).
Definition yellow : Report.color := (241, 196, 15).
Definition orange : Report.color := (230, 126, 34).
Definition red : Report.color := (231, 76, 60).

(** The text of [k] hundredths reads back as the float nearest to them. *)
Definition reads_back (k : Z) : bool :=
  match Repr.float_of_str (Report.two_decimals k) with
  | Some f => PrimFloat.Leibniz.eqb f (PyFloat.nearest false k 100)
  | None => false
  end.

(** ** Notions used in the statements on the replies *)

(** The texts in which the character [c] does not occur. *)
Fixpoint free_of (c : ascii) (s : string) : bool :=
  match s with
  | EmptyString => true
  | String x s' => negb (Ascii.eqb x c) && free_of c s'
  end.

(** ** Concrete requests *)

Definition environment : Routes.environment :=
  {| Routes.ENABLE_USER_API_KEYS := None;
     Routes.session_timeout_minutes := 10;
     Routes.OPENROUTER_API_KEY := None;
     Routes.GEMINI_API_KEY := Some "key" |}.

(** The text of a resume, of more than 100 characters. *)
Definition resume_page : string :=
  "Backend developer with five years of Python, Flask and PostgreSQL; led the migration of a billing service to asynchronous workers.".

Definition resume_upload : Routes.upload_request :=
  {| Routes.files_resume :=
       Some {| Routes.filename := "Resume.PDF";
               Routes.pdf := Ok [Ok resume_page] |};
     Routes.form_openrouter_key := None;
     Routes.form_gemini_key := None |}.

Definition summary_reply : result string :=
  Ok " Backend developer, five years of Python ".

(** The session after the upload, and after an interview was started in it
    and the first question asked. *)
Definition after_upload : App.session :=
  snd (@Routes.upload_resume reference environment resume_upload
         App.cleared
         (scripted []) summary_reply).

Definition asked (data : App.start_data) : App.session :=
  snd (fst (@App.serve reference renders sends
              [App.StartInterview data; App.NextQuestion] after_upload
              (scripted [Ok "What is a list?"]))).

(** A request to start that names a difficulty in small letters. *)
Definition start_small : App.start_data :=
  {| App.sd_role := Some "Backend Engineer";
     App.sd_difficulty := Some "easy";
     App.sd_model_id := Some "gemini-2.5-flash";
     App.sd_language := Some "en";
     App.sd_stt_mode := None;
     App.sd_hinglish_mode := None |}.

Definition evaluation_world : world :=
  scripted [Ok (evaluation_json "8.2")].

Definition listening : Routes.speech :=
  {| Routes.import_speech := None;
     Routes.speech_client := None;
     Routes.recognize := fun config _ =>
       Ok [[(Routes.language_code config, 0.9%float)]] |}.

Definition recording : Routes.transcribe_request :=
  {| Routes.files_audio := Some (Ok "audio") |}.

(** The report of the interview of three turns. *)
Definition delivered : App.report_data :=
  @report_for reference "Backend Engineer" "Easy" "gemini-2.5-flash" "en"
             match App.interview_history interviewed with
             | Some h => h
             | None => []
             end
             "Solid basics".

(** * Properties *)

(** ** Comparisons of floats *)

Lemma SFcompare_antisym (x y : spec_float) :
  SFcompare y x = option_map CompOpp (SFcompare x y).
Proof.
  destruct x as [sx|sx| |sx mx ex], y as [sy|sy| |sy my ey]; simpl;
    try reflexivity;
    try (destruct sx; reflexivity);
    try (destruct sy; reflexivity);
    try (destruct sx, sy; reflexivity).
  destruct sx, sy; simpl; try reflexivity;
    rewrite (Z.compare_antisym ey ex); destruct (ey ?= ex); simpl;
    try reflexivity;
    rewrite (Pos.compare_cont_antisym mx my Eq); reflexivity.
Qed.

(** [x <= y] excludes [y < x]. *)
Lemma leb_not_ltb (x y : float) :
  (x <=? y)%float = true -> (y <? x)%float = false.
Proof.
  rewrite leb_spec, ltb_spec. unfold SFleb, SFltb.
  rewrite (SFcompare_antisym (Prim2SF x) (Prim2SF y)).
  destruct (SFcompare (Prim2SF x) (Prim2SF y)) as [[]|]; simpl; congruence.
Qed.

(** [x < y] excludes [y < x]. *)
Lemma ltb_asym (x y : float) :
  (x <? y)%float = true -> (y <? x)%float = false.
Proof.
  rewrite !ltb_spec. unfold SFltb.
  rewrite (SFcompare_antisym (Prim2SF x) (Prim2SF y)).
  destruct (SFcompare (Prim2SF x) (Prim2SF y)) as [[]|]; simpl; congruence.
Qed.

Lemma Prim2SF_4 : Prim2SF 4 = S754_finite false 4503599627370496 (-50).
Proof. vm_compute. reflexivity. Qed.

Lemma Prim2SF_7 : Prim2SF 7 = S754_finite false 7881299347898368 (-50).
Proof. vm_compute. reflexivity. Qed.

Lemma compare_cont_chain (m a b : positive) :
  (a <= b)%positive ->
  Pos.compare_cont Eq m a = Lt -> Pos.compare_cont Eq b m <> Lt.
Proof.
  change (Pos.compare_cont Eq m a) with (Pos.compare m a).
  change (Pos.compare_cont Eq b m) with (Pos.compare b m).
  rewrite !Pos.compare_lt_iff. lia.
Qed.

(** A rating below 4 is not above 7. *)
Lemma below_4_not_above_7 (r : float) :
  (r <? 4)%float = true -> (7 <? r)%float = false.
Proof.
  rewrite !ltb_spec, Prim2SF_4, Prim2SF_7. unfold SFltb.
  destruct (Prim2SF r) as [s|s| |s m e]; cbn [SFcompare]; try congruence.
  - destruct s; congruence.
  - destruct s; try congruence.
    rewrite (Z.compare_antisym e (-50)).
    destruct (e ?= -50) eqn:He; cbn [CompOpp]; try congruence.
    pose proof (compare_cont_chain m 4503599627370496 7881299347898368) as H.
    assert (Hle : (4503599627370496 <= 7881299347898368)%positive)
      by (vm_compute; discriminate).
    specialize (H Hle). clear Hle.
    destruct (PosDef.Pos.compare_cont Eq m 4503599627370496);
      try discriminate.
    destruct (PosDef.Pos.compare_cont Eq 7881299347898368 m);
      try reflexivity.
    intros _. exfalso. now apply H.
Qed.

(** ** The difficulty controller *)

(** C2. The difficulty after an answer is a function of the current level
    and the rating: above 7.0 one level up (HARD stays), below 4.0 one level
    down (EASY stays), from 4.0 to 7.0, bounds included, no change; with the
    four cases the specification lists. *)
Theorem next_difficulty_levels :
  (forall (l : level) (r : float),
      ((7 <? r)%float = true ->
       App.next_difficulty (level_name l) r = Ok (level_name (step_up l)))
      /\ ((r <? 4)%float = true ->
          App.next_difficulty (level_name l) r
          = Ok (level_name (step_down l)))
      /\ ((4 <=? r)%float = true -> (r <=? 7)%float = true ->
          App.next_difficulty (level_name l) r = Ok (level_name l)))
  /\ App.next_difficulty "Easy" 8.0 = Ok "Medium"
  /\ App.next_difficulty "Hard" 9.0 = Ok "Hard"
  /\ App.next_difficulty "Easy" 2.0 = Ok "Easy"
  /\ App.next_difficulty "Medium" 5.5 = Ok "Medium"
  /\ App.next_difficulty "Medium" 4.0 = Ok "Medium"
  /\ App.next_difficulty "Medium" 7.0 = Ok "Medium".
Proof.
  split; [|repeat split; reflexivity].
  intros l r. repeat split.
  - intros Hr. destruct l; unfold App.next_difficulty; cbn; rewrite Hr;
      reflexivity.
  - intros Hr. pose proof (below_4_not_above_7 r Hr) as H7.
    destruct l; unfold App.next_difficulty; cbn; rewrite H7, Hr;
      reflexivity.
  - intros H4 H7. apply leb_not_ltb in H4. apply leb_not_ltb in H7.
    destruct l; unfold App.next_difficulty; cbn; rewrite H7, H4;
      reflexivity.
Qed.

(** ** The conversation memory *)

Lemma memory_with_memory (a : Agent.agent) (m : list Agent.message) :
  Agent.memory (Agent.with_memory a m) = m.
Proof. reflexivity. Qed.

Lemma manage_memory_threshold_long (a : Agent.agent) :
  (20 < List.length (Agent.memory a))%nat ->
  Agent.manage_memory_threshold a
  = Agent.with_memory a (skipn 10 (Agent.memory a)).
Proof.
  intros H. unfold Agent.manage_memory_threshold.
  destruct (Z.ltb_spec 20 (Z.of_nat (List.length (Agent.memory a))));
    [reflexivity | lia].
Qed.

Lemma manage_memory_threshold_short (a : Agent.agent) :
  (List.length (Agent.memory a) <= 20)%nat ->
  Agent.manage_memory_threshold a = a.
Proof.
  intros H. unfold Agent.manage_memory_threshold.
  destruct (Z.ltb_spec 20 (Z.of_nat (List.length (Agent.memory a))));
    [lia | reflexivity].
Qed.

(** What [generate_question] leaves in the memory: the pruned messages,
    and the new question after them when the model answered. *)
Lemma generate_question_memory (summary role difficulty : string)
    (history : list entry) (a : Agent.agent) (w : world) :
  let '(generated, a', _) :=
    Agent.generate_question summary role difficulty history a w in
  Agent.memory a'
  = (Agent.memory (Agent.manage_memory_threshold a)
     ++ match generated with
        | Ok question => [Agent.GeneratedQuestion question]
        | Raise _ => []
        end)%list.
Proof.
  unfold Agent.generate_question, invoke.
  destruct (replies w (List.length (calls w))); cbn.
  - reflexivity.
  - now rewrite app_nil_r.
Qed.

(** C5. Pruning drops the oldest messages first: a memory of more than 20
    messages loses its 10 oldest ones and keeps the others in order, 22
    messages leave the 12 newest ones, a memory of at most 20 is left as it
    is; and a question is generated on the memory so pruned. *)
Theorem memory_pruning_fifo :
  (forall (a : Agent.agent) (oldest others : list Agent.message),
      Agent.memory a = (oldest ++ others)%list ->
      List.length oldest = 10%nat ->
      (10 < List.length others)%nat ->
      Agent.memory (Agent.manage_memory_threshold a) = others)
  /\ (forall a : Agent.agent,
        (20 < List.length (Agent.memory a))%nat ->
        Agent.memory (Agent.manage_memory_threshold a)
        = skipn 10 (Agent.memory a)
        /\ List.length (Agent.memory (Agent.manage_memory_threshold a))
           = (List.length (Agent.memory a) - 10)%nat)
  /\ (forall a : Agent.agent,
        List.length (Agent.memory a) = 22%nat ->
        List.length (Agent.memory (Agent.manage_memory_threshold a)) = 12%nat
        /\ forall i : nat,
            nth_error (Agent.memory (Agent.manage_memory_threshold a)) i
            = nth_error (Agent.memory a) (10 + i))
  /\ (forall a : Agent.agent,
        (List.length (Agent.memory a) <= 20)%nat ->
        Agent.manage_memory_threshold a = a)
  /\ (forall (summary role difficulty : string) (history : list entry)
             (a : Agent.agent) (w : world),
        (20 < List.length (Agent.memory a))%nat ->
        exists added : list Agent.message,
          Agent.memory
            (snd (fst (Agent.generate_question summary role difficulty
                                               history a w)))
          = (skipn 10 (Agent.memory a) ++ added)%list
          /\ (List.length added <= 1)%nat).
Proof.
  repeat split.
  - intros a oldest others Hm Ho Hl.
    rewrite manage_memory_threshold_long
      by (rewrite Hm, length_app; lia).
    rewrite memory_with_memory, Hm, <- Ho, skipn_app, skipn_all, Nat.sub_diag.
    reflexivity.
  - rewrite manage_memory_threshold_long by assumption. reflexivity.
  - rewrite manage_memory_threshold_long by assumption.
    rewrite memory_with_memory. apply length_skipn.
  - rewrite manage_memory_threshold_long by lia.
    rewrite memory_with_memory, length_skipn. lia.
  - intros i. rewrite manage_memory_threshold_long by lia.
    rewrite memory_with_memory. apply nth_error_skipn.
  - apply manage_memory_threshold_short.
  - intros summary role difficulty history a w H.
    pose proof (generate_question_memory summary role difficulty history
                                         a w) as G.
    destruct (Agent.generate_question summary role difficulty history a w)
      as [[generated a'] w'].
    cbn [fst snd]. rewrite G, manage_memory_threshold_long by assumption.
    rewrite memory_with_memory.
    eexists. split; [reflexivity|].
    destruct generated; cbn; lia.
Qed.

(** ** The attempts of [evaluate_answer] *)

Lemma invoke_reply (p : prompt) (w : world) :
  fst (invoke p w) = replies w (List.length (calls w)).
Proof. reflexivity. Qed.

Lemma invoke_world (p : prompt) (w : world) :
  replies (snd (invoke p w)) = replies w
  /\ client_init (snd (invoke p w)) = client_init w
  /\ calls (snd (invoke p w)) = (calls w ++ [p])%list.
Proof. repeat split. Qed.

(** The two attempts of [evaluate_answer], case by case: [r1] and [r2] are
    what the model does at the first and at the second call. *)
Lemma evaluate_answer_cases `{Builtins} (question answer : string)
    (a : Agent.agent) (w : world) :
  let r1 := replies w (List.length (calls w)) in
  let r2 := replies w (S (List.length (calls w))) in
  fst (fst (Agent.evaluate_answer question answer a w)) =
  match attempt_outcome r1 with
  | Ok ev => Ok (Some ev)
  | Raise e1 =>
      if is_value_error e1
         && match r1 with Raise _ => true | Ok _ => false end
      then Raise UnboundLocalError
      else
        match attempt_outcome r2 with
        | Ok ev => Ok (Some ev)
        | Raise e2 =>
            if is_value_error e2 then
              match r1, r2 with
              | Raise _, Raise _ => Raise UnboundLocalError
              | _, _ => Ok (Some (Agent.fallback answer))
              end
            else Raise e2
        end
  end.
Proof.
  unfold Agent.evaluate_answer. 
  change (Z.to_nat Agent.max_retries) with 2%nat.
  set (p := EvaluationPrompt _ question answer).
  cbn [Agent.attempts]. unfold invoke. cbn [calls replies].
  rewrite length_app. cbn [List.length]. rewrite Nat.add_1_r.
  destruct (replies w (List.length (calls w))) as [c1|x1];
    cbn [attempt_outcome].
  - destruct (Agent.parse_response c1) as [res1 [ev1|e1]]; cbn [snd fst].
    + reflexivity.
    + rewrite andb_false_r.
      destruct (is_value_error e1); cbn [Z.eqb Agent.max_retries Z.sub];
        (destruct (replies w (S (List.length (calls w)))) as [c2|x2];
         cbn [attempt_outcome];
         [ destruct (Agent.parse_response c2) as [res2 [ev2|e2]];
           cbn [snd fst]; [reflexivity|];
           destruct (is_value_error e2); reflexivity
         | destruct (is_value_error x2); reflexivity ]).
  - destruct (is_value_error x1); cbn [andb fst].
    + reflexivity.
    + cbn [Z.eqb Agent.max_retries Z.sub].
      destruct (replies w (S (List.length (calls w)))) as [c2|x2];
        cbn [attempt_outcome].
      * destruct (Agent.parse_response c2) as [res2 [ev2|e2]];
          cbn [snd fst]; [reflexivity|].
        destruct (is_value_error e2); reflexivity.
      * destruct (is_value_error x2); reflexivity.
Qed.

(** ** The handlers, one request at a time *)

Ltac break_match :=
  match goal with
  | |- context [match ?x with _ => _ end] =>
      let E := fresh "E" in destruct x eqn:E
  | |- context [if ?x then _ else _] =>
      let E := fresh "E" in destruct x eqn:E
  end.

Ltac break_hyp H :=
  match type of H with
  | context [match ?x with _ => _ end] =>
      let E := fresh "E" in destruct x eqn:E
  | context [if ?x then _ else _] =>
      let E := fresh "E" in destruct x eqn:E
  end.

(** The calls an agent operation adds to the log. *)
Lemma attempts_calls `{Builtins} (n : nat) (attempt : Z) (p : prompt)
    (answer : string) (rv : option string) (a : Agent.agent) (w : world) :
  exists k : nat,
    calls (snd (Agent.attempts n attempt p answer rv a w))
    = (calls w ++ List.repeat p k)%list
    /\ replies (snd (Agent.attempts n attempt p answer rv a w)) = replies w
    /\ client_init (snd (Agent.attempts n attempt p answer rv a w))
       = client_init w.
Proof.
  revert attempt rv a w.
  induction n as [|n IH]; intros attempt rv a w.
  - exists 0%nat. cbn. now rewrite app_nil_r.
  - cbn [Agent.attempts]. unfold invoke.
    set (w1 := {| replies := replies w; client_init := client_init w;
                  calls := (calls w ++ [p])%list |}).
    assert (step : forall rv', exists k : nat,
               calls (snd (Agent.attempts n (attempt + 1) p answer rv' a w1))
               = (calls w ++ List.repeat p k)%list
               /\ replies (snd (Agent.attempts n (attempt + 1) p answer rv'
                                               a w1)) = replies w
               /\ client_init (snd (Agent.attempts n (attempt + 1) p answer
                                                   rv' a w1))
                  = client_init w).
    { intros rv'. destruct (IH (attempt + 1) rv' a w1) as [k [Hc [Hr Hi]]].
      exists (S k). rewrite Hc, Hr, Hi. subst w1. cbn [calls replies client_init].
      rewrite <- app_assoc. repeat split. }
    assert (stop : exists k : nat,
               calls w1 = (calls w ++ List.repeat p k)%list
               /\ replies w1 = replies w /\ client_init w1 = client_init w).
    { exists 1%nat. repeat split. }
    repeat break_match; cbn [snd fst]; auto.
Qed.

Ltac invert_handler H :=
  repeat break_hyp H;
  try discriminate;
  injection H as <- <- <-.


Lemma evaluate_answer_other_frame (data : App.other_json)
    (s s' : App.session) (w w' : world) (resp : App.response) :
  App.evaluate_answer_other data s w = (resp, s', w') ->
  s' = s /\ w' = w /\ App.status resp <> 200.
Proof.
  unfold App.evaluate_answer_other. intros E.
  repeat break_hyp E; injection E as <- <- <-; cbn;
    repeat split; discriminate.
Qed.

(** [evaluate_answer] leaves the configuration, the pending question and
    the counter of questions as they are, whatever its outcome. *)
Lemma evaluate_answer_frame `{Builtins} (data : App.evaluate_data)
    (s s' : App.session) (w w' : world) (resp : App.response) :
  App.evaluate_answer data s w = (resp, s', w') ->
  same_setup s s'
  /\ App.current_question s' = App.current_question s
  /\ App.question_count s' = App.question_count s.
Proof.
  unfold App.evaluate_answer, same_setup. intros E.
  invert_handler E; cbn; repeat split; congruence.
Qed.

(** [get_next_question] leaves the configuration, the history, the
    difficulty and the last rating as they are, whatever its outcome. *)
Lemma get_next_question_frame (s s' : App.session) (w w' : world)
    (resp : App.response) :
  App.get_next_question s w = (resp, s', w') ->
  same_setup s s'
  /\ App.interview_history s' = App.interview_history s
  /\ App.difficulty s' = App.difficulty s
  /\ App.last_rating s' = App.last_rating s.
Proof.
  unfold App.get_next_question, same_setup. intros E.
  invert_handler E; cbn; repeat split; congruence.
Qed.

(** A question that was generated is the pending one, and it is counted. *)
Lemma get_next_question_ok (s s' : App.session) (w w' : world)
    (resp : App.response) :
  App.get_next_question s w = (resp, s', w') ->
  App.status resp = 200 ->
  exists (q lang : string) (n : Z),
    App.payload resp = App.Question q n lang
    /\ App.current_question s' = Some q
    /\ App.question_count s' = Some n
    /\ n = match App.question_count s with Some c => c | None => 0 end + 1.
Proof.
  unfold App.get_next_question. intros E.
  invert_handler E; cbn in *; intros Hs; try discriminate.
  all: eexists _, _, _; repeat split.
  all: repeat match goal with
              | E : App.question_count _ = _ |- _ => rewrite E; clear E
              end; reflexivity.
Qed.

(** The language shown is defined once the session has a language. *)
Lemma shown_language_defined (s : App.session) (l : string) :
  App.language s = Some l -> exists shown, App.shown_language s = Ok shown.
Proof.
  unfold App.shown_language. intros ->.
  destruct (App.hinglish_mode s) as [v|]; [destruct (Py.truthy v)|];
    eexists; reflexivity.
Qed.

(** A failed [get_next_question] changes nothing in the session. *)
Lemma get_next_question_failed (s s' : App.session) (w w' : world)
    (resp : App.response) :
  App.get_next_question s w = (resp, s', w') ->
  App.status resp <> 200 ->
  s' = s.
Proof.
  unfold App.get_next_question. intros E.
  invert_handler E; cbn; intros Hs; try congruence; auto.
  all: match goal with
       | E : App.shown_language ?s1 = Raise _, L : App.language _ = Some ?l
         |- _ =>
           destruct (shown_language_defined s1 l L) as [shown D];
           congruence
       end.
Qed.

(** An answer that was recorded: there was a pending question, and the
    history has one entry more, for this question and this answer. *)
Lemma evaluate_answer_ok `{Builtins} (data : App.evaluate_data)
    (s s' : App.session) (w w' : world) (resp : App.response) :
  App.evaluate_answer data s w = (resp, s', w') ->
  App.status resp = 200 ->
  exists (q a prev next : string) (ev : Agent.evaluation),
    App.current_question s = Some q
    /\ App.ed_answer data = Some a
    /\ App.difficulty s = Some prev
    /\ App.next_difficulty prev (Agent.ev_rating ev) = Ok next
    /\ App.difficulty s' = Some next
    /\ App.last_rating s' = Some (Agent.ev_rating ev)
    /\ App.interview_history s'
       = Some (match App.interview_history s with
               | Some h => h
               | None => []
               end
               ++ [{| question := q;
                      answer := a;
                      rating := Agent.ev_rating ev;
                      strengths := Agent.ev_strengths ev;
                      improvements := Agent.ev_improvements ev;
                      missing_points := Agent.ev_missing_points ev |}])%list.
Proof.
  unfold App.evaluate_answer. intros E.
  invert_handler E; cbn; intros Hs; try discriminate.
  all: cbn in *.
  all: match goal with
       | E : bind (App.key ?d) _ = Ok _ |- _ =>
           destruct d eqn:Ed; cbn in E; [|discriminate];
           let En := fresh "En" in
           destruct (App.next_difficulty _ _) eqn:En in E; cbn in E;
           [|discriminate]; injection E as <- <-
       end.
  all: eexists _, _, _, _, _; repeat split; eauto.
Qed.

(** ** Sessions *)

Lemma serve_cons `{Builtins} (render : App.report_data -> option exn)
    (send_file : App.report_data -> string -> option exn)
    (r : App.request) (rs : list App.request) (s : App.session) (w : world) :
  App.serve render send_file (r :: rs) s w =
  let '(resp, s1, w1) := App.handle render send_file r s w in
  let '(resps, s2, w2) := App.serve render send_file rs s1 w1 in
  (resp :: resps, s2, w2).
Proof. reflexivity. Qed.

(** The counter of questions and the length of the history over the turns
    of a session, when every request succeeds. *)
Lemma serve_turns_count `{Builtins} (render : App.report_data -> option exn)
    (send_file : App.report_data -> string -> option exn)
    (rs : list App.request) :
  forall (s s' : App.session) (w w' : world) (resps : list App.response)
         (c : Z) (h : list entry),
    Forall is_turn rs ->
    App.question_count s = Some c ->
    App.interview_history s = Some h ->
    App.serve render send_file rs s w = (resps, s', w') ->
    Forall (fun resp => App.status resp = 200) resps ->
    App.question_count s' = Some (c + questions_asked rs)
    /\ exists h' : list entry,
        App.interview_history s' = Some h'
        /\ List.length h' = (List.length h + answers_given rs)%nat.
Proof.
  induction rs as [|r rs IH]; intros s s' w w' resps c h Ht Hc Hh Hs Hok.
  - cbn in Hs. injection Hs as <- <- <-. cbn. rewrite Z.add_0_r, Hc.
    split; [reflexivity|]. exists h. split; [assumption | lia].
  - rewrite serve_cons in Hs.
    destruct (App.handle render send_file r s w) as [[resp s1] w1] eqn:Hr.
    destruct (App.serve render send_file rs s1 w1) as [[resps1 s2] w2] eqn:Hrs.
    injection Hs as <- <- <-.
    inversion Ht as [|? ? Hturn Ht']; subst.
    inversion Hok as [|? ? H200 Hok']; subst.
    destruct r; cbn in Hturn; try contradiction; cbn [App.handle] in Hr.
    + destruct (get_next_question_ok _ _ _ _ _ Hr H200)
        as [q [lang [n [_ [_ [Hn Hdef]]]]]].
      destruct (get_next_question_frame _ _ _ _ _ Hr) as [_ [Hh1 _]].
      rewrite Hc in Hdef. rewrite Hh in Hh1. subst n.
      destruct (IH _ _ _ _ _ _ _ Ht' Hn Hh1 Hrs Hok') as [Hc2 [h' [Hh2 Hl]]].
      cbn [questions_asked answers_given]. split.
      * rewrite Hc2. f_equal. lia.
      * exists h'. split; [assumption | lia].
    + destruct (evaluate_answer_ok _ _ _ _ _ _ Hr H200)
        as [q [a [prev [next [ev [_ [_ [_ [_ [_ [_ Hh1]]]]]]]]]]].
      destruct (evaluate_answer_frame _ _ _ _ _ _ Hr) as [_ [_ Hc1]].
      rewrite Hc in Hc1. rewrite Hh in Hh1.
      destruct (IH _ _ _ _ _ _ _ Ht' Hc1 Hh1 Hrs Hok') as [Hc2 [h' [Hh2 Hl]]].
      cbn [questions_asked answers_given]. split.
      * assumption.
      * exists h'. split; [assumption|].
        rewrite Hl, length_app. cbn. lia.
    + destruct (evaluate_answer_other_frame _ _ _ _ _ _ Hr) as [_ [_ X]].
      now elim X.
Qed.

(** ** The first turn of the concrete interview *)

Example first_turn_runs :
  let '(resps, s, w) :=
    @App.serve reference renders sends first_turn uploaded first_turn_world in
  map App.status resps = [200; 200; 200]
  /\ App.difficulty s = Some "Medium"
  /\ App.current_question s = Some "What is a list?"
  /\ App.question_count s = Some 1
  /\ option_map (map rating) (App.interview_history s) = Some [8.2%float].
Proof. vm_compute. repeat split. Qed.

(** ** The pending question *)

(** C6, as stated, fails: after an answer was recorded with success the
    session still holds the question that was answered. *)
Lemma pending_question_kept_after_answer :
  let '(resps, s, _) :=
    @App.serve reference renders sends first_turn uploaded first_turn_world in
  map App.status resps = [200; 200; 200]
  /\ App.current_question s = Some "What is a list?"
  /\ App.current_question s <> None.
Proof. vm_compute. repeat split. discriminate. Qed.

(** C6, amended. The session has one slot for the pending question; an
    answer is recorded only while the slot is filled; a question that was
    generated replaces what the slot held; recording an answer leaves the
    slot as it is. *)
Theorem pending_question_slot `{Builtins} (s s' : App.session)
    (w w' : world) (resp : App.response) :
  (forall data : App.evaluate_data,
      App.evaluate_answer data s w = (resp, s', w') ->
      App.current_question s' = App.current_question s
      /\ (App.status resp = 200 -> App.current_question s <> None))
  /\ (App.get_next_question s w = (resp, s', w') ->
      (App.status resp = 200 ->
       exists (q lang : string) (n : Z),
         App.payload resp = App.Question q n lang
         /\ App.current_question s' = Some q)
      /\ (App.status resp <> 200 ->
          App.current_question s' = App.current_question s)).
Proof.
  split.
  - intros data E. split.
    + apply (evaluate_answer_frame _ _ _ _ _ _ E).
    + intros H200.
      destruct (evaluate_answer_ok _ _ _ _ _ _ E H200) as [q [a [_ [_ [_ [Hq _]]]]]].
      congruence.
  - intros E. split.
    + intros H200.
      destruct (get_next_question_ok _ _ _ _ _ E H200)
        as [q [lang [n [Hp [Hq _]]]]].
      exists q, lang, n. split; assumption.
    + intros Hfail. now rewrite (get_next_question_failed _ _ _ _ _ E Hfail).
Qed.

(** ** An answer without a question *)





(** ** The counter of questions *)

(** C8, as stated, fails: once the first question is issued the counter
    is 1 and the history is empty. *)
Lemma counter_ahead_of_history :
  let '(resps, s, _) :=
    @App.serve reference renders sends
       [App.StartInterview (start_easy "en" None); App.NextQuestion]
       uploaded first_turn_world in
  map App.status resps = [200; 200]
  /\ App.question_count s = Some 1
  /\ option_map (@List.length entry) (App.interview_history s) = Some 0%nat.
Proof. vm_compute. repeat split. Qed.

(** C8, amended. The counter counts the questions issued and the history
    the answers recorded: a question that is generated adds 1 to the counter
    and leaves the history, an answer that is recorded adds one entry to the
    history and leaves the counter; so over turns that all succeed, in any
    order, the counter grows by the number of questions generated and the
    history by the number of answers recorded. *)
Theorem counter_counts_questions `{Builtins}
    (render : App.report_data -> option exn)
    (send_file : App.report_data -> string -> option exn) :
  (forall (s s' : App.session) (w w' : world) (resp : App.response),
      App.get_next_question s w = (resp, s', w') ->
      App.status resp = 200 ->
      App.question_count s'
      = Some (match App.question_count s with Some c => c | None => 0 end
              + 1)
      /\ App.interview_history s' = App.interview_history s)
  /\ (forall (data : App.evaluate_data) (s s' : App.session) (w w' : world)
             (resp : App.response),
        App.evaluate_answer data s w = (resp, s', w') ->
        App.status resp = 200 ->
        App.question_count s' = App.question_count s
        /\ exists e : entry,
            App.interview_history s'
            = Some (match App.interview_history s with
                    | Some h => h
                    | None => []
                    end ++ [e])%list)
  /\ (forall (rs : list App.request) (s s' : App.session) (w w' : world)
             (resps : list App.response) (c : Z) (h : list entry),
        Forall is_turn rs ->
        App.question_count s = Some c ->
        App.interview_history s = Some h ->
        App.serve render send_file rs s w = (resps, s', w') ->
        Forall (fun resp => App.status resp = 200) resps ->
        App.question_count s' = Some (c + questions_asked rs)
        /\ exists h' : list entry,
            App.interview_history s' = Some h'
            /\ List.length h' = (List.length h + answers_given rs)%nat).
Proof.
  split; [|split].
  - intros s s' w w' resp E H200. split.
    + destruct (get_next_question_ok _ _ _ _ _ E H200)
        as [q [lang [n [_ [_ [Hn Hdef]]]]]].
      now rewrite Hn, Hdef.
    + apply (get_next_question_frame _ _ _ _ _ E).
  - intros data s s' w w' resp E H200. split.
    + apply (evaluate_answer_frame _ _ _ _ _ _ E).
    + destruct (evaluate_answer_ok _ _ _ _ _ _ E H200)
        as [q [a [prev [next [ev [_ [_ [_ [_ [_ [_ Hh]]]]]]]]]]].
      eexists. exact Hh.
  - intros rs s s' w w' resps c h Ht Hc Hh E Hok.
    eapply serve_turns_count; eassumption.
Qed.

Lemma counter_counts_questions_witness :
  App.question_count
    (snd (fst (@App.serve reference renders sends two_questions started
                          two_questions_world)))
  = Some (0 + questions_asked two_questions)
  /\ exists h' : list entry,
      App.interview_history
        (snd (fst (@App.serve reference renders sends two_questions started
                              two_questions_world)))
      = Some h'
      /\ List.length h' = (0 + answers_given two_questions)%nat.
Proof.
  destruct (@App.serve reference renders sends two_questions started
                       two_questions_world) as [[resps s'] w'] eqn:E.
  apply (proj2 (proj2 (@counter_counts_questions reference renders sends))
           two_questions started s' two_questions_world w' resps 0 []).
  - repeat constructor.
  - reflexivity.
  - reflexivity.
  - exact E.
  - vm_compute in E. injection E as <- _ _. repeat constructor.
Defined.

(** ** The prompts of a session *)

Lemma calls_added_refl (P : prompt -> Prop) (w : world) : calls_added P w w.
Proof. exists []. split; [now rewrite app_nil_r | constructor]. Qed.

Lemma calls_added_trans (P : prompt -> Prop) (w1 w2 w3 : world) :
  calls_added P w1 w2 -> calls_added P w2 w3 -> calls_added P w1 w3.
Proof.
  intros [n1 [E1 F1]] [n2 [E2 F2]]. exists (n1 ++ n2)%list. split.
  - now rewrite E2, E1, app_assoc.
  - apply Forall_app. split; assumption.
Qed.

Lemma agent_init_fields (w : world) (m l : string) (a : Agent.agent) :
  Agent.init w m l = Ok a ->
  Agent.model_id a = m /\ Agent.language a = l.
Proof.
  unfold Agent.init. destruct (client_init w m); [discriminate|].
  intros [= <-]. split; reflexivity.
Qed.

Lemma generate_question_calls (summary role difficulty : string)
    (history : list entry) (a : Agent.agent) (w : world) :
  calls_added
    (fun p => In (template_of p) (templates_for (Agent.language a)))
    w (snd (Agent.generate_question summary role difficulty history a w)).
Proof.
  unfold Agent.generate_question, invoke.
  set (t := if String.eqb _ "hi" then _ else _).
  set (p := QuestionPrompt t _ _ _ _ _).
  exists [p]. split.
  - destruct (replies w (List.length (calls w))); reflexivity.
  - repeat constructor. subst p t. cbn [template_of].
    unfold templates_for, Agent.manage_memory_threshold.
    destruct (20 <? _); cbn [Agent.language Agent.with_memory];
      destruct (String.eqb (Agent.language a) "hi"); cbn; auto.
Qed.

Lemma agent_evaluate_answer_calls `{Builtins} (question answer : string)
    (a : Agent.agent) (w : world) :
  calls_added
    (fun p => In (template_of p) (templates_for (Agent.language a)))
    w (snd (Agent.evaluate_answer question answer a w)).
Proof.
  unfold Agent.evaluate_answer.
  set (t := if String.eqb _ "hi" then _ else _).
  set (p := EvaluationPrompt t question answer).
  destruct (attempts_calls (Z.to_nat Agent.max_retries) 0 p answer None a w)
    as [k [Hc _]].
  exists (List.repeat p k). split; [exact Hc|].
  apply Forall_forall. intros x Hx. apply repeat_spec in Hx. subst x.
  subst p t. cbn [template_of]. unfold templates_for.
  destruct (String.eqb (Agent.language a) "hi"), (Agent.is_gemini a);
    cbn; auto.
Qed.

(** One turn keeps the language of the session and sends prompts of that
    language only. *)
Lemma handle_turn_prompts `{Builtins}
    (render : App.report_data -> option exn)
    (send_file : App.report_data -> string -> option exn)
    (r : App.request)
    (s s' : App.session) (w w' : world) (resp : App.response) (l : string) :
  is_turn r ->
  App.language s = Some l ->
  App.handle render send_file r s w = (resp, s', w') ->
  App.language s' = Some l
  /\ calls_added (fun p => In (template_of p) (templates_for l)) w w'.
Proof.
  intros Ht Hl E. destruct r; cbn in Ht; try contradiction;
    cbn [App.handle] in E.
  - split.
    + destruct (get_next_question_frame _ _ _ _ _ E)
        as [[_ [_ [_ [_ [L _]]]]] _]. congruence.
    + unfold App.get_next_question in E. rewrite Hl in E.
      invert_handler E; try apply calls_added_refl.
      all: match goal with
           | I : Agent.init _ _ _ = Ok ?a,
             G : Agent.generate_question ?x1 ?x2 ?x3 ?x4 ?a ?w = (_, _, ?w')
             |- _ =>
               destruct (agent_init_fields _ _ _ _ I) as [_ La];
               pose proof (generate_question_calls x1 x2 x3 x4 a w) as C;
               rewrite G, La in C; exact C
           end.
  - split.
    + destruct (evaluate_answer_frame _ _ _ _ _ _ E)
        as [[_ [_ [_ [_ [L _]]]]] _]. congruence.
    + unfold App.evaluate_answer in E. rewrite Hl in E.
      invert_handler E; try apply calls_added_refl.
      all: match goal with
           | I : bind (App.key ?m) _ = Ok ?a,
             G : Agent.evaluate_answer ?q ?x ?a ?w = (_, _, ?w')
             |- _ =>
               destruct m; cbn in I; [|discriminate];
               destruct (App.api_keys s); cbn in I; [|discriminate];
               destruct (agent_init_fields _ _ _ _ I) as [_ La];
               pose proof (agent_evaluate_answer_calls q x a w) as C;
               rewrite G, La in C; exact C
           end.
  - destruct (evaluate_answer_other_frame _ _ _ _ _ _ E) as [-> [-> _]].
    split; [exact Hl | apply calls_added_refl].
Qed.

(** The turns of a session keep its language and send prompts of that
    language only. *)
Lemma serve_turns_prompts `{Builtins}
    (render : App.report_data -> option exn)
    (send_file : App.report_data -> string -> option exn)
    (l : string)
    (rs : list App.request) :
  forall (s s' : App.session) (w w' : world) (resps : list App.response),
    Forall is_turn rs ->
    App.language s = Some l ->
    App.serve render send_file rs s w = (resps, s', w') ->
    App.language s' = Some l
    /\ calls_added (fun p => In (template_of p) (templates_for l)) w w'.
Proof.
  induction rs as [|r rs IH]; intros s s' w w' resps Ht Hl E.
  - cbn in E. injection E as <- <- <-. split;
      [assumption | apply calls_added_refl].
  - rewrite serve_cons in E.
    destruct (App.handle render send_file r s w) as [[resp s1] w1] eqn:Hr.
    destruct (App.serve render send_file rs s1 w1) as [[resps1 s2] w2] eqn:Hrs.
    injection E as <- <- <-.
    inversion Ht as [|? ? Hturn Ht']; subst.
    destruct (handle_turn_prompts render send_file r s s1 w w1 resp l
                Hturn Hl Hr)
      as [Hl1 C1].
    destruct (IH _ _ _ _ _ Ht' Hl1 Hrs) as [Hl2 C2].
    split; [assumption | eapply calls_added_trans; eassumption].
Qed.

(** C10. When the interview is started in Hinglish mode the language of
    the session is "hi" whatever language was sent, every turn after that
    keeps it, and every prompt of these turns is built from a Hindi
    template; without Hinglish mode the language sent is the language of
    the session. *)
Theorem hinglish_mode_sets_language `{Builtins}
    (render : App.report_data -> option exn)
    (send_file : App.report_data -> string -> option exn)
    (start : App.start_data)
    (s : App.session) (role difficulty model language summary : string) :
  App.sd_role start = Some role ->
  App.sd_difficulty start = Some difficulty ->
  App.sd_model_id start = Some model ->
  App.sd_language start = Some language ->
  App.resume_summary s = Some summary ->
  let started := snd (App.start_interview start s) in
  (forall v : py_value,
      App.sd_hinglish_mode start = Some v -> Py.truthy v = true ->
      App.language started = Some "hi"
      /\ forall (rs : list App.request) (w w' : world) (s' : App.session)
                (resps : list App.response),
          Forall is_turn rs ->
          App.serve render send_file rs started w = (resps, s', w') ->
          App.language s' = Some "hi"
          /\ calls_added (fun p => hindi_template (template_of p) = true)
                         w w')
  /\ (App.sd_hinglish_mode start = None
      \/ (exists v : py_value,
             App.sd_hinglish_mode start = Some v /\ Py.truthy v = false) ->
      App.language started = Some language).
Proof.
  intros Hr Hd Hm Hl Hs started.
  assert (L : App.language started
              = Some (if Py.truthy match App.sd_hinglish_mode start with
                                   | Some v => v
                                   | None => PyBool false
                                   end
                      then "hi" else language)).
  { subst started. unfold App.start_interview.
    rewrite Hr, Hd, Hm, Hl, Hs. reflexivity. }
  split.
  - intros v Hv Tv. rewrite Hv, Tv in L. split; [exact L|].
    intros rs w w' s' resps Ht E.
    destruct (serve_turns_prompts render send_file "hi" rs _ _ _ _ _ Ht L E)
      as [L' [new [Hc F]]].
    split; [exact L'|]. exists new. split; [exact Hc|].
    eapply Forall_impl; [|exact F].
    intros p Hp. cbn in Hp.
    destruct Hp as [<- | [<- | [<- | []]]]; reflexivity.
  - intros [Hn | [v [Hv Tv]]].
    + now rewrite Hn in L.
    + now rewrite Hv, Tv in L.
Qed.

Lemma hinglish_mode_sets_language_witness :
  let started :=
    snd (App.start_interview (start_easy "en" (Some (PyBool true)))
                             uploaded) in
  (forall v : py_value,
      Some (PyBool true) = Some v -> Py.truthy v = true ->
      App.language started = Some "hi"
      /\ forall (rs : list App.request) (w w' : world) (s' : App.session)
                (resps : list App.response),
          Forall is_turn rs ->
          @App.serve reference renders sends rs started w = (resps, s', w') ->
          App.language s' = Some "hi"
          /\ calls_added (fun p => hindi_template (template_of p) = true)
                         w w')
  /\ (Some (PyBool true) = None
      \/ (exists v : py_value,
             Some (PyBool true) = Some v /\ Py.truthy v = false) ->
      App.language started = Some "en").
Proof.
  apply (@hinglish_mode_sets_language reference renders sends
           (start_easy "en" (Some (PyBool true))) uploaded
           "Backend Engineer" "Easy" "gemini-2.5-flash" "en"
           "Backend developer, five years of Python");
    reflexivity.
Defined.

Example hinglish_turn_prompts :
  let started :=
    snd (App.start_interview (start_easy "en" (Some (PyBool true)))
                             uploaded) in
  let '(resps, s, w) :=
    @App.serve reference renders sends
       [App.NextQuestion; App.Evaluate (answer_of "Ek ordered collection")]
       started hinglish_turn_world in
  map App.status resps = [200; 200]
  /\ map template_of (calls w)
     = [QUESTION_GENERATION_PROMPT_HI; EVALUATION_PROMPT_HI_GEMINI]
  /\ App.language s = Some "hi".
Proof. vm_compute. repeat split. Qed.

(** ** The report *)

(** The interview of the specification, end to end: from Easy, the rating
    8.2 leads to Medium, the rating 3.0 back to Easy, the rating 5.0 leaves
    Easy; three questions were counted. *)
Example three_turns_run :
  let '(resps, s, w) :=
    @App.serve reference renders sends three_turns uploaded
               (three_turns_world (Ok "Solid basics")) in
  map App.status resps = [200; 200; 200; 200; 200; 200; 200]
  /\ map difficulty_step resps
     = [None; None; Some ("Easy", "Medium"); None; Some ("Medium", "Easy");
        None; Some ("Easy", "Easy")]
  /\ option_map (map rating) (App.interview_history s)
     = Some [8.2; 3; 5]%float
  /\ App.difficulty s = Some "Easy"
  /\ App.question_count s = Some 3.
Proof. vm_compute. repeat split. Qed.








(** The report of the interview of the specification: with either way of
    adding floats the mean of 8.2, 3.0 and 5.0 is the float
    5.3999999999999995, which the report prints as 5.40 and the prompt of
    the summary holds as 5.4; the file is named after the role. *)
Example report_of_three_turns :
  Forall
    (fun builtins : Builtins =>
       let '(resp, s', w') :=
         @App.generate_report builtins renders sends interviewed
                              interviewed_world in
       App.status resp = 200
       /\ s' = App.cleared
       /\ match App.payload resp with
          | App.ReportFile report =>
              App.rd_avg_rating report = 5.3999999999999995%float
              /\ Report.format_2f (App.rd_avg_rating report) = "5.40"
              /\ PyFloat.round2 (App.rd_avg_rating report) = 5.4%float
              /\ App.rd_num_questions report = 3
              /\ App.rd_overall_summary report = "Solid basics"
              /\ App.download_name (App.rd_role report)
                 = "interview_report_Backend_Engineer.pdf"
          | _ => False
          end)
    [reference; reference_compensated].
Proof.
  apply Forall_cons; [|apply Forall_cons; [|apply Forall_nil]];
    vm_compute; repeat split.
Qed.

(** ** Texts of the model that are JSON values but no objects *)

(** [evaluate_answer] never returns [None]: it returns an evaluation or
    raises. *)
Lemma evaluate_answer_returns `{Builtins} (question answer : string)
    (a : Agent.agent) (w : world) :
  fst (fst (Agent.evaluate_answer question answer a w)) <> Ok None.
Proof.
  rewrite evaluate_answer_cases. cbv zeta.
  repeat break_match; discriminate.
Qed.

(** C1 at the failing input: the model answers both attempts with the text
    [5], a JSON value; the second attempt ends in a [TypeError] that
    [evaluate_answer] raises to its caller, and the handler answers with the
    status 500 without recording the answer. The same happens for [null], for
    a JSON string and for a JSON list that holds the names of the fields. *)
Theorem scalar_text_raises_type_error :
  fst (fst (@Agent.evaluate_answer reference "What is a list?"
              "A list keeps its items in order" gemini_agent
              (scripted [Ok "5"; Ok "5"])))
  = Raise TypeError
  /\ fst (fst (@Agent.evaluate_answer reference "What is a list?"
                 "A list keeps its items in order" gemini_agent
                 (scripted [Ok "not json"; Ok "null"])))
     = Raise TypeError
  /\ fst (fst (@Agent.evaluate_answer reference "What is a list?"
                 "A list keeps its items in order" gemini_agent
                 (scripted
                    [Ok "5";
                     Ok ("[" ++ quoted "rating" ++ ", " ++ quoted "strengths"
                             ++ ", " ++ quoted "improvements" ++ "]")])))
     = Raise TypeError
  /\ (let '(resps, s, _) :=
        @App.serve reference renders sends
           [App.StartInterview (start_easy "en" None); App.NextQuestion;
            App.Evaluate (answer_of "A list keeps its items in order")]
           uploaded (scripted [Ok "What is a list?"; Ok "5"; Ok "5"]) in
      map App.status resps = [200; 200; 500]
      /\ App.interview_history s = Some []).
Proof. vm_compute. repeat split. Qed.

(** ** A rating that is not a number *)

(** C4 at the failing input: a record whose rating is the float NaN passes
    the validation, and the rating returned is NaN: it is not within 1 and
    10, and it is not equal to itself rounded. *)
Theorem nan_rating_is_returned :
  match @Agent.normalize reference
          (PyDict [("rating", PyFloat nan); ("strengths", PyStr "clear");
                   ("improvements", PyStr "give examples")]) with
  | Ok ev =>
      is_nan (Agent.ev_rating ev) = true
      /\ (1 <=? Agent.ev_rating ev)%float = false
      /\ (Agent.ev_rating ev <=? 10)%float = false
      /\ (PyFloat.round2 (Agent.ev_rating ev) =? Agent.ev_rating ev)%float
         = false
  | Raise _ => False
  end
  /\ match fst (fst (@Agent.evaluate_answer reference "What is a list?"
                       "A list keeps its items in order" gemini_agent
                       (scripted [Ok (evaluation_json "NaN")]))) with
     | Ok (Some ev) => is_nan (Agent.ev_rating ev) = true
     | _ => False
     end.
Proof. vm_compute. repeat split. Qed.

(** ** The rating that is returned *)

Lemma Prim2SF_1 : Prim2SF 1 = S754_finite false 4503599627370496 (-52).
Proof. vm_compute. reflexivity. Qed.
Lemma Prim2SF_10 : Prim2SF 10 = S754_finite false 5629499534213120 (-49).
Proof. vm_compute. reflexivity. Qed.

Lemma digits2_pos_size (m : positive) : digits2_pos m = Pos.size m.
Proof. induction m; cbn; congruence. Qed.

Lemma digits2_pos_bounds (m : positive) :
  2 ^ (Z.pos (digits2_pos m) - 1) <= Z.pos m < 2 ^ Z.pos (digits2_pos m).
Proof.
  rewrite digits2_pos_size.
  assert (H : Z.pos (Pos.size m) = Z.log2 (Z.pos m) + 1).
  { destruct m; cbn; try reflexivity; lia. }
  rewrite H. replace (Z.log2 (Z.pos m) + 1 - 1) with (Z.log2 (Z.pos m)) by lia.
  replace (Z.log2 (Z.pos m) + 1) with (Z.succ (Z.log2 (Z.pos m))) by lia.
  apply Z.log2_spec. lia.
Qed.

Lemma compare_cont_not_gt (m a : positive) :
  Pos.compare_cont Eq m a <> Gt -> Z.pos m <= Z.pos a.
Proof.
  change (Pos.compare_cont Eq m a) with (Pos.compare m a).
  intros H. destruct (Pos.compare_spec m a); try lia. congruence.
Qed.

(** A float between 1 and 10 has the sign, the exponent and the mantissa
    of the format in that range. *)
Lemma between_1_and_10 (c : float) :
  (1 <=? c)%float = true -> (c <=? 10)%float = true ->
  exists (m : positive) (e : Z),
    Prim2SF c = S754_finite false m e
    /\ -52 <= e <= -49
    /\ 2 ^ 52 <= Z.pos m < 2 ^ 53
    /\ (e = -49 -> Z.pos m <= 5629499534213120).
Proof.
  intros H1 H10.
  pose proof (Prim2SF_valid c) as V.
  rewrite leb_spec, Prim2SF_1 in H1. rewrite leb_spec, Prim2SF_10 in H10.
  unfold SFleb in *.
  destruct (Prim2SF c) as [s|s| |s m e]; cbn [SFcompare] in *;
    try discriminate.
  - destruct s; discriminate.
  - destruct s; try discriminate.
    exists m, e. split; [reflexivity|].
    assert (E1 : -52 <= e).
    { clear V H10. destruct (-52 ?= e) eqn:C; try discriminate.
      - apply Z.compare_eq in C. lia.
      - rewrite Z.compare_lt_iff in C. lia. }
    assert (E2 : e <= -49).
    { clear V H1. destruct (e ?= -49) eqn:C; try discriminate.
      - apply Z.compare_eq in C. lia.
      - rewrite Z.compare_lt_iff in C. lia. }
    cbn [valid_binary] in V. unfold bounded, canonical_mantissa, fexp in V.
    apply andb_true_iff in V. destruct V as [V _]. apply Z.eqb_eq in V.
    pose proof (digits2_pos_bounds m) as B.
    unfold SpecFloat.emin, emax, prec in V.
    change IntDef.Z.max with Z.max in V.
    assert (D : Z.pos (digits2_pos m) = 53) by lia.
    rewrite D in B. change (53 - 1) with 52 in B.
    timeout 5 (assert (P52 : 2 ^ 52 = 4503599627370496) by reflexivity).
    timeout 5 (assert (P53 : 2 ^ 53 = 9007199254740992) by reflexivity).
    timeout 5 (rewrite P52, P53 in * ).
    timeout 5 (split; [timeout 10 lia|]).
    timeout 5 (split; [timeout 10 lia|]).
    intros ->. rewrite Z.compare_refl in H10.
    apply compare_cont_not_gt. intros G. rewrite G in H10. discriminate.
Qed.

Lemma round_half_even_bounds (n d a b : Z) :
  0 < d -> a * d <= n <= b * d ->
  a <= PyFloat.round_half_even n d <= b.
Proof.
  intros Hd [Ha Hb]. unfold PyFloat.round_half_even.
  pose proof (Z.div_mod n d ltac:(lia)) as E.
  pose proof (Z.mod_pos_bound n d Hd) as R.
  set (q := n / d) in *. set (r := n mod d) in *.
  assert (Q1 : a <= q) by nia.
  assert (Q2 : q <= b) by nia.
  destruct (Z.compare_spec (2 * r) d) as [C|C|C].
  - destruct (Z.even q); [lia|]. nia.
  - lia.
  - nia.
Qed.

Lemma stable_grid : forallb stable (map Z.of_nat (seq 100 901)) = true.
Proof. vm_compute. reflexivity. Qed.

Lemma stable_between (k : Z) : 100 <= k <= 1000 -> stable k = true.
Proof.
  intros Hk. pose proof stable_grid as G.
  rewrite forallb_forall in G. apply G.
  apply in_map_iff. exists (Z.to_nat k). split; [lia|].
  apply in_seq. lia.
Qed.

Lemma round2_between_1_and_10 (c : float) :
  (1 <=? c)%float = true -> (c <=? 10)%float = true ->
  (1 <=? PyFloat.round2 c)%float = true
  /\ (PyFloat.round2 c <=? 10)%float = true
  /\ PyFloat.round2 (PyFloat.round2 c) = PyFloat.round2 c.
Proof.
  intros H1 H10.
  destruct (between_1_and_10 c H1 H10) as (m & e & P & He & Hm & Hm10).
  assert (K : exists k : Z, 100 <= k <= 1000
                            /\ PyFloat.round2 c = PyFloat.nearest false k 100).
  { unfold PyFloat.round2. rewrite P.
    destruct (Z.leb_spec 0 e) as [L|L]; [lia|].
    eexists. split; [|reflexivity].
    change (2 ^ 52) with 4503599627370496 in Hm.
    change (2 ^ 53) with 9007199254740992 in Hm.
    assert (Ecases : e = -52 \/ e = -51 \/ e = -50 \/ e = -49) by lia.
    destruct Ecases as [-> | [-> | [-> | ->]]].
    - change (2 ^ (- -52)) with 4503599627370496.
      pose proof (round_half_even_bounds (100 * Z.pos m) 4503599627370496
                    100 200 ltac:(lia) ltac:(lia)). lia.
    - change (2 ^ (- -51)) with 2251799813685248.
      pose proof (round_half_even_bounds (100 * Z.pos m) 2251799813685248
                    200 400 ltac:(lia) ltac:(lia)). lia.
    - change (2 ^ (- -50)) with 1125899906842624.
      pose proof (round_half_even_bounds (100 * Z.pos m) 1125899906842624
                    400 800 ltac:(lia) ltac:(lia)). lia.
    - change (2 ^ (- -49)) with 562949953421312.
      specialize (Hm10 eq_refl).
      pose proof (round_half_even_bounds (100 * Z.pos m) 562949953421312
                    800 1000 ltac:(lia) ltac:(lia)). lia. }
  destruct K as (k & Hk & ->).
  pose proof (stable_between k Hk) as S. unfold stable in S.
  apply andb_true_iff in S. destruct S as [S S3].
  apply andb_true_iff in S. destruct S as [S1 S2].
  apply FloatAxioms.Leibniz.eqb_spec in S3.
  repeat split; assumption.
Qed.

Lemma Prim2SF_nan_is_nan (x : float) :
  Prim2SF x = S754_nan -> is_nan x = true.
Proof.
  intros P. unfold is_nan. rewrite FloatAxioms.eqb_spec, P. reflexivity.
Qed.

Lemma is_nan_Prim2SF (x : float) :
  is_nan x = true -> Prim2SF x = S754_nan.
Proof. intros N. unfold Prim2SF. now rewrite N. Qed.

Lemma SFcompare_none (a b : spec_float) :
  SFcompare a b = None -> a = S754_nan \/ b = S754_nan.
Proof.
  destruct a as [sa|sa| |sa ma ea], b as [sb|sb| |sb mb eb]; cbn;
    try discriminate; auto.
Qed.

Lemma ltb_false_leb (x y : float) :
  is_nan x = false -> is_nan y = false ->
  (x <? y)%float = false -> (y <=? x)%float = true.
Proof.
  intros Nx Ny. rewrite ltb_spec, leb_spec. unfold SFltb, SFleb.
  rewrite (SFcompare_antisym (Prim2SF x) (Prim2SF y)).
  destruct (SFcompare (Prim2SF x) (Prim2SF y)) as [[]|] eqn:C; cbn;
    try congruence.
  destruct (SFcompare_none _ _ C) as [P|P];
    apply Prim2SF_nan_is_nan in P; congruence.
Qed.

Lemma nan_ltb (x y : float) :
  is_nan x = true -> (x <? y)%float = false /\ (y <? x)%float = false.
Proof.
  intros N. rewrite !ltb_spec, (is_nan_Prim2SF x N). unfold SFltb. cbn.
  destruct (Prim2SF y); auto.
Qed.

Lemma leb_not_nan (x y : float) :
  (x <=? y)%float = true -> is_nan x = false /\ is_nan y = false.
Proof.
  rewrite leb_spec. unfold SFleb. intros L.
  split.
  - destruct (is_nan x) eqn:N; [|reflexivity].
    rewrite (is_nan_Prim2SF x N) in L. discriminate.
  - destruct (is_nan y) eqn:N; [|reflexivity].
    rewrite (is_nan_Prim2SF y N) in L.
    destruct (Prim2SF x); discriminate.
Qed.

Lemma clamp_between_1_and_10 (r : float) :
  is_nan r = false ->
  (1 <=? Agent.clamp r)%float = true /\ (Agent.clamp r <=? 10)%float = true.
Proof.
  intros N. unfold Agent.clamp, PyFloat.max, PyFloat.min.
  destruct (r <? 1)%float eqn:L1; cbn [orb].
  - destruct (r <? 10)%float eqn:L10.
    + rewrite (ltb_asym r 1 L1). split; reflexivity.
    + split; reflexivity.
  - destruct (10 <? r)%float eqn:G10.
    + rewrite (ltb_asym 10 r G10). split; reflexivity.
    + split.
      * apply ltb_false_leb; [assumption | reflexivity | assumption].
      * apply ltb_false_leb; [reflexivity | assumption | assumption].
Qed.

Lemma clamp_nan (r : float) : is_nan r = true -> Agent.clamp r = r.
Proof.
  intros N. unfold Agent.clamp.
  destruct (nan_ltb r 1 N) as [-> _]. destruct (nan_ltb r 10 N) as [_ ->].
  reflexivity.
Qed.

Lemma round2_nan (r : float) : is_nan r = true -> PyFloat.round2 r = r.
Proof.
  intros N. unfold PyFloat.round2. now rewrite (is_nan_Prim2SF r N).
Qed.

(** The rating returned for a parsed rating [r]: NaN when [r] is NaN, and
    otherwise a float between 1 and 10 that the rounding to two decimals
    leaves as it is. *)
Theorem rating_stable (r : float) :
  let v := PyFloat.round2 (Agent.clamp r) in
  (is_nan r = true /\ is_nan v = true)
  \/ (is_nan r = false
      /\ (1 <=? v)%float = true /\ (v <=? 10)%float = true
      /\ PyFloat.round2 v = v /\ (PyFloat.round2 v =? v)%float = true).
Proof.
  intros v. destruct (is_nan r) eqn:N.
  - left. split; [reflexivity|]. subst v.
    now rewrite (clamp_nan r N), (round2_nan r N).
  - right. split; [reflexivity|].
    destruct (clamp_between_1_and_10 r N) as [C1 C10].
    destruct (round2_between_1_and_10 _ C1 C10) as [V1 [V10 S]].
    fold v in V1, V10, S. repeat split; try assumption.
    rewrite S. destruct (leb_not_nan _ _ V1) as [_ Nv].
    unfold is_nan in Nv. now apply negb_false_iff in Nv.
Qed.

(** The rating of a record that passed the validation is the rating parsed,
    clamped and rounded. *)
Lemma normalize_rating `{Builtins} (ev : py_value) (res : Agent.evaluation) :
  Agent.normalize ev = Ok res ->
  exists r : float, Agent.ev_rating res = PyFloat.round2 (Agent.clamp r).
Proof.
  unfold Agent.normalize. intros E.
  repeat match type of E with
         | bind ?x _ = Ok _ =>
             let v := fresh "v" in
             destruct x as [v|] eqn:?; cbn [bind] in E; [|discriminate]
         end.
  injection E as <-. cbn. eexists. reflexivity.
Qed.

Lemma parse_response_rating `{Builtins} (content : string)
    (res : Agent.evaluation) :
  snd (Agent.parse_response content) = Ok res ->
  exists r : float, Agent.ev_rating res = PyFloat.round2 (Agent.clamp r).
Proof.
  unfold Agent.parse_response. cbn [snd]. intros E.
  destruct (json_loads _) as [v|]; cbn [bind] in E; [|discriminate].
  exact (normalize_rating v res E).
Qed.

Lemma fallback_rating_values (answer : string) :
  In (Agent.ev_rating (Agent.fallback answer)) [1.5; 3; 5; 6]%float.
Proof.
  unfold Agent.fallback. repeat break_match; cbn; auto.
Qed.

(** Whatever [evaluate_answer] returns has a rating that is NaN or lies
    between 1 and 10 and is left as it is by the rounding to two decimals. *)
Theorem returned_rating_stable `{Builtins} (question answer : string)
    (a : Agent.agent) (w : world) (ev : Agent.evaluation) :
  fst (fst (Agent.evaluate_answer question answer a w)) = Ok (Some ev) ->
  is_nan (Agent.ev_rating ev) = true
  \/ ((1 <=? Agent.ev_rating ev)%float = true
      /\ (Agent.ev_rating ev <=? 10)%float = true
      /\ PyFloat.round2 (Agent.ev_rating ev) = Agent.ev_rating ev).
Proof.
  rewrite evaluate_answer_cases. cbv zeta.
  assert (parsed : forall response,
             attempt_outcome response = Ok ev ->
             is_nan (Agent.ev_rating ev) = true
             \/ ((1 <=? Agent.ev_rating ev)%float = true
                 /\ (Agent.ev_rating ev <=? 10)%float = true
                 /\ PyFloat.round2 (Agent.ev_rating ev)
                    = Agent.ev_rating ev)).
  { intros [content|x] E; cbn [attempt_outcome] in E; [|discriminate].
    destruct (parse_response_rating content ev E) as [r ->].
    destruct (rating_stable r) as [[_ N] | [_ [V1 [V10 [S _]]]]]; auto. }
  assert (fell_back :
            is_nan (Agent.ev_rating (Agent.fallback answer)) = true
            \/ ((1 <=? Agent.ev_rating (Agent.fallback answer))%float = true
                /\ (Agent.ev_rating (Agent.fallback answer) <=? 10)%float
                   = true
                /\ PyFloat.round2 (Agent.ev_rating (Agent.fallback answer))
                   = Agent.ev_rating (Agent.fallback answer))).
  { right. pose proof (fallback_rating_values answer) as V. cbn in V.
    destruct V as [<- | [<- | [<- | [<- | []]]]];
      repeat split; vm_compute; reflexivity. }
  destruct (attempt_outcome (replies w (List.length (calls w)))) eqn:O1.
  - intros [= <-]. eapply parsed; eassumption.
  - break_match; [discriminate|].
    destruct (attempt_outcome (replies w (S (List.length (calls w)))))
      eqn:O2.
    + intros [= <-]. eapply parsed; eassumption.
    + repeat break_match; try discriminate; intros [= <-]; exact fell_back.
Qed.

(** ** Strings *)

Lemma append_assoc (a b c : string) : (a ++ b) ++ c = a ++ (b ++ c).
Proof. induction a as [|x a IH]; cbn; [reflexivity | now rewrite IH]. Qed.

Lemma append_empty_r (s : string) : s ++ "" = s.
Proof. induction s as [|x s IH]; cbn; [reflexivity | now rewrite IH]. Qed.

Lemma rev_append_spec (s acc : string) :
  Str.rev_append s acc = Str.rev s ++ acc.
Proof.
  revert acc. induction s as [|x s IH]; intros acc; [reflexivity|].
  unfold Str.rev. cbn [Str.rev_append].
  rewrite (IH (String x acc)), (IH (String x "")), append_assoc.
  reflexivity.
Qed.

Lemma rev_cons (x : ascii) (s : string) :
  Str.rev (String x s) = Str.rev s ++ String x "".
Proof. unfold Str.rev at 1. cbn [Str.rev_append]. apply rev_append_spec. Qed.

Lemma rev_app (a b : string) : Str.rev (a ++ b) = Str.rev b ++ Str.rev a.
Proof.
  induction a as [|x a IH]; cbn [append].
  - now rewrite append_empty_r.
  - now rewrite !rev_cons, IH, append_assoc.
Qed.

Lemma rev_involutive (s : string) : Str.rev (Str.rev s) = s.
Proof.
  induction s as [|x s IH]; [reflexivity|].
  now rewrite rev_cons, rev_app, IH.
Qed.

Lemma all_space_app (a b : string) :
  all_space (a ++ b) = all_space a && all_space b.
Proof.
  induction a as [|x a IH]; cbn; [reflexivity|].
  now rewrite IH, andb_assoc.
Qed.

Lemma all_space_rev (s : string) : all_space (Str.rev s) = all_space s.
Proof.
  induction s as [|x s IH]; [reflexivity|].
  rewrite rev_cons, all_space_app, IH. cbn.
  now rewrite andb_true_r, andb_comm.
Qed.

Lemma lstrip_split (s : string) :
  exists sp : string, all_space sp = true /\ s = sp ++ Str.lstrip s.
Proof.
  induction s as [|x s [sp [A E]]].
  - exists "". split; reflexivity.
  - cbn [Str.lstrip]. destruct (Str.isspace x) eqn:X.
    + exists (String x sp). cbn. rewrite X, A. split; [reflexivity|].
      now rewrite <- E.
    + exists "". split; reflexivity.
Qed.

Lemma rstrip_split (s : string) :
  exists sp : string, all_space sp = true /\ s = Str.rstrip s ++ sp.
Proof.
  destruct (lstrip_split (Str.rev s)) as [sp [A E]].
  exists (Str.rev sp). split; [now rewrite all_space_rev|].
  unfold Str.rstrip. rewrite <- rev_app, <- E. now rewrite rev_involutive.
Qed.

Lemma prefix_app (p t x : string) :
  prefix p t = true -> prefix p (t ++ x) = true.
Proof.
  revert t. induction p as [|c p IH]; intros t;
    [intros _; destruct (t ++ x); reflexivity|].
  destruct t as [|a t]; cbn; [discriminate|].
  destruct (ascii_dec c a); [apply IH | discriminate].
Qed.

Lemma prefix_all_space (p sp : string) :
  all_space sp = true -> prefix p sp = true -> all_space p = true.
Proof.
  revert sp. induction p as [|c p IH]; intros sp A P; [reflexivity|].
  destruct sp as [|a sp]; cbn in *; [discriminate|].
  destruct (ascii_dec c a) as [->|]; [|discriminate].
  apply andb_true_iff in A. destruct A as [A1 A2].
  rewrite A1. cbn. eapply IH; eassumption.
Qed.

Lemma ends_solid_not_all_space (p : string) :
  ends_solid p = true -> all_space p = false.
Proof.
  induction p as [|c p IH]; [discriminate|].
  cbn. destruct p as [|c' p'].
  - intros S. apply negb_true_iff in S. now rewrite S.
  - intros S. rewrite (IH S). apply andb_false_r.
Qed.

Lemma prefix_before_spaces (p t sp : string) :
  ends_solid p = true -> all_space sp = true ->
  prefix p (t ++ sp) = prefix p t.
Proof.
  intros S A. destruct (prefix p t) eqn:P.
  - now apply prefix_app.
  - revert t S P. induction p as [|c p IH]; intros t S P;
      [discriminate S|].
    destruct t as [|a t].
    + cbn [append]. destruct (prefix (String c p) sp) eqn:Q; [|reflexivity].
      pose proof (prefix_all_space _ _ A Q) as W.
      now rewrite (ends_solid_not_all_space _ S) in W.
    + cbn in *. destruct (ascii_dec c a); [|reflexivity].
      destruct p as [|c' p']; [destruct t; discriminate P|].
      apply IH; assumption.
Qed.

Lemma contains_spaces (p sp : string) :
  ends_solid p = true -> all_space sp = true -> Str.contains p sp = false.
Proof.
  intros S A. induction sp as [|a sp IH].
  - destruct p; [discriminate | reflexivity].
  - cbn [Str.contains].
    destruct (prefix p (String a sp)) eqn:Q.
    + pose proof (prefix_all_space _ _ A Q) as W.
      now rewrite (ends_solid_not_all_space _ S) in W.
    + cbn in A. apply andb_true_iff in A. destruct A as [_ A].
      now rewrite IH.
Qed.

Lemma contains_before_spaces (p t sp : string) :
  ends_solid p = true -> all_space sp = true ->
  Str.contains p (t ++ sp) = Str.contains p t.
Proof.
  intros S A. induction t as [|a t IH].
  - cbn [append]. rewrite (contains_spaces p sp S A).
    destruct p; [discriminate | reflexivity].
  - change (String a t ++ sp) with (String a (t ++ sp)).
    cbn [Str.contains]. rewrite IH.
    change (String a (t ++ sp)) with (String a t ++ sp).
    now rewrite (prefix_before_spaces p (String a t) sp S A).
Qed.

Lemma contains_after_spaces (p sp t : string) :
  starts_solid p = true -> all_space sp = true ->
  Str.contains p (sp ++ t) = Str.contains p t.
Proof.
  intros S A. induction sp as [|a sp IH]; [reflexivity|].
  cbn in A. apply andb_true_iff in A. destruct A as [Xa A].
  change (String a sp ++ t) with (String a (sp ++ t)).
  cbn [Str.contains]. rewrite (IH A).
  destruct p as [|c p]; [discriminate|].
  cbn in S. cbn [prefix].
  destruct (ascii_dec c a) as [->|]; [|reflexivity].
  rewrite Xa in S. discriminate.
Qed.

(** A phrase without whitespace at its ends occurs in [s.strip()] exactly
    when it occurs in [s]. *)
Lemma contains_strip (p s : string) :
  starts_solid p = true -> ends_solid p = true ->
  Str.contains p (Str.strip s) = Str.contains p s.
Proof.
  intros S1 S2. unfold Str.strip.
  destruct (lstrip_split s) as [sp1 [A1 E1]].
  destruct (rstrip_split (Str.lstrip s)) as [sp2 [A2 E2]].
  rewrite E1 at 2. rewrite (contains_after_spaces p sp1 _ S1 A1).
  rewrite E2 at 2. now rewrite (contains_before_spaces p _ sp2 S2 A2).
Qed.

(** [is_dont_know]: a phrase of the list occurs in the answer put in lower
    case. *)
Lemma is_dont_know_lower (answer : string) :
  Agent.is_dont_know answer
  = existsb (fun phrase => Str.contains phrase (Str.lower answer))
            Agent.dont_know_phrases.
Proof.
  unfold Agent.is_dont_know, Agent.dont_know_phrases. cbn [existsb].
  rewrite !contains_strip by reflexivity. reflexivity.
Qed.

Lemma split_go_nonempty (sep : string) (s : string) :
  forall (skip : nat) (acc : string),
    (1 <= List.length (Str.split_go sep skip acc s))%nat.
Proof.
  induction s as [|c s IH]; intros skip acc; cbn [Str.split_go].
  - cbn. lia.
  - destruct skip as [|k]; [|apply IH].
    destruct (prefix sep (String c s)); [cbn; lia | apply IH].
Qed.

Lemma split_go_second (sep : string) (s : string) :
  sep <> "" ->
  forall acc : string,
    Str.contains sep s = true ->
    (2 <= List.length (Str.split_go sep 0 acc s))%nat.
Proof.
  intros Hsep. induction s as [|c s IH]; intros acc C.
  - cbn in C. destruct sep; [contradiction | discriminate].
  - cbn [Str.split_go]. cbn [Str.contains] in C.
    destruct (prefix sep (String c s)).
    + cbn [List.length].
      pose proof (split_go_nonempty sep s (String.length sep - 1) "").
      lia.
    + apply IH. exact C.
Qed.

(** The pieces [strip_code_fence] takes exist: where the text holds the
    fence, [split] gives at least two pieces, and it always gives one. *)
Lemma split_pieces (sep s : string) :
  sep <> "" ->
  (exists (first : string) (rest : list string),
      Str.split sep s = first :: rest)
  /\ (Str.contains sep s = true ->
      exists (first second : string) (rest : list string),
        Str.split sep s = first :: second :: rest).
Proof.
  intros Hsep. unfold Str.split. split.
  - pose proof (split_go_nonempty sep s 0 "") as L.
    destruct (Str.split_go sep 0 "" s) as [|x l]; [cbn in L; lia|].
    eauto.
  - intros C. pose proof (split_go_second sep s Hsep "" C) as L.
    destruct (Str.split_go sep 0 "" s) as [|x [|y l]];
      [cbn in L; lia | cbn in L; lia |].
    eauto.
Qed.

(** ** The fallback evaluation *)

(** C3. The fallback evaluation depends on the answer only: 1.50 when the
    answer in lower case holds a phrase of not knowing or the answer has
    fewer than 3 words, else 3.00 below 10 words, 5.00 below 30 words and
    6.00 from 30 words on; the missing points are the fixed text; whatever
    the question, the agent and the texts of the model, two attempts that
    fail to parse give this evaluation ("idk" gives 1.50, an answer of 15
    words 5.00). *)
Theorem fallback_depends_on_answer_only :
  (forall answer : string,
      Agent.ev_missing_points (Agent.fallback answer)
      = "Unable to parse detailed feedback from evaluation system"
      /\ ((exists phrase : string,
              In phrase Agent.dont_know_phrases
              /\ Str.contains phrase (Str.lower answer) = true)
          \/ Agent.answer_length answer < 3 ->
          Agent.ev_rating (Agent.fallback answer) = 1.50%float)
      /\ ((forall phrase : string,
              In phrase Agent.dont_know_phrases ->
              Str.contains phrase (Str.lower answer) = false) ->
          (3 <= Agent.answer_length answer < 10 ->
           Agent.ev_rating (Agent.fallback answer) = 3.00%float)
          /\ (10 <= Agent.answer_length answer < 30 ->
              Agent.ev_rating (Agent.fallback answer) = 5.00%float)
          /\ (30 <= Agent.answer_length answer ->
              Agent.ev_rating (Agent.fallback answer) = 6.00%float)))
  /\ (In "i don't know" Agent.dont_know_phrases
      /\ In "idk" Agent.dont_know_phrases
      /\ In "no idea" Agent.dont_know_phrases
      /\ In "not sure" Agent.dont_know_phrases)
  /\ (forall (B : Builtins) (question answer text1 text2 : string)
             (e1 e2 : exn) (a : Agent.agent) (w : world),
        replies w (List.length (calls w)) = Ok text1 ->
        replies w (S (List.length (calls w))) = Ok text2 ->
        snd (Agent.parse_response text1) = Raise e1 ->
        snd (Agent.parse_response text2) = Raise e2 ->
        is_value_error e1 = true ->
        is_value_error e2 = true ->
        fst (fst (Agent.evaluate_answer question answer a w))
        = Ok (Some (Agent.fallback answer)))
  /\ Agent.ev_rating (Agent.fallback "idk") = 1.50%float
  /\ Agent.answer_length fifteen_words = 15
  /\ Agent.is_dont_know fifteen_words = false
  /\ Agent.ev_rating (Agent.fallback fifteen_words) = 5.00%float.
Proof.
  split; [|split; [|split; [|repeat split; reflexivity]]].
  - intros answer. unfold Agent.fallback.
    rewrite is_dont_know_lower.
    set (known := existsb _ Agent.dont_know_phrases).
    repeat split.
    + destruct (known || (Agent.answer_length answer <? 3));
        [reflexivity|].
      destruct (Agent.answer_length answer <? 10); [reflexivity|].
      destruct (Agent.answer_length answer <? 30); reflexivity.
    + intros [[phrase [Hin Hc]] | Hl].
      * assert (K : known = true).
        { subst known. apply existsb_exists. exists phrase. now split. }
        rewrite K. reflexivity.
      * apply Z.ltb_lt in Hl. rewrite Hl, orb_true_r. reflexivity.
    + intros [H3 H10].
      assert (K : known = false).
      { subst known. apply not_true_is_false. intros E.
        apply existsb_exists in E. destruct E as [phrase [Hin Hc]].
        rewrite (H phrase Hin) in Hc. discriminate. }
      rewrite K. apply Z.ltb_ge in H3. apply Z.ltb_lt in H10.
      rewrite H3, H10. reflexivity.
    + intros [H10 H30].
      assert (K : known = false).
      { subst known. apply not_true_is_false. intros E.
        apply existsb_exists in E. destruct E as [phrase [Hin Hc]].
        rewrite (H phrase Hin) in Hc. discriminate. }
      rewrite K.
      assert (H3 : (Agent.answer_length answer <? 3) = false)
        by (apply Z.ltb_ge; lia).
      apply Z.ltb_ge in H10. apply Z.ltb_lt in H30. rewrite H3, H10, H30.
      reflexivity.
    + intros H30.
      assert (K : known = false).
      { subst known. apply not_true_is_false. intros E.
        apply existsb_exists in E. destruct E as [phrase [Hin Hc]].
        rewrite (H phrase Hin) in Hc. discriminate. }
      rewrite K.
      assert (H3 : (Agent.answer_length answer <? 3) = false)
        by (apply Z.ltb_ge; lia).
      assert (H10 : (Agent.answer_length answer <? 10) = false)
        by (apply Z.ltb_ge; lia).
      apply Z.ltb_ge in H30. rewrite H3, H10, H30. reflexivity.
  - cbn. repeat split; auto 10.
  - intros B question answer text1 text2 e1 e2 a w H1 H2 P1 P2 V1 V2.
    rewrite evaluate_answer_cases. cbv zeta. rewrite H1, H2.
    cbn [attempt_outcome]. rewrite P1, P2, V1, V2. reflexivity.
Qed.

Lemma fallback_depends_on_answer_only_witness :
  fst (fst (@Agent.evaluate_answer reference "What is a list?" "idk"
              gemini_agent
              (scripted [Ok "I could not rate this"; Ok "{rating: high}"])))
  = Ok (Some (Agent.fallback "idk"))
  /\ Agent.ev_rating (Agent.fallback "idk") = 1.50%float.
Proof.
  split.
  - apply (proj1 (proj2 (proj2 fallback_depends_on_answer_only)) reference
             "What is a list?" "idk" "I could not rate this" "{rating: high}"
             JSONDecodeError JSONDecodeError gemini_agent
             (scripted [Ok "I could not rate this"; Ok "{rating: high}"]));
      reflexivity.
  - apply (proj1 (proj2 (proj1 fallback_depends_on_answer_only "idk"))).
    left. exists "idk". split; [cbn; auto | reflexivity].
Defined.

(** ** Witnesses of the difficulty, the memory and the pending question *)

Lemma next_difficulty_levels_witness :
  App.next_difficulty (level_name EASY) 8.2
  = Ok (level_name (step_up EASY))
  /\ App.next_difficulty (level_name HARD) 3.99
     = Ok (level_name (step_down HARD))
  /\ App.next_difficulty (level_name MEDIUM) 7
     = Ok (level_name MEDIUM).
Proof.
  split; [|split].
  - apply (proj1 (proj1 next_difficulty_levels EASY 8.2%float)).
    reflexivity.
  - apply (proj1 (proj2 (proj1 next_difficulty_levels HARD 3.99%float))).
    reflexivity.
  - apply (proj2 (proj2 (proj1 next_difficulty_levels MEDIUM 7%float)));
      reflexivity.
Defined.

Lemma memory_pruning_fifo_witness :
  Agent.memory (Agent.manage_memory_threshold agent_with_22_messages)
  = numbered (seq 11 12).
Proof.
  apply (proj1 memory_pruning_fifo agent_with_22_messages
           (numbered (seq 1 10)) (numbered (seq 11 12))).
  - reflexivity.
  - reflexivity.
  - cbn. lia.
Defined.

Lemma pending_question_slot_witness :
  let s := snd (fst (@App.serve reference renders sends
                       [App.StartInterview (start_easy "en" None);
                        App.NextQuestion]
                       uploaded first_turn_world)) in
  let w := snd (@App.serve reference renders sends
                  [App.StartInterview (start_easy "en" None);
                   App.NextQuestion]
                  uploaded first_turn_world) in
  let '(resp, s', _) :=
    @App.evaluate_answer reference
       (answer_of "A list keeps its items in order") s w in
  App.current_question s' = App.current_question s
  /\ (App.status resp = 200 -> App.current_question s <> None).
Proof.
  cbv zeta.
  destruct (@App.evaluate_answer reference
              (answer_of "A list keeps its items in order") _ _)
    as [[resp s'] w'] eqn:E.
  exact (proj1 (@pending_question_slot reference _ s' _ w' resp)
           (answer_of "A list keeps its items in order") E).
Defined.

(** ** A witness of the rating that is returned *)

Lemma returned_rating_stable_witness :
  is_nan 8.2 = true
  \/ ((1 <=? 8.2)%float = true
      /\ (8.2 <=? 10)%float = true
      /\ PyFloat.round2 8.2 = 8.2%float).
Proof.
  apply (@returned_rating_stable reference "What is a list?"
           "A list keeps its items in order" gemini_agent
           (scripted [Ok (evaluation_json "8.2")])
           {| Agent.ev_rating := 8.2;
              Agent.ev_strengths := "clear";
              Agent.ev_improvements := "give examples";
              Agent.ev_missing_points := "complexity" |}).
  vm_compute. reflexivity.
Defined.

(** ** A witness of the pieces of a split *)

Lemma split_pieces_witness :
  (exists (first : string) (rest : list string),
      Str.split Agent.backticks "before```{}```after" = first :: rest)
  /\ (Str.contains Agent.backticks "before```{}```after" = true ->
      exists (first second : string) (rest : list string),
        Str.split Agent.backticks "before```{}```after"
        = first :: second :: rest).
Proof.
  apply (split_pieces Agent.backticks "before```{}```after").
  discriminate.
Defined.


(** ** Further properties of the evaluation and of the prompts *)

(** What [evaluate_answer] raises is never a [JSONDecodeError] or a
    [ValueError]: these end in another attempt or in the fallback. *)
Theorem evaluate_answer_raises_no_value_error `{Builtins}
    (question answer : string) (a : Agent.agent) (w : world) (e : exn) :
  fst (fst (Agent.evaluate_answer question answer a w)) = Raise e ->
  is_value_error e = false.
Proof.
  rewrite evaluate_answer_cases. cbv zeta.
  repeat break_match; intros [= <-]; try reflexivity; assumption.
Qed.

Lemma evaluate_answer_raises_no_value_error_witness :
  is_value_error TypeError = false.
Proof.
  apply (@evaluate_answer_raises_no_value_error reference "What is a list?"
           "A list keeps its items in order" gemini_agent
           (scripted [Ok "5"; Ok "5"]) TypeError).
  vm_compute. reflexivity.
Defined.

(** In a session whose language is not "hi", no prompt of the turns is
    built from a Hindi template. *)
Theorem other_languages_use_english_prompts `{Builtins}
    (render : App.report_data -> option exn)
    (send_file : App.report_data -> string -> option exn)
    (l : string)
    (rs : list App.request) (s s' : App.session) (w w' : world)
    (resps : list App.response) :
  l <> "hi" ->
  Forall is_turn rs ->
  App.language s = Some l ->
  App.serve render send_file rs s w = (resps, s', w') ->
  App.language s' = Some l
  /\ calls_added (fun p => hindi_template (template_of p) = false) w w'.
Proof.
  intros Hl Ht L E.
  destruct (serve_turns_prompts render send_file l rs s s' w w' resps Ht L E)
    as [L' [new [Hc F]]].
  split; [exact L'|]. exists new. split; [exact Hc|].
  eapply Forall_impl; [|exact F].
  intros p Hp. unfold templates_for in Hp.
  destruct (String.eqb_spec l "hi") as [->|_]; [contradiction|].
  cbn in Hp. destruct Hp as [<- | [<- | [<- | []]]]; reflexivity.
Qed.

Lemma other_languages_use_english_prompts_witness :
  App.language
    (snd (fst (@App.serve reference renders sends two_questions started
                          two_questions_world)))
  = Some "en"
  /\ calls_added (fun p => hindi_template (template_of p) = false)
       two_questions_world
       (snd (@App.serve reference renders sends two_questions started
                        two_questions_world)).
Proof.
  destruct (@App.serve reference renders sends two_questions started
                       two_questions_world) as [[resps s'] w'] eqn:E.
  apply (@other_languages_use_english_prompts reference renders sends "en"
           two_questions started s' two_questions_world w' resps).
  - discriminate.
  - repeat constructor.
  - reflexivity.
  - exact E.
Defined.

(** * Properties of the rest of the program *)

(** ** The texts of the prompts *)

Lemma format_evaluation `{Builtins} (t : template) (question answer : string) :
  In t evaluation_templates ->
  Prompts.format (PromptText.template_text t)
    [("question", PyStr question); ("answer", PyStr answer)]
  = Ok (interleave (pieces_of (PromptText.template_text t) false "")
                   [question; answer]).
Proof.
  intros [<-|[<-|[<-|[<-|[]]]]]; vm_compute; reflexivity.
Qed.

Lemma format_question `{Builtins} (hindi : bool)
    (resume_summary role difficulty history : string)
    (last_rating : py_value) :
  let t := if hindi then Prompts.QUESTION_GENERATION_PROMPT_HI
           else Prompts.QUESTION_GENERATION_PROMPT_EN in
  Prompts.format t
    [("resume_summary", PyStr resume_summary);
     ("role", PyStr role);
     ("difficulty", PyStr difficulty);
     ("history", PyStr history);
     ("last_rating", last_rating)]
  = Ok (interleave (pieces_of t false "")
          (if hindi
           then [role; difficulty; resume_summary; difficulty;
                 Py.str last_rating; history; difficulty]
           else [difficulty; role; resume_summary; difficulty;
                 Py.str last_rating; history; difficulty])).
Proof.
  destruct hindi; vm_compute; reflexivity.
Qed.

Lemma format_summary `{Builtins} (role history : string)
    (num_questions : Z) (avg_rating : float) :
  Prompts.format Prompts.OVERALL_SUMMARY_PROMPT
    [("role", PyStr role);
     ("num_questions", PyInt num_questions);
     ("avg_rating", PyFloat avg_rating);
     ("history", PyStr history)]
  = Ok (interleave (pieces_of Prompts.OVERALL_SUMMARY_PROMPT false "")
          [role; Py.str (PyInt num_questions);
           Py.str (PyFloat avg_rating); history]).
Proof. vm_compute. reflexivity. Qed.

Lemma format_resume `{Builtins} (resume_text : string) :
  PromptText.resume_prompt_text resume_text
  = Ok (interleave (pieces_of Prompts.RESUME_SUMMARY_PROMPT false "")
          [resume_text]).
Proof. vm_compute. reflexivity. Qed.

(** Every template of [prompts.py] writes fixed pieces of text with named
    fields between them, and is formatted without an exception for all the
    values of its fields: the text is made of the same pieces with the
    values in the place of the fields, each as it is (a brace in an answer
    or a resume is not read as a field), in the order of the fields. *)
Theorem templates_format_for_all_values `{Builtins} :
  (exists pieces : list string,
      Prompts.RESUME_SUMMARY_PROMPT = written pieces ["resume_text"]
      /\ forall resume_text : string,
          PromptText.resume_prompt_text resume_text
          = Ok (interleave pieces [resume_text]))
  /\ (exists pieces : list string,
         Prompts.QUESTION_GENERATION_PROMPT_EN
         = written pieces
             ["difficulty"; "role"; "resume_summary"; "difficulty";
              "last_rating"; "history"; "difficulty"]
         /\ forall (resume_summary role difficulty history : string)
                   (last_rating : py_value),
             Prompts.format Prompts.QUESTION_GENERATION_PROMPT_EN
               [("resume_summary", PyStr resume_summary);
                ("role", PyStr role);
                ("difficulty", PyStr difficulty);
                ("history", PyStr history);
                ("last_rating", last_rating)]
             = Ok (interleave pieces
                     [difficulty; role; resume_summary; difficulty;
                      Py.str last_rating; history; difficulty]))
  /\ (exists pieces : list string,
         Prompts.QUESTION_GENERATION_PROMPT_HI
         = written pieces
             ["role"; "difficulty"; "resume_summary"; "difficulty";
              "last_rating"; "history"; "difficulty"]
         /\ forall (resume_summary role difficulty history : string)
                   (last_rating : py_value),
             Prompts.format Prompts.QUESTION_GENERATION_PROMPT_HI
               [("resume_summary", PyStr resume_summary);
                ("role", PyStr role);
                ("difficulty", PyStr difficulty);
                ("history", PyStr history);
                ("last_rating", last_rating)]
             = Ok (interleave pieces
                     [role; difficulty; resume_summary; difficulty;
                      Py.str last_rating; history; difficulty]))
  /\ Forall
       (fun t =>
          exists pieces : list string,
            PromptText.template_text t = written pieces ["question"; "answer"]
            /\ forall question answer : string,
                Prompts.format (PromptText.template_text t)
                  [("question", PyStr question); ("answer", PyStr answer)]
                = Ok (interleave pieces [question; answer]))
       evaluation_templates
  /\ (exists pieces : list string,
         Prompts.OVERALL_SUMMARY_PROMPT
         = written pieces ["role"; "num_questions"; "avg_rating"; "history"]
         /\ forall (role history : string) (num_questions : Z)
                   (avg_rating : float),
             Prompts.format Prompts.OVERALL_SUMMARY_PROMPT
               [("role", PyStr role);
                ("num_questions", PyInt num_questions);
                ("avg_rating", PyFloat avg_rating);
                ("history", PyStr history)]
             = Ok (interleave pieces
                     [role; Py.str (PyInt num_questions);
                      Py.str (PyFloat avg_rating); history])).
Proof.
  split.
  { exists (pieces_of Prompts.RESUME_SUMMARY_PROMPT false "").
    split; [vm_compute; reflexivity | intros; apply format_resume]. }
  split.
  { exists (pieces_of Prompts.QUESTION_GENERATION_PROMPT_EN false "").
    split; [vm_compute; reflexivity | intros; apply (format_question false)]. }
  split.
  { exists (pieces_of Prompts.QUESTION_GENERATION_PROMPT_HI false "").
    split; [vm_compute; reflexivity | intros; apply (format_question true)]. }
  split.
  { unfold evaluation_templates.
    repeat (apply Forall_cons; [|]); [| | | |apply Forall_nil].
    all: match goal with
         | |- exists _, PromptText.template_text ?t = _ /\ _ =>
             exists (pieces_of (PromptText.template_text t) false "");
             split; [vm_compute; reflexivity|];
             intros; apply format_evaluation; cbn; auto
         end. }
  exists (pieces_of Prompts.OVERALL_SUMMARY_PROMPT false "").
  split; [vm_compute; reflexivity | intros; apply format_summary].
Qed.

Lemma question_prompt_has_text `{Builtins} (hindi : bool)
    (resume_summary role difficulty : string) (history : list entry)
    (last_rating : option float) :
  has_text
    (QuestionPrompt
       (if hindi then QUESTION_GENERATION_PROMPT_HI
        else QUESTION_GENERATION_PROMPT_EN)
       resume_summary role difficulty history last_rating).
Proof.
  unfold has_text, PromptText.prompt_text.
  pose proof (format_question hindi resume_summary role difficulty
                (PromptText.format_history history)
                match last_rating with
                | Some r => PyFloat r
                | None => PyStr "N/A"
                end) as F.
  cbv zeta in F. destruct hindi; cbn [PromptText.template_text];
    rewrite F; eexists; reflexivity.
Qed.

(** The prompts of the agent have a text: the template [generate_question],
    [evaluate_answer] and [generate_overall_summary] choose has the fields
    the call gives values for, so that no formatting raises. *)
Theorem agent_prompts_have_text `{Builtins} (a : Agent.agent) (w : world) :
  (forall (resume_summary role difficulty : string) (history : list entry),
      calls_added has_text w
        (snd (Agent.generate_question resume_summary role difficulty
                                      history a w)))
  /\ (forall question answer : string,
         calls_added has_text w
           (snd (Agent.evaluate_answer question answer a w)))
  /\ (forall (role : string) (history : list entry),
         calls_added has_text w
           (snd (Agent.generate_overall_summary role history a w))).
Proof.
  split; [|split].
  - intros resume_summary role difficulty history.
    unfold Agent.generate_question, invoke.
    set (t := if String.eqb _ "hi" then _ else _).
    set (p := QuestionPrompt t _ _ _ _ _).
    exists [p]. split.
    + destruct (replies w (List.length (calls w))); reflexivity.
    + repeat constructor. subst p t.
      apply (question_prompt_has_text (String.eqb _ "hi")).
  - intros question answer. unfold Agent.evaluate_answer.
    set (t := if String.eqb _ "hi" then _ else _).
    set (p := EvaluationPrompt t question answer).
    destruct (attempts_calls (Z.to_nat Agent.max_retries) 0 p answer None a w)
      as [k [Hc _]].
    exists (List.repeat p k). split; [exact Hc|].
    apply Forall_forall. intros x Hx. apply repeat_spec in Hx. subst x.
    subst p. unfold has_text, PromptText.prompt_text.
    rewrite format_evaluation; [eexists; reflexivity|].
    subst t. unfold evaluation_templates.
    destruct (String.eqb (Agent.language a) "hi"), (Agent.is_gemini a);
      cbn; auto.
  - intros role history. unfold Agent.generate_overall_summary.
    destruct history as [|e history].
    + exists []. split; [now rewrite app_nil_r | constructor].
    + unfold invoke.
      set (p := SummaryPrompt _ _ _ _ _).
      exists [p]. split.
      * destruct (replies w (List.length (calls w))); reflexivity.
      * repeat constructor. subst p.
        unfold has_text, PromptText.prompt_text.
        cbn [PromptText.template_text].
        rewrite format_summary. eexists; reflexivity.
Qed.

(** ** File names *)

Lemma take_all (s : string) : Str.take (String.length s) s = s.
Proof. induction s as [|c s IH]; cbn; [reflexivity | now rewrite IH]. Qed.

Lemma take_app (a b : string) : Str.take (String.length a) (a ++ b) = a.
Proof. induction a as [|c a IH]; cbn; [now destruct b | now rewrite IH]. Qed.

Lemma drop_app (a b : string) : Str.drop (String.length a) (a ++ b) = b.
Proof. induction a as [|c a IH]; cbn; [reflexivity | exact IH]. Qed.

Lemma length_app_string (a b : string) :
  String.length (a ++ b) = (String.length a + String.length b)%nat.
Proof. induction a as [|c a IH]; cbn; [reflexivity | now rewrite IH]. Qed.

(** The last occurrence of a dot. *)
Lemma rfind_go_dot (s : string) :
  forall pos best : Z,
    (Str.contains "." s = false -> Str.rfind_go "." pos best s = best)
    /\ (Str.contains "." s = true ->
        exists pre post : string,
          s = pre ++ "." ++ post
          /\ Str.contains "." post = false
          /\ Str.rfind_go "." pos best s = pos + Z.of_nat (String.length pre)).
Proof.
  induction s as [|c s IH]; intros pos best.
  - cbn. split; [reflexivity | intros X; discriminate X].
  - cbn [Str.contains Str.rfind_go].
    destruct (IH (pos + 1) (if prefix "." (String c s) then pos else best))
      as [IHn IHy].
    destruct (Str.contains "." s) eqn:C.
    + rewrite orb_true_r. split; [intros X; discriminate X|]. intros _.
      destruct (IHy eq_refl) as [pre [post [-> [Hp Hr]]]].
      exists (String c pre), post.
      split; [reflexivity|]. split; [assumption|].
      rewrite Hr. cbn [String.length]. lia.
    + rewrite orb_false_r. rewrite (IHn eq_refl).
      destruct (prefix "." (String c s)) eqn:P.
      * split; [intros X; discriminate X|]. intros _.
        exists "", s. cbn [prefix] in P.
        destruct (ascii_dec "." c) as [<-|]; [|discriminate P].
        split; [reflexivity|]. split; [assumption | cbn; lia].
      * split; [reflexivity | intros X; discriminate X].
Qed.

Lemma clip_inside (len i : Z) : 0 <= i <= len -> Str.clip len i = i.
Proof.
  intros H. unfold Str.clip.
  destruct (i <? 0) eqn:E; [apply Z.ltb_lt in E; lia|]. lia.
Qed.

Lemma rfind_whole (sub s : string) :
  Str.rfind sub s = Str.rfind_go sub 0 (-1) s.
Proof.
  unfold Str.rfind, Str.rfind_in, Str.slice.
  set (len := Z.of_nat (String.length s)).
  assert (0 <= len) by (subst len; lia).
  rewrite !(clip_inside len 0), !(clip_inside len len) by lia.
  replace (len <? 0) with false by (symmetry; apply Z.ltb_ge; lia).
  rewrite Z.sub_0_r. subst len. rewrite Nat2Z.id. cbn [Z.to_nat Str.drop].
  now rewrite take_all.
Qed.

Lemma slice_front (a b : string) :
  Str.slice (a ++ b) 0 (Z.of_nat (String.length a)) = a.
Proof.
  unfold Str.slice. rewrite length_app_string.
  rewrite !clip_inside by lia.
  rewrite Z.sub_0_r, Nat2Z.id. cbn [Z.to_nat Str.drop].
  apply take_app.
Qed.

(** [rsplit('.', 1)] on a name with a dot: the name is cut at its last
    dot. *)
Lemma rsplit1_dot (s : string) :
  Str.contains "." s = true ->
  exists pre post : string,
    s = pre ++ "." ++ post
    /\ Str.contains "." post = false
    /\ StrOps.rsplit1 "." s = [pre; post].
Proof.
  intros C.
  destruct (rfind_go_dot s 0 (-1)) as [_ Hy].
  destruct (Hy C) as [pre [post [-> [Hp Hr]]]].
  exists pre, post. split; [reflexivity|]. split; [assumption|].
  unfold StrOps.rsplit1. rewrite rfind_whole, Hr. cbn [Z.add].
  replace (Z.of_nat (String.length pre) <? 0) with false
    by (symmetry; apply Z.ltb_ge; lia).
  rewrite slice_front, Nat2Z.id. f_equal. f_equal.
  change (String.length ".") with 1%nat.
  rewrite Nat.add_1_r.
  replace (S (String.length pre)) with (String.length (pre ++ "."))
    by (rewrite length_app_string; cbn; lia).
  rewrite <- drop_app with (a := pre ++ ".") (b := post) at 2.
  now rewrite append_assoc.
Qed.

Lemma contains_app_r (sub a b : string) :
  Str.contains sub b = true -> Str.contains sub (a ++ b) = true.
Proof.
  intros C. induction a as [|c a IH]; [exact C|].
  cbn [append Str.contains]. rewrite IH. apply orb_true_r.
Qed.

Lemma lower_app (a b : string) :
  Str.lower (a ++ b) = Str.lower a ++ Str.lower b.
Proof. induction a as [|c a IH]; cbn; [reflexivity | now rewrite IH]. Qed.

Lemma lower_char_dot (c : ascii) :
  Str.lower_char c = "."%char -> c = "."%char.
Proof.
  destruct c as [[] [] [] [] [] [] [] []]; vm_compute; intros E;
    first [reflexivity | discriminate E].
Qed.

Lemma lower_dot_free (s : string) :
  Str.contains "." s = false -> Str.contains "." (Str.lower s) = false.
Proof.
  induction s as [|c s IH]; [intros; reflexivity|].
  cbn [Str.lower Str.contains prefix]. intros C.
  apply orb_false_iff in C. destruct C as [C1 C2].
  rewrite (IH C2), orb_false_r.
  destruct (ascii_dec "." (Str.lower_char c)) as [E|]; [|reflexivity].
  symmetry in E. apply lower_char_dot in E. subst c.
  cbn [prefix] in C1.
  destruct (ascii_dec "." ".") as [_|N]; [|now elim N].
  destruct s; discriminate C1.
Qed.

(** A text that ends in [.pdf] has [pdf] after its last dot. *)
Lemma after_last_dot (a b p : string) :
  Str.contains "." p = false ->
  a ++ "." ++ p = b ++ ".pdf" -> p = "pdf".
Proof.
  revert b. induction a as [|x a IH]; intros b Hp E.
  - destruct b as [|y b]; cbn in E.
    + now injection E.
    + injection E as <- ->.
      rewrite contains_app_r in Hp; [discriminate Hp | reflexivity].
  - destruct b as [|y b]; cbn in E.
    + injection E as -> E.
      destruct a as [|a1 [|a2 [|a3 [|a4 a]]]]; cbn in E; discriminate E.
    + injection E as <- E. exact (IH b Hp E).
Qed.

Lemma take_drop (n : nat) (s : string) : Str.take n s ++ Str.drop n s = s.
Proof.
  revert s. induction n as [|n IH]; intros s; [reflexivity|].
  destruct s as [|c s]; [reflexivity|]. cbn. now rewrite IH.
Qed.

Lemma endswith_app (a suf : string) : Str.endswith suf (a ++ suf) = true.
Proof.
  unfold Str.endswith. rewrite length_app_string.
  replace (String.length a + String.length suf - String.length suf)%nat
    with (String.length a) by lia.
  rewrite drop_app, String.eqb_refl, andb_true_r.
  apply Nat.leb_le. lia.
Qed.

Lemma endswith_inv (suf s : string) :
  Str.endswith suf s = true -> exists a : string, s = a ++ suf.
Proof.
  unfold Str.endswith. intros E. apply andb_true_iff in E.
  destruct E as [_ E]. apply String.eqb_eq in E.
  set (n := (String.length s - String.length suf)%nat) in E.
  exists (Str.take n s).
  rewrite <- E. symmetry. apply take_drop.
Qed.

Lemma allowed_file_spec (filename : string) :
  Routes.allowed_file filename
  = Ok (Str.endswith ".pdf" (Str.lower filename)).
Proof.
  unfold Routes.allowed_file.
  destruct (Str.contains "." filename) eqn:C.
  - destruct (rsplit1_dot filename C) as [pre [post [-> [Hp ->]]]].
    cbn [StrOps.item nth_error bind Routes.ALLOWED_EXTENSIONS existsb].
    rewrite orb_false_r. f_equal.
    rewrite !lower_app. change (Str.lower ".") with ".".
    destruct (String.eqb (Str.lower post) "pdf") eqn:E.
    + apply String.eqb_eq in E. rewrite E. symmetry.
      change ("." ++ "pdf") with ".pdf". apply endswith_app.
    + destruct (Str.endswith ".pdf" (Str.lower pre ++ "." ++ Str.lower post))
        eqn:S; [|reflexivity].
      apply endswith_inv in S. destruct S as [a S].
      apply after_last_dot in S; [|now apply lower_dot_free].
      rewrite S in E. discriminate E.
  - f_equal.
    destruct (Str.endswith ".pdf" (Str.lower filename)) eqn:S; [|reflexivity].
    apply endswith_inv in S. destruct S as [a S].
    pose proof (lower_dot_free filename C) as L.
    rewrite S, contains_app_r in L; [discriminate L | reflexivity].
Qed.

(** [allowed_file] accepts exactly the names that end in [.pdf], whatever
    the case of the letters; the indexing after [rsplit] never leaves the
    list. *)
Theorem allowed_file_pdf (filename : string) :
  Routes.allowed_file filename
  = Ok (Str.endswith ".pdf" (Str.lower filename)).
Proof. apply allowed_file_spec. Qed.

(** ** The model client *)

Lemma startswith_app (p x : string) : StrOps.startswith p (p ++ x) = true.
Proof.
  unfold StrOps.startswith. apply prefix_app.
  induction p as [|c p IH]; [reflexivity|].
  cbn. destruct (ascii_dec c c) as [_|N]; [exact IH | now elim N].
Qed.

(** The model a Gemini client is built for is the identifier under
    [models/]: an identifier that has the prefix is passed as it is, any
    other gets it, the identifiers of the mapping table included; a model
    whose identifier does not contain [gemini] goes to OpenRouter under its
    own name. *)
Theorem initialize_llm_model (model_id : string) (keys : App.api_keys_t) :
  Llm.initialize_llm model_id keys =
  if Str.contains "gemini" (Str.lower model_id) then
    Llm.ChatGoogleGenerativeAI
      (if StrOps.startswith "models/" model_id then model_id
       else "models/" ++ model_id)
      (App.gemini keys) 0.7 2048 true
  else
    Llm.ChatOpenAI model_id (App.openrouter keys)
                   "https://openrouter.ai/api/v1" 0.7 4096.
Proof.
  unfold Llm.initialize_llm.
  destruct (Str.contains "gemini" (Str.lower model_id)); [|reflexivity].
  f_equal. unfold Llm.model_mapping. cbn [StrOps.get].
  repeat match goal with
         | |- context [String.eqb ?k model_id] =>
             destruct (String.eqb_spec k model_id) as [<-|_];
             [reflexivity|]
         end.
  destruct (StrOps.startswith "models/" model_id); reflexivity.
Qed.

(** Every model [get_config] offers goes to the provider it is listed
    under: the Gemini ones to the Gemini client as [models/] followed by the
    identifier, with the Gemini evaluation prompts, the others to
    OpenRouter under their own identifier. *)
Theorem offered_models_reach_their_provider (env : Routes.environment)
    (keys : App.api_keys_t) (language : string) :
  Forall
    (fun group =>
       Forall
         (fun m =>
            Routes.provider m = fst group
            /\ Agent.is_gemini {| Agent.model_id := Routes.id m;
                                  Agent.language := language;
                                  Agent.memory := [] |}
               = String.eqb (fst group) "gemini"
            /\ Llm.initialize_llm (Routes.id m) keys
               = if String.eqb (fst group) "gemini" then
                   Llm.ChatGoogleGenerativeAI ("models/" ++ Routes.id m)
                     (App.gemini keys) 0.7 2048 true
                 else
                   Llm.ChatOpenAI (Routes.id m) (App.openrouter keys)
                     "https://openrouter.ai/api/v1" 0.7 4096)
         (snd group))
    (Routes.availableModels (Routes.get_config env)).
Proof.
  cbn [Routes.get_config Routes.availableModels].
  repeat (constructor; cbn [fst snd Routes.id Routes.provider]);
    repeat split; reflexivity.
Qed.

(** ** The upload of a resume *)

Lemma upload_resume_cases `{Builtins} (env : Routes.environment)
    (request : Routes.upload_request) (s s' : App.session) (w : world)
    (reply : result string) (resp : Routes.response) :
  Routes.upload_resume env request s w reply = (resp, s') ->
  (Routes.status resp = 200 ->
   exists (file : Routes.file_storage) (raw_text content : string)
          (keys : App.api_keys_t),
     Routes.files_resume request = Some file
     /\ Str.endswith ".pdf" (Str.lower (Routes.filename file)) = true
     /\ Routes.extract_text_from_pdf (Routes.pdf file) = Some raw_text
     /\ (100 <= String.length raw_text)%nat
     /\ reply = Ok content
     /\ Routes.payload resp = Routes.ResumeUploaded (Str.strip content)
     /\ s' = Routes.set_resume s (Str.strip content) keys)
  /\ (Routes.status resp <> 200 -> s' = s)
  /\ In (Routes.status resp) [200; 400; 500].
Proof.
  unfold Routes.upload_resume. intros E.
  destruct (Routes.files_resume request) as [file|] eqn:F.
  2: { injection E as <- <-. cbn.
       split; [intros X; discriminate X|]. split; auto. }
  rewrite allowed_file_spec in E.
  repeat break_hyp E; try discriminate E; injection E as <- <-;
    cbn [Routes.status Routes.respond Routes.payload];
    (split; [intros X; try discriminate X
            | split; [intros X; try reflexivity; now elim X
                     | cbn; auto]]).
  all: match goal with
       | E : bind (Agent.init _ _ _) _ = Ok _ |- _ =>
           destruct (Agent.init w "gemini-2.5-flash" "en");
           cbn [bind] in E; [|discriminate E];
           unfold Llm.summarize_resume in E; rewrite format_resume in E;
           cbn [bind] in E;
           destruct reply as [content|]; [|discriminate E];
           injection E as <-
       end.
  all: eexists _, _, content, _.
  all: repeat match goal with
              | |- _ /\ _ => split
              end; try reflexivity; try eassumption.
  all: match goal with
       | E : (Z.of_nat _ <? 100) = false |- _ =>
           apply Z.ltb_ge in E; cbn [String.length] in *; lia
       end.
Qed.

(** [upload_resume] succeeds only for a file whose name ends in [.pdf], of
    which at least 100 characters of text are left once the whitespace
    around is dropped, and when the model gave a text; the session then
    holds the summary, stripped, and the keys, and the rest of it is as
    before. An upload that is refused or fails changes nothing. *)
Theorem upload_resume_outcomes `{Builtins} (env : Routes.environment)
    (request : Routes.upload_request) (s s' : App.session) (w : world)
    (reply : result string) (resp : Routes.response) :
  Routes.upload_resume env request s w reply = (resp, s') ->
  (Routes.status resp = 200 ->
   exists (file : Routes.file_storage) (raw_text content : string)
          (keys : App.api_keys_t),
     Routes.files_resume request = Some file
     /\ Str.endswith ".pdf" (Str.lower (Routes.filename file)) = true
     /\ Routes.extract_text_from_pdf (Routes.pdf file) = Some raw_text
     /\ (100 <= String.length raw_text)%nat
     /\ reply = Ok content
     /\ Routes.payload resp = Routes.ResumeUploaded (Str.strip content)
     /\ s' = Routes.set_resume s (Str.strip content) keys)
  /\ (Routes.status resp <> 200 -> s' = s)
  /\ In (Routes.status resp) [200; 400; 500].
Proof. apply upload_resume_cases. Qed.

(** ** The session after it was cleared *)

Lemma first_missing_cleared (data : App.other_json) :
  (searched data = false
   /\ App.first_missing App.required_fields (App.value data)
      = Raise TypeError)
  \/ (searched data = true
      /\ exists missing : option string,
          App.first_missing App.required_fields (App.value data)
          = Ok missing).
Proof.
  destruct data; cbn [searched App.value]; try (left; split; reflexivity);
    right; (split; [reflexivity|]);
    unfold App.required_fields; cbn [App.first_missing Py.contains bind];
    repeat match goal with
           | |- context [if ?b then _ else _] => destruct b
           end; eexists; reflexivity.
Qed.

Lemma handle_cleared `{Builtins} (render : App.report_data -> option exn)
    (send_file : App.report_data -> string -> option exn)
    (r : App.request) (w : world) :
  exists resp : App.response,
    App.handle render send_file r App.cleared w = (resp, App.cleared, w)
    /\ empty_session_response r resp.
Proof.
  destruct r as [data| |data| | |data|data];
    cbn [App.handle empty_session_response].
  - unfold App.start_interview.
    destruct (App.sd_role data), (App.sd_difficulty data),
      (App.sd_model_id data), (App.sd_language data);
      cbn; eexists; split; auto.
  - cbn. eexists; split; auto.
  - unfold App.evaluate_answer. destruct (App.ed_answer data);
      cbn; eexists; split; auto.
  - cbn. eexists; split; auto.
  - cbn. eexists; split; auto.
  - unfold App.start_interview_other.
    destruct (first_missing_cleared data) as [[-> ->] | [-> [[f|] ->]]];
      cbn; eexists; split; reflexivity.
  - unfold App.evaluate_answer_other.
    destruct data; cbn [searched App.value Py.contains];
      try (eexists; split; reflexivity);
      match goal with
      | |- context [if ?b then _ else _] => destruct b
      | |- context [match Ok ?b with _ => _ end] => destruct b
      end; cbn; eexists; split; reflexivity.
Qed.

(** A report that was delivered and [end_session] leave an empty session.
    From an empty session every request for an interview, a question, an
    evaluation or a report is refused: with the status 400, or, when its
    body is null, a boolean or a number, with the page of the unhandled
    [TypeError] and the status 500; no call goes to the model and the
    session stays empty. *)
Theorem cleared_session_refuses `{Builtins}
    (render : App.report_data -> option exn)
    (send_file : App.report_data -> string -> option exn) :
  (forall (s s' : App.session) (w w' : world) (resp : App.response),
      App.generate_report render send_file s w = (resp, s', w') ->
      App.status resp = 200 -> s' = App.cleared)
  /\ (forall s : App.session, snd (App.end_session s) = App.cleared)
  /\ (forall (rs : list App.request) (w : world),
         exists resps : list App.response,
           App.serve render send_file rs App.cleared w
           = (resps, App.cleared, w)
           /\ Forall2 empty_session_response rs resps).
Proof.
  split; [|split].
  - unfold App.generate_report. intros s s' w w' resp E.
    invert_handler E; cbn; intros X; try discriminate X; reflexivity.
  - reflexivity.
  - induction rs as [|r rs IH]; intros w.
    + exists []. split; [reflexivity | constructor].
    + destruct (handle_cleared render send_file r w) as [resp [Hr Hs]].
      destruct (IH w) as [resps [Hrs Hall]].
      exists (resp :: resps). rewrite serve_cons, Hr, Hrs.
      split; [reflexivity | now constructor].
Qed.

(** ** From an evaluation to the next question *)

Lemma get_next_question_prompt (s s' : App.session) (w w' : world)
    (resp : App.response) :
  App.get_next_question s w = (resp, s', w') ->
  App.status resp = 200 ->
  exists summary role difficulty model language : string,
    App.resume_summary s = Some summary
    /\ App.role s = Some role
    /\ App.difficulty s = Some difficulty
    /\ App.model_id s = Some model
    /\ App.language s = Some language
    /\ calls w'
       = (calls w
          ++ [QuestionPrompt
                (if String.eqb language "hi"
                 then QUESTION_GENERATION_PROMPT_HI
                 else QUESTION_GENERATION_PROMPT_EN)
                summary role difficulty
                match App.interview_history s with
                | Some h => h
                | None => []
                end
                (last_rating_of match App.interview_history s with
                                | Some h => h
                                | None => []
                                end)])%list.
Proof.
  unfold App.get_next_question. intros E.
  destruct (App.resume_summary s) as [summary|]; [|now inversion E].
  destruct (App.role s) as [role|]; [|now inversion E].
  destruct (App.difficulty s) as [difficulty|]; [|now inversion E].
  destruct (App.model_id s) as [model|]; [|now inversion E].
  destruct (App.language s) as [language|]; [|now inversion E].
  destruct (App.api_keys s) as [keys|]; [|now inversion E].
  unfold Agent.init in E.
  destruct (client_init w model); [now inversion E|].
  unfold Agent.generate_question, invoke in E.
  cbn [Agent.manage_memory_threshold Agent.memory List.length Z.of_nat
       Z.ltb Z.compare Agent.language Agent.with_memory] in E.
  intros Hs. exists summary, role, difficulty, model, language.
  repeat (split; [reflexivity|]).
  destruct (replies w (List.length (calls w))); [|now inversion E; subst].
  break_hyp E; inversion E; subst; [reflexivity | discriminate Hs].
Qed.

Lemma evaluate_answer_reported `{Builtins} (data : App.evaluate_data)
    (s s' : App.session) (w w' : world) (resp : App.response) :
  App.evaluate_answer data s w = (resp, s', w') ->
  App.status resp = 200 ->
  exists (q a prev next shown : string) (ev : Agent.evaluation),
    let history :=
      (match App.interview_history s with
       | Some h => h
       | None => []
       end
       ++ [{| question := q;
              answer := a;
              rating := Agent.ev_rating ev;
              strengths := Agent.ev_strengths ev;
              improvements := Agent.ev_improvements ev;
              missing_points := Agent.ev_missing_points ev |}])%list in
    App.current_question s = Some q
    /\ App.ed_answer data = Some a
    /\ App.difficulty s' = Some next
    /\ App.interview_history s' = Some history
    /\ App.payload resp
       = App.Evaluated ev next prev (Z.of_nat (List.length history)) shown.
Proof.
  unfold App.evaluate_answer. intros E.
  invert_handler E; cbn; intros Hs; try discriminate.
  all: cbn in *.
  all: match goal with
       | E : bind (App.key ?d) _ = Ok _ |- _ =>
           destruct d eqn:Ed; cbn in E; [|discriminate];
           let En := fresh "En" in
           destruct (App.next_difficulty _ _) eqn:En in E; cbn in E;
           [|discriminate]; injection E as <- <-
       end.
  all: eexists _, _, _, _, _, _; repeat split; eauto.
Qed.

(** The question that follows an evaluation is asked with what the
    evaluation reported: the prompt carries the updated difficulty, the
    rating just given as the last rating, and the history up to the entry
    just recorded, whose length is the total reported. *)
Theorem evaluation_feeds_next_question `{Builtins}
    (data : App.evaluate_data) (s s1 : App.session) (w w1 : world)
    (resp : App.response) :
  App.evaluate_answer data s w = (resp, s1, w1) ->
  App.status resp = 200 ->
  exists (ev : Agent.evaluation) (updated previous shown : string)
         (total : Z),
    App.payload resp = App.Evaluated ev updated previous total shown
    /\ forall (s2 : App.session) (w2 w3 : world) (resp2 : App.response),
        App.get_next_question s1 w2 = (resp2, s2, w3) ->
        App.status resp2 = 200 ->
        exists (t : template) (summary role : string)
               (earlier : list entry) (recorded : entry),
          calls w3
          = (calls w2
             ++ [QuestionPrompt t summary role updated
                                (earlier ++ [recorded])
                                (Some (Agent.ev_rating ev))])%list
          /\ Z.of_nat (List.length (earlier ++ [recorded])) = total
          /\ App.ed_answer data = Some (answer recorded)
          /\ App.current_question s = Some (question recorded)
          /\ rating recorded = Agent.ev_rating ev.
Proof.
  intros E Hs.
  destruct (evaluate_answer_reported _ _ _ _ _ _ E Hs)
    as [q [a [prev [next [shown [ev [Hq [Ha [Hd [Hh Hp]]]]]]]]]].
  exists ev, next, prev, shown; eexists. split; [exact Hp|].
  intros s2 w2 w3 resp2 E2 Hs2.
  destruct (get_next_question_prompt _ _ _ _ _ E2 Hs2)
    as [summary [role [difficulty [model [language
         [_ [_ [Hd2 [_ [_ Hc]]]]]]]]]].
  rewrite Hd in Hd2. injection Hd2 as <-.
  rewrite Hh in Hc. unfold last_rating_of in Hc.
  rewrite rev_app_distr in Hc. cbn [rev app rating] in Hc.
  eexists _, summary, role, _, _. split; [exact Hc|].
  repeat split; assumption.
Qed.

(** ** A session that was set up *)

Lemma handle_turn_configured `{Builtins}
    (render : App.report_data -> option exn)
    (send_file : App.report_data -> string -> option exn)
    (r : App.request)
    (s s' : App.session) (w w' : world) (resp : App.response) :
  is_turn r ->
  configured s ->
  App.handle render send_file r s w = (resp, s', w') ->
  configured s' /\ (r = App.NextQuestion -> App.status resp <> 400).
Proof.
  unfold configured. intros Ht C E.
  destruct C as [C1 [C2 [C3 [C4 [C5 C6]]]]].
  destruct r; cbn in Ht; try contradiction; cbn [App.handle] in E.
  - destruct (get_next_question_frame _ _ _ _ _ E)
      as [[F1 [F2 [F3 [F4 [F5 _]]]]] [_ [Fd _]]].
    split; [rewrite F1, F2, F3, F4, F5, Fd; tauto|].
    intros _. unfold App.get_next_question in E.
    destruct (App.resume_summary s); [|now elim C1].
    destruct (App.api_keys s); [|now elim C2].
    destruct (App.role s); [|now elim C3].
    destruct (App.difficulty s); [|now elim C4].
    destruct (App.model_id s); [|now elim C5].
    destruct (App.language s); [|now elim C6].
    invert_handler E; cbn; discriminate.
  - destruct (evaluate_answer_frame _ _ _ _ _ _ E)
      as [[F1 [F2 [F3 [F4 [F5 _]]]]] _].
    split; [|intros X; discriminate X].
    rewrite F1, F2, F3, F4, F5.
    repeat (split; [assumption|]). split; [|split; assumption].
    unfold App.evaluate_answer in E.
    invert_handler E; cbn; try assumption; discriminate.
  - destruct (evaluate_answer_other_frame _ _ _ _ _ _ E) as [-> _].
    split; [tauto | intros X; discriminate X].
Qed.

Lemma serve_turns_configured `{Builtins}
    (render : App.report_data -> option exn)
    (send_file : App.report_data -> string -> option exn)
    (rs : list App.request) :
  forall (s s' : App.session) (w w' : world) (resps : list App.response),
    Forall is_turn rs ->
    configured s ->
    App.serve render send_file rs s w = (resps, s', w') ->
    configured s'
    /\ Forall2 (fun r resp => r = App.NextQuestion -> App.status resp <> 400)
               rs resps.
Proof.
  induction rs as [|r rs IH]; intros s s' w w' resps Ht C E.
  - cbn in E. injection E as <- <- <-. split; [assumption | constructor].
  - rewrite serve_cons in E.
    destruct (App.handle render send_file r s w) as [[resp s1] w1] eqn:Hr.
    destruct (App.serve render send_file rs s1 w1) as [[resps1 s2] w2] eqn:Hrs.
    injection E as <- <- <-.
    inversion Ht as [|? ? Hturn Ht']; subst.
    destruct (handle_turn_configured _ _ _ _ _ _ _ _ Hturn C Hr)
      as [C1 Hn].
    destruct (IH _ _ _ _ _ Ht' C1 Hrs) as [C2 Hall].
    split; [assumption | now constructor].
Qed.

(** After an upload that succeeded, [start_interview] succeeds exactly when
    the body has the four required fields, and from then on no request for
    a question is refused as coming from an incomplete session, whatever
    the questions and evaluations in between and their outcomes. *)
Theorem upload_and_start_set_up_the_session `{Builtins}
    (render : App.report_data -> option exn)
    (send_file : App.report_data -> string -> option exn)
    (env : Routes.environment)
    (request : Routes.upload_request) (s0 s1 : App.session) (w0 : world)
    (reply : result string) (resp1 : Routes.response) :
  Routes.upload_resume env request s0 w0 reply = (resp1, s1) ->
  Routes.status resp1 = 200 ->
  forall (data : App.start_data) (resp2 : App.response) (s2 : App.session),
    App.start_interview data s1 = (resp2, s2) ->
    (App.status resp2 = 200 <->
     App.sd_role data <> None /\ App.sd_difficulty data <> None
     /\ App.sd_model_id data <> None /\ App.sd_language data <> None)
    /\ (App.status resp2 = 200 ->
        forall (rs : list App.request) (w w' : world) (s3 : App.session)
               (resps : list App.response),
          Forall is_turn rs ->
          App.serve render send_file rs s2 w = (resps, s3, w') ->
          Forall2 (fun r resp =>
                     r = App.NextQuestion -> App.status resp <> 400)
                  rs resps).
Proof.
  intros U Hu data resp2 s2 St.
  destruct (upload_resume_cases _ _ _ _ _ _ _ U) as [Hok _].
  destruct (Hok Hu) as [file [raw [content [keys [_ [_ [_ [_ [_ [_ ->]]]]]]]]]].
  unfold App.start_interview in St.
  cbn [Routes.set_resume App.resume_summary App.api_keys
       App.current_question App.last_rating] in St.
  destruct (App.sd_role data), (App.sd_difficulty data),
    (App.sd_model_id data), (App.sd_language data);
    injection St as <- <-; cbn [App.status App.respond].
  1: { split; [split; [intros _; repeat split; discriminate | reflexivity]|].
       intros _ rs w w' final resps Ht E.
       refine (proj2 (serve_turns_configured render send_file rs
                        _ _ _ _ _ Ht _ E)).
       unfold configured. cbn. repeat split; discriminate. }
  all: split; [split; [intros X; discriminate X
                      | intros [A [B [C D]]]; congruence]
              | intros X; discriminate X].
Qed.

(** ** A difficulty outside the three levels *)

Lemma index_unknown (d : string) :
  ~ In d App.difficulty_order ->
  App.index d App.difficulty_order = Raise ValueError.
Proof.
  unfold App.difficulty_order. cbn [In App.index]. intros N.
  repeat match goal with
         | |- context [String.eqb ?k d] =>
             destruct (String.eqb_spec k d) as [E|_]; [elim N; tauto|]
         end.
  reflexivity.
Qed.

(** [start_interview] takes any text as the difficulty. With a difficulty
    that is none of [Easy], [Medium] and [Hard] no evaluation succeeds:
    when the agent has evaluated the answer the handler records it in the
    history and as the last rating, and then answers 500 for the
    [ValueError] of the look-up of the difficulty, which stays as it
    was. *)
Theorem unknown_difficulty_fails_after_recording `{Builtins}
    (data : App.evaluate_data) (s s' : App.session) (w w' : world)
    (resp : App.response) (d : string) :
  App.difficulty s = Some d ->
  ~ In d App.difficulty_order ->
  App.evaluate_answer data s w = (resp, s', w') ->
  App.status resp <> 200
  /\ forall (q a m l : string) (agent : Agent.agent) (ev : Agent.evaluation),
      App.current_question s = Some q ->
      App.ed_answer data = Some a ->
      App.model_id s = Some m ->
      App.language s = Some l ->
      App.api_keys s <> None ->
      Agent.init w m l = Ok agent ->
      fst (fst (Agent.evaluate_answer q a agent w)) = Ok (Some ev) ->
      resp = App.respond 500 (App.Failure "Evaluation failed" ValueError)
      /\ App.interview_history s'
         = Some (match App.interview_history s with
                 | Some h => h
                 | None => []
                 end
                 ++ [{| question := q;
                        answer := a;
                        rating := Agent.ev_rating ev;
                        strengths := Agent.ev_strengths ev;
                        improvements := Agent.ev_improvements ev;
                        missing_points := Agent.ev_missing_points ev |}])%list
      /\ App.last_rating s' = Some (Agent.ev_rating ev)
      /\ App.difficulty s' = Some d.
Proof.
  intros Hd Hn E. split.
  - intros Hs.
    destruct (evaluate_answer_ok _ _ _ _ _ _ E Hs)
      as [q [a [prev [next [ev [_ [_ [Hp [Hx _]]]]]]]]].
    rewrite Hd in Hp. injection Hp as <-.
    unfold App.next_difficulty in Hx. rewrite (index_unknown d Hn) in Hx.
    discriminate Hx.
  - intros q a m l agent ev Hq Ha Hm Hl Hk Hi He.
    unfold App.evaluate_answer in E.
    rewrite Ha, Hq, Hm, Hl in E.
    destruct (App.api_keys s) as [keys|]; [|now elim Hk].
    cbn [bind App.key] in E. rewrite Hi in E.
    destruct (Agent.evaluate_answer q a agent w) as [[evd a'] w1].
    cbn [fst] in He. subst evd.
    cbn [App.difficulty App.set_last_rating App.set_interview_history bind
         App.key] in E.
    rewrite Hd in E. cbn [bind App.key] in E.
    unfold App.next_difficulty in E.
    rewrite (index_unknown d Hn) in E. cbn [bind] in E.
    injection E as <- <- <-. cbn. rewrite Hd. repeat split.
Qed.

(** ** The language of the transcription *)

Lemma transcribe_audio_language (service : Routes.speech)
    (request : Routes.transcribe_request) (s : App.session) :
  Routes.transcribe_audio service request s
  = Routes.transcribe_audio
      (only_language match App.language s with
                     | Some "hi" => "hi-IN"
                     | _ => "en-US"
                     end service)
      request s.
Proof.
  unfold Routes.transcribe_audio, only_language.
  cbn [Routes.import_speech Routes.speech_client Routes.recognize
       Routes.language_code].
  rewrite String.eqb_refl. reflexivity.
Qed.

(** The audio of a session started in Hinglish mode is recognised as
    [hi-IN], whatever language the client named; without the mode it is
    recognised as [hi-IN] for the language [hi] and as [en-US] for every
    other one. *)
Theorem transcription_follows_the_session (data : App.start_data)
    (s s' : App.session) (resp : App.response) :
  App.start_interview data s = (resp, s') ->
  App.status resp = 200 ->
  forall (service : Routes.speech) (request : Routes.transcribe_request),
    Routes.transcribe_audio service request s'
    = Routes.transcribe_audio
        (only_language
           (if match App.sd_hinglish_mode data with
               | Some v => Py.truthy v
               | None => false
               end
               || match App.sd_language data with
                  | Some l => String.eqb l "hi"
                  | None => false
                  end
            then "hi-IN" else "en-US")
           service)
        request s'.
Proof.
  intros E Hs service request.
  rewrite transcribe_audio_language. f_equal. f_equal.
  unfold App.start_interview in E.
  destruct (App.sd_role data), (App.sd_difficulty data),
    (App.sd_model_id data), (App.sd_language data) as [l|];
    try (injection E as <- <-; discriminate Hs).
  destruct (App.resume_summary s);
    [|injection E as <- <-; discriminate Hs].
  injection E as <- <-. cbn [App.language].
  destruct (App.sd_hinglish_mode data) as [v|]; cbn [Py.truthy orb].
  - destruct (Py.truthy v); [reflexivity|]. cbn [orb].
    destruct (String.eqb_spec l "hi") as [->|N]; [reflexivity|].
    destruct l as [|c1 [|c2 [|c3 l]]]; try reflexivity.
    + destruct c1 as [[] [] [] [] [] [] [] []]; reflexivity.
    + destruct c1 as [[] [] [] [] [] [] [] []]; try reflexivity;
        destruct c2 as [[] [] [] [] [] [] [] []]; try reflexivity;
        now elim N.
    + destruct c1 as [[] [] [] [] [] [] [] []]; try reflexivity;
        destruct c2 as [[] [] [] [] [] [] [] []]; reflexivity.
  - destruct (String.eqb_spec l "hi") as [->|N]; [reflexivity|].
    destruct l as [|c1 [|c2 [|c3 l]]]; try reflexivity.
    + destruct c1 as [[] [] [] [] [] [] [] []]; reflexivity.
    + destruct c1 as [[] [] [] [] [] [] [] []]; try reflexivity;
        destruct c2 as [[] [] [] [] [] [] [] []]; try reflexivity;
        now elim N.
    + destruct c1 as [[] [] [] [] [] [] [] []]; try reflexivity;
        destruct c2 as [[] [] [] [] [] [] [] []]; reflexivity.
Qed.

(** ** The cleaning of the texts of the report *)

Lemma replace_single (c : N) (new t : Report.text) :
  Report.replace [c] new t
  = flat_map (fun x => if N.eqb c x then new else [x]) t.
Proof.
  unfold Report.replace.
  induction t as [|x t IH]; [reflexivity|].
  cbn [Report.replace_go Report.starts flat_map List.length Nat.sub].
  destruct t as [|y t']; cbn [Report.starts]; rewrite andb_true_r;
    destruct (N.eqb c x); rewrite IH; reflexivity.
Qed.

Lemma replace_single_in (c x : N) (new t : Report.text) :
  In x (Report.replace [c] new t) -> (In x t /\ x <> c) \/ In x new.
Proof.
  rewrite replace_single. intros H. apply in_flat_map in H.
  destruct H as [y [Hy Hx]].
  destruct (N.eqb_spec c y) as [->|N]; [now right|].
  cbn in Hx. destruct Hx as [<-|[]]. left. split; [assumption | congruence].
Qed.

Lemma replace_single_absent (c : N) (new t : Report.text) :
  ~ In c t -> Report.replace [c] new t = t.
Proof.
  rewrite replace_single. induction t as [|x t IH]; [reflexivity|].
  intros N. cbn [flat_map].
  destruct (N.eqb_spec c x) as [->|_]; [elim N; now left|].
  cbn [app]. f_equal. apply IH. intros H. apply N. now right.
Qed.

Lemma replacements_plain : Forall plain_for_special Report.replacements.
Proof.
  unfold Report.replacements.
  repeat (constructor;
          [eexists; split; [reflexivity|];
           split; [vm_compute; discriminate|];
           repeat constructor|]).
  constructor.
Qed.

Lemma fold_replace_in (rs : list (Report.text * Report.text)) :
  Forall plain_for_special rs ->
  forall (t : Report.text) (x : N),
    In x (fold_left (fun t r => Report.replace (fst r) (snd r) t) rs t) ->
    (x < 128)%N \/ (In x t /\ ~ In [x] (map fst rs)).
Proof.
  induction 1 as [|r rs [c [Hc [Hs Hn]]] Hrs IH]; intros t x Hx.
  - right. split; [exact Hx | intros []].
  - cbn [fold_left] in Hx. destruct (IH _ _ Hx) as [L|[Hin Hout]];
      [now left|].
    rewrite Hc in Hin. apply replace_single_in in Hin.
    destruct Hin as [[Hin Hne]|Hin].
    + right. split; [assumption|]. cbn [map In]. rewrite Hc.
      intros [E|E]; [injection E as E; congruence | contradiction].
    + left. rewrite Forall_forall in Hn. now apply Hn.
Qed.

Lemma special_not_plain (rs : list (Report.text * Report.text)) (x : N) :
  Forall plain_for_special rs ->
  (x < 128)%N -> ~ In [x] (map fst rs).
Proof.
  induction 1 as [|r rs [c [Hc [Hs Hn]]] Hrs IH]; intros Hx; [intros []|].
  cbn [map In]. rewrite Hc. intros [E|E]; [|now apply IH].
  injection E as E. lia.
Qed.

Lemma fold_replace_absent (rs : list (Report.text * Report.text)) :
  Forall plain_for_special rs ->
  forall t : Report.text,
    Forall (fun x => ~ In [x] (map fst rs)) t ->
    fold_left (fun t r => Report.replace (fst r) (snd r) t) rs t = t.
Proof.
  induction 1 as [|r rs [c [Hc [Hs Hn]]] Hrs IH]; intros t Ht;
    [reflexivity|].
  cbn [fold_left]. rewrite Hc, replace_single_absent.
  - apply IH. eapply Forall_impl; [|exact Ht].
    cbn. intros x Hx Hin. apply Hx. now right.
  - intros Hin. rewrite Forall_forall in Ht. apply (Ht c Hin).
    cbn [map In]. left. now rewrite Hc.
Qed.

Lemma devanagari_not_plain (x : N) :
  Report.devanagari x = true -> ~ (x < 128)%N.
Proof.
  unfold Report.devanagari. intros H. apply andb_true_iff in H.
  destruct H as [H _]. apply N.leb_le in H. lia.
Qed.

Lemma clean_text_characters (translit : Report.text -> result Report.text)
    (t : Report.text) :
  Forall
    (fun x =>
       ~ In [x] (map fst Report.replacements)
       /\ (Report.devanagari x = true ->
           existsb Report.devanagari t = true
           /\ exists t' : Report.text, translit t = Ok t' /\ In x t'))
    (Report.clean_text translit t).
Proof.
  apply Forall_forall. intros x Hx.
  unfold Report.clean_text in Hx.
  destruct t as [|c t]; [contradiction|].
  set (u := c :: t) in *.
  apply (fold_replace_in _ replacements_plain) in Hx.
  split.
  - destruct Hx as [L|[_ Hout]]; [|exact Hout].
    now apply special_not_plain; [apply replacements_plain|].
  - intros D. destruct Hx as [L|[Hin _]];
      [now apply devanagari_not_plain in D|].
    destruct (existsb Report.devanagari u) eqn:E.
    + split; [reflexivity|].
      destruct (translit u) as [t'|e]; [now exists t'|].
      apply filter_In in Hin. destruct Hin as [_ Hin].
      rewrite D in Hin. discriminate Hin.
    + assert (X : existsb Report.devanagari u = true)
        by (apply existsb_exists; now exists x).
      rewrite X in E. discriminate E.
Qed.

Lemma clean_text_unchanged (translit : Report.text -> result Report.text)
    (t : Report.text) :
  existsb Report.devanagari t = false ->
  Forall (fun x => ~ In [x] (map fst Report.replacements)) t ->
  Report.clean_text translit t = t.
Proof.
  intros D S. unfold Report.clean_text.
  destruct t as [|c t]; [reflexivity|]. rewrite D.
  now apply fold_replace_absent; [apply replacements_plain|].
Qed.

(** No character of a cleaned text is one of the eleven characters the
    table replaces, and a cleaned text has a Devanagari character only
    where the transliteration returned a text that had it: when the
    library is missing or fails, none is left. *)
Theorem clean_text_leaves_no_special_character
    (translit : Report.text -> result Report.text) (t : Report.text) :
  Forall
    (fun x =>
       ~ In [x] (map fst Report.replacements)
       /\ (Report.devanagari x = true ->
           existsb Report.devanagari t = true
           /\ exists t' : Report.text, translit t = Ok t' /\ In x t'))
    (Report.clean_text translit t).
Proof. apply clean_text_characters. Qed.

(** A text without Devanagari and without the characters of the table is
    returned as it is; hence cleaning a second time changes nothing when
    the first cleaning left no Devanagari. *)
Theorem clean_text_idempotent
    (translit : Report.text -> result Report.text) (t : Report.text) :
  (existsb Report.devanagari t = false ->
   Forall (fun x => ~ In [x] (map fst Report.replacements)) t ->
   Report.clean_text translit t = t)
  /\ (existsb Report.devanagari (Report.clean_text translit t) = false ->
      Report.clean_text translit (Report.clean_text translit t)
      = Report.clean_text translit t).
Proof.
  split; [apply clean_text_unchanged|].
  intros D. apply clean_text_unchanged; [exact D|].
  eapply Forall_impl; [|apply (clean_text_characters translit t)].
  cbn. tauto.
Qed.

(** ** The bands of the ratings *)

(** The colour of a rating, the assessment of the average and the
    recommendations follow the same bands, for every float: from 8.0 on,
    from 6.0 on, from 4.0 on, and the rest, to which a rating that is no
    number belongs. *)
Theorem rating_bands_agree (r : float) :
  snd (Report.assessment r) = Report.get_rating_color r
  /\ (((8.0 <=? r)%float = true
       /\ Report.get_rating_color r = green
       /\ StrOps.startswith "Excellent" (fst (Report.assessment r)) = true
       /\ StrOps.startswith "Outstanding Performance!"
            (Report.generate_recommendations r) = true)
      \/ ((8.0 <=? r)%float = false /\ (6.0 <=? r)%float = true
          /\ Report.get_rating_color r = yellow
          /\ StrOps.startswith "Good" (fst (Report.assessment r)) = true
          /\ StrOps.startswith "Good Performance with Room for Growth"
               (Report.generate_recommendations r) = true)
      \/ ((6.0 <=? r)%float = false /\ (4.0 <=? r)%float = true
          /\ Report.get_rating_color r = orange
          /\ StrOps.startswith "Fair" (fst (Report.assessment r)) = true
          /\ StrOps.startswith "Fair Performance - Focused Preparation Needed"
               (Report.generate_recommendations r) = true)
      \/ ((4.0 <=? r)%float = false
          /\ Report.get_rating_color r = red
          /\ StrOps.startswith "Needs Improvement"
               (fst (Report.assessment r)) = true
          /\ StrOps.startswith "Needs Significant Improvement"
               (Report.generate_recommendations r) = true)).
Proof.
  unfold Report.assessment, Report.get_rating_color,
    Report.generate_recommendations.
  destruct (8.0 <=? r)%float eqn:E8; [split; [reflexivity|]; left;
                                      repeat split|].
  destruct (6.0 <=? r)%float eqn:E6;
    [split; [reflexivity|]; right; left; repeat split|].
  destruct (4.0 <=? r)%float eqn:E4;
    [split; [reflexivity|]; right; right; left; repeat split|].
  split; [reflexivity|]. right; right; right. repeat split.
Qed.

Lemma SFcompare_lt_le_trans (x y z : spec_float) :
  SFcompare x y = Some Lt ->
  (SFcompare y z = Some Lt \/ SFcompare y z = Some Eq) ->
  SFcompare x z = Some Lt.
Proof.
  destruct x as [sx|sx| |sx mx ex], y as [sy|sy| |sy my ey],
    z as [sz|sz| |sz mz ez]; cbn [SFcompare];
    try (destruct sx); try (destruct sy); try (destruct sz);
    cbn [SFcompare]; intros A [B|B]; try discriminate; try reflexivity.
  all: change (PosDef.Pos.compare_cont Eq) with Pos.compare in *.
  all: repeat match goal with
              | H : context [Z.compare ?a ?b] |- _ =>
                  destruct (Z.compare_spec a b)
              | H : context [Pos.compare ?a ?b] |- _ =>
                  destruct (Pos.compare_spec a b)
              end; cbn [CompOpp] in *; try discriminate.
  all: repeat match goal with
              | |- context [Z.compare ?a ?b] =>
                  destruct (Z.compare_spec a b)
              | |- context [Pos.compare ?a ?b] =>
                  destruct (Pos.compare_spec a b)
              end; cbn [CompOpp]; try reflexivity; try lia.
Qed.

Lemma ltb_leb_const (r a b : float) :
  (a <=? b)%float = true -> (r <? a)%float = true -> (b <=? r)%float = false.
Proof.
  intros Hab Hr.
  destruct (b <=? r)%float eqn:E; [|reflexivity].
  apply leb_not_ltb in E.
  assert (T : (r <? b)%float = true); [|congruence].
  rewrite ltb_spec in *. rewrite leb_spec in Hab. unfold SFltb, SFleb in *.
  destruct (SFcompare (Prim2SF r) (Prim2SF a)) as [[]|] eqn:C1;
    try discriminate.
  rewrite (SFcompare_lt_le_trans _ _ _ C1); [reflexivity|].
  destruct (SFcompare (Prim2SF a) (Prim2SF b)) as [[]|]; try discriminate;
    auto.
Qed.

Lemma SFcompare_le_lt_trans (x y z : spec_float) :
  (SFcompare x y = Some Lt \/ SFcompare x y = Some Eq) ->
  SFcompare y z = Some Lt ->
  SFcompare x z = Some Lt.
Proof.
  destruct x as [sx|sx| |sx mx ex], y as [sy|sy| |sy my ey],
    z as [sz|sz| |sz mz ez]; cbn [SFcompare];
    try (destruct sx); try (destruct sy); try (destruct sz);
    cbn [SFcompare]; intros [A|A] B; try discriminate; try reflexivity.
  all: change (PosDef.Pos.compare_cont Eq) with Pos.compare in *.
  all: repeat match goal with
              | H : context [Z.compare ?a ?b] |- _ =>
                  destruct (Z.compare_spec a b)
              | H : context [Pos.compare ?a ?b] |- _ =>
                  destruct (Pos.compare_spec a b)
              end; cbn [CompOpp] in *; try discriminate.
  all: repeat match goal with
              | |- context [Z.compare ?a ?b] =>
                  destruct (Z.compare_spec a b)
              | |- context [Pos.compare ?a ?b] =>
                  destruct (Pos.compare_spec a b)
              end; cbn [CompOpp]; try reflexivity; try lia.
Qed.

Lemma leb_ltb_const (r a b : float) :
  (a <=? b)%float = true -> (b <? r)%float = true -> (a <=? r)%float = true.
Proof.
  intros Hab Hr.
  rewrite ltb_spec in Hr. rewrite leb_spec in *. unfold SFltb, SFleb in *.
  destruct (SFcompare (Prim2SF b) (Prim2SF r)) as [[]|] eqn:C1;
    try discriminate.
  rewrite (SFcompare_le_lt_trans (Prim2SF a) (Prim2SF b) (Prim2SF r));
    [reflexivity | | exact C1].
  destruct (SFcompare (Prim2SF a) (Prim2SF b)) as [[]|]; try discriminate;
    auto.
Qed.

(** For a rating that is a number, the report writes it in red exactly
    when it is below 4.0, the ratings after which the difficulty goes one
    level down; a rating above 7.0, after which the difficulty goes up, is
    written in green or yellow. *)
Theorem red_marks_a_step_down (r : float) :
  is_nan r = false ->
  (Report.get_rating_color r = red <-> (r <? 4.0)%float = true)
  /\ (Report.get_rating_color r = red ->
      forall l : level,
        App.next_difficulty (level_name l) r = Ok (level_name (step_down l)))
  /\ ((7.0 <? r)%float = true ->
      Report.get_rating_color r = green
      \/ Report.get_rating_color r = yellow).
Proof.
  intros N.
  assert (R : Report.get_rating_color r = red <-> (r <? 4.0)%float = true).
  { unfold Report.get_rating_color. split.
    - destruct (8.0 <=? r)%float; [discriminate|].
      destruct (6.0 <=? r)%float; [discriminate|].
      destruct (4.0 <=? r)%float eqn:E4; [discriminate|]. intros _.
      destruct (r <? 4.0)%float eqn:L; [reflexivity|].
      apply ltb_false_leb in L; [congruence | assumption | reflexivity].
    - intros L.
      rewrite (ltb_leb_const r 4.0 8.0 eq_refl L),
        (ltb_leb_const r 4.0 6.0 eq_refl L),
        (ltb_leb_const r 4.0 4.0 eq_refl L).
      reflexivity. }
  split; [exact R|]. split.
  - intros C l. apply R in C.
    unfold App.next_difficulty.
    rewrite (below_4_not_above_7 r C), C.
    destruct l; reflexivity.
  - intros G. unfold Report.get_rating_color.
    rewrite (leb_ltb_const r 6.0 7.0 eq_refl G).
    destruct (8.0 <=? r)%float; auto.
Qed.

(** ** The ratings as the report prints them *)

Lemma reads_back_grid : forallb reads_back (map Z.of_nat (seq 100 901)) = true.
Proof. vm_compute. reflexivity. Qed.

Lemma reads_back_between (k : Z) : 100 <= k <= 1000 -> reads_back k = true.
Proof.
  intros Hk. pose proof reads_back_grid as G.
  rewrite forallb_forall in G. apply G.
  apply in_map_iff. exists (Z.to_nat k). split; [lia|].
  apply in_seq. lia.
Qed.

(** The hundredths a float between 1 and 10 is rounded to. *)
Lemma hundredths_between_1_and_10 (c : float) :
  (1 <=? c)%float = true -> (c <=? 10)%float = true ->
  exists k : Z,
    100 <= k <= 1000
    /\ PyFloat.round2 c = PyFloat.nearest false k 100
    /\ Report.format_2f c = Report.two_decimals k.
Proof.
  intros H1 H10.
  destruct (between_1_and_10 c H1 H10) as (m & e & P & He & Hm & Hm10).
  unfold PyFloat.round2, Report.format_2f. rewrite P.
  destruct (Z.leb_spec 0 e) as [L|L]; [lia|].
  eexists. split; [|split; reflexivity].
  change (2 ^ 52) with 4503599627370496 in Hm.
  change (2 ^ 53) with 9007199254740992 in Hm.
  assert (Ecases : e = -52 \/ e = -51 \/ e = -50 \/ e = -49) by lia.
  destruct Ecases as [-> | [-> | [-> | ->]]].
  - change (2 ^ (- -52)) with 4503599627370496.
    pose proof (round_half_even_bounds (100 * Z.pos m) 4503599627370496
                  100 200 ltac:(lia) ltac:(lia)). lia.
  - change (2 ^ (- -51)) with 2251799813685248.
    pose proof (round_half_even_bounds (100 * Z.pos m) 2251799813685248
                  200 400 ltac:(lia) ltac:(lia)). lia.
  - change (2 ^ (- -50)) with 1125899906842624.
    pose proof (round_half_even_bounds (100 * Z.pos m) 1125899906842624
                  400 800 ltac:(lia) ltac:(lia)). lia.
  - change (2 ^ (- -49)) with 562949953421312.
    specialize (Hm10 eq_refl).
    pose proof (round_half_even_bounds (100 * Z.pos m) 562949953421312
                  800 1000 ltac:(lia) ltac:(lia)). lia.
Qed.

Lemma format_2f_reads_back (x : float) :
  (1 <=? x)%float = true -> (x <=? 10)%float = true ->
  Repr.float_of_str (Report.format_2f x) = Some (PyFloat.round2 x)
  /\ (PyFloat.round2 x = x ->
      Repr.float_of_str (Report.format_2f x) = Some x).
Proof.
  intros H1 H10.
  destruct (hundredths_between_1_and_10 x H1 H10) as (k & Hk & R & F).
  assert (E : Repr.float_of_str (Report.format_2f x)
              = Some (PyFloat.round2 x)).
  { rewrite F, R. pose proof (reads_back_between k Hk) as B.
    unfold reads_back in B.
    destruct (Repr.float_of_str (Report.two_decimals k)) as [f|];
      [|discriminate B].
    apply FloatAxioms.Leibniz.eqb_spec in B. now rewrite B. }
  split; [exact E|]. intros S. now rewrite E, S.
Qed.

(** The text the report prints for a float between 1 and 10, with two
    digits after the point, reads back as the float rounded to two
    decimals; so every rating [evaluate_answer] returns, unless it is no
    number, is printed without loss. *)
Theorem printed_rating_reads_back `{Builtins} (question answer : string)
    (a : Agent.agent) (w : world) (ev : Agent.evaluation) :
  (forall x : float,
      (1 <=? x)%float = true -> (x <=? 10)%float = true ->
      Repr.float_of_str (Report.format_2f x) = Some (PyFloat.round2 x))
  /\ (fst (fst (Agent.evaluate_answer question answer a w)) = Ok (Some ev) ->
      is_nan (Agent.ev_rating ev) = false ->
      Repr.float_of_str (Report.format_2f (Agent.ev_rating ev))
      = Some (Agent.ev_rating ev)).
Proof.
  split; [intros x H1 H10; now apply format_2f_reads_back|].
  rewrite evaluate_answer_cases. cbv zeta. intros E N.
  assert (parsed : forall response,
             attempt_outcome response = Ok ev ->
             Repr.float_of_str (Report.format_2f (Agent.ev_rating ev))
             = Some (Agent.ev_rating ev)).
  { intros [content|x] P; cbn [attempt_outcome] in P; [|discriminate].
    destruct (parse_response_rating content ev P) as [r R].
    destruct (rating_stable r) as [[_ Nv] | [_ [V1 [V10 [S _]]]]].
    - rewrite <- R in Nv. congruence.
    - rewrite <- R in V1, V10, S.
      now apply format_2f_reads_back. }
  assert (fell_back :
            Repr.float_of_str
              (Report.format_2f (Agent.ev_rating (Agent.fallback answer)))
            = Some (Agent.ev_rating (Agent.fallback answer))).
  { pose proof (fallback_rating_values answer) as V. cbn in V.
    destruct V as [<- | [<- | [<- | [<- | []]]]]; vm_compute; reflexivity. }
  destruct (attempt_outcome (replies w (List.length (calls w)))) eqn:O1.
  - injection E as <-. eapply parsed; eassumption.
  - break_hyp E; [discriminate|].
    destruct (attempt_outcome (replies w (S (List.length (calls w)))))
      eqn:O2.
    + injection E as <-. eapply parsed; eassumption.
    + repeat break_hyp E; try discriminate; injection E as <-;
        exact fell_back.
Qed.

(** ** The missing key points *)

Lemma dict_get_set_same (k : string) (v : py_value)
    (d : list (string * py_value)) :
  Py.dict_get k (Py.dict_set k v d) = Some v.
Proof.
  induction d as [|[k' v'] d IH]; cbn.
  - now rewrite String.eqb_refl.
  - destruct (String.eqb k' k) eqn:E; cbn.
    + now rewrite String.eqb_refl.
    + now rewrite E.
Qed.

Lemma dict_get_set_other (k k' : string) (v : py_value)
    (d : list (string * py_value)) :
  k <> k' -> Py.dict_get k (Py.dict_set k' v d) = Py.dict_get k d.
Proof.
  intros N. induction d as [|[k0 v0] d IH]; cbn.
  - destruct (String.eqb_spec k' k); [congruence | reflexivity].
  - destruct (String.eqb_spec k0 k') as [->|N0]; cbn.
    + destruct (String.eqb_spec k' k); [congruence|reflexivity].
    + destruct (String.eqb k0 k); [reflexivity | exact IH].
Qed.

(** A record passes the validation only with a rating that [float]
    takes, and its rating then is this float, clamped and rounded. *)
Lemma normalize_reads_rating `{Builtins} (ev : py_value)
    (res : Agent.evaluation) :
  Agent.normalize ev = Ok res ->
  exists (v : py_value) (r : float),
    Py.getitem ev "rating" = Ok v
    /\ Py.float v = Ok r
    /\ Agent.ev_rating res = PyFloat.round2 (Agent.clamp r).
Proof.
  unfold Agent.normalize. intros E.
  destruct ev as [| | | |s|l|d]; try discriminate E.
  - cbn [Py.contains bind] in E.
    destruct (Str.contains "missing_points" s) eqn:C;
      cbn [bind Py.getitem] in E; [discriminate E|].
    destruct (Agent.check_required Agent.required_fields (PyStr s));
      cbn [bind negb Py.setitem Py.contains] in E; [|discriminate E].
    rewrite ?C in E; cbn [bind negb Py.setitem] in E; discriminate E.
  - cbn [Py.contains bind] in E.
    destruct (existsb _ l) eqn:C; cbn [bind Py.getitem] in E;
      [discriminate E|].
    destruct (Agent.check_required Agent.required_fields (PyList l));
      cbn [bind negb Py.setitem Py.contains] in E; [|discriminate E].
    rewrite ?C in E; cbn [bind negb Py.setitem] in E; discriminate E.
  - cbn [Py.contains bind Py.getitem Py.setitem] in E.
    match type of E with
    | bind ?X _ = _ =>
        assert (A : (exists d1 : list (string * py_value),
                        X = Ok (PyDict d1)
                        /\ Py.dict_get "rating" d1 = Py.dict_get "rating" d)
                    \/ exists e : exn, X = Raise e)
    end.
    { destruct (Py.dict_get "missing_points" d) as [mp|]; cbn [bind].
      - destruct mp; left; eexists; (split; [reflexivity|]);
          try reflexivity; apply dict_get_set_other; discriminate.
      - left. eexists. split; reflexivity. }
    destruct A as [[d1 [A R1]] | [e A]]; rewrite A in E; clear A;
      [|discriminate E].
    cbn [bind] in E.
    destruct (Agent.check_required Agent.required_fields (PyDict d1));
      cbn [bind Py.contains] in E; [|discriminate E].
    match type of E with
    | bind ?X _ = _ =>
        assert (A : (exists d2 : list (string * py_value),
                        X = Ok (PyDict d2)
                        /\ Py.dict_get "rating" d2 = Py.dict_get "rating" d)
                    \/ exists e : exn, X = Raise e)
    end.
    { destruct (Py.dict_get "missing_points" d1);
        cbn [negb Py.setitem]; left; eexists; (split; [reflexivity|]);
        [exact R1|].
      rewrite dict_get_set_other by discriminate. exact R1. }
    destruct A as [[d2 [A R2]] | [e A]]; rewrite A in E; clear A;
      [|discriminate E].
    cbn [bind Py.getitem] in E. rewrite R2 in E.
    destruct (Py.dict_get "rating" d) as [v|] eqn:G; cbn [bind] in E;
      [|discriminate E].
    destruct (Py.float v) as [r|] eqn:F; cbn [bind] in E; [|discriminate E].
    repeat match type of E with
           | bind ?x _ = Ok _ =>
               let y := fresh "y" in
               destruct x as [y|] eqn:?; cbn [bind] in E; [|discriminate E]
           end.
    injection E as <-. exists v, r.
    split; [cbn [Py.getitem]; now rewrite G|].
    split; [exact F | reflexivity].
Qed.

(** The rating of every record that passes the validation is the float
    [r] that [float] makes of the rating of the record, clamped and
    rounded: it is NaN when [r] is NaN, and otherwise lies between 1 and 10
    and is left as it is by the rounding to two decimals. *)
Theorem normalized_rating_stable `{Builtins} (ev : py_value)
    (res : Agent.evaluation) :
  Agent.normalize ev = Ok res ->
  exists (v : py_value) (r : float),
    Py.getitem ev "rating" = Ok v
    /\ Py.float v = Ok r
    /\ Agent.ev_rating res = PyFloat.round2 (Agent.clamp r)
    /\ (is_nan r = true -> is_nan (Agent.ev_rating res) = true)
    /\ (is_nan r = false ->
        (1 <=? Agent.ev_rating res)%float = true
        /\ (Agent.ev_rating res <=? 10)%float = true
        /\ PyFloat.round2 (Agent.ev_rating res) = Agent.ev_rating res
        /\ (PyFloat.round2 (Agent.ev_rating res) =? Agent.ev_rating res)%float
           = true).
Proof.
  intros E. destruct (normalize_reads_rating ev res E) as [v [r [G [F R]]]].
  exists v, r. split; [exact G|]. split; [exact F|]. split; [exact R|].
  rewrite R. destruct (rating_stable r) as [[N V] | [N V]].
  - split; [intros _; exact V | congruence].
  - split; [congruence | intros _; exact V].
Qed.

Lemma normalized_rating_stable_witness :
  let res :=
    {| Agent.ev_rating := 10;
       Agent.ev_strengths := "clear";
       Agent.ev_improvements := "give examples";
       Agent.ev_missing_points := "N/A" |} in
  exists (v : py_value) (r : float),
    Py.getitem parsed_record "rating" = Ok v
    /\ @Py.float reference v = Ok r
    /\ Agent.ev_rating res = PyFloat.round2 (Agent.clamp r)
    /\ (is_nan r = true -> is_nan (Agent.ev_rating res) = true)
    /\ (is_nan r = false ->
        (1 <=? Agent.ev_rating res)%float = true
        /\ (Agent.ev_rating res <=? 10)%float = true
        /\ PyFloat.round2 (Agent.ev_rating res) = Agent.ev_rating res
        /\ (PyFloat.round2 (Agent.ev_rating res) =? Agent.ev_rating res)%float
           = true).
Proof.
  apply (@normalized_rating_stable reference parsed_record
           {| Agent.ev_rating := 10;
              Agent.ev_strengths := "clear";
              Agent.ev_improvements := "give examples";
              Agent.ev_missing_points := "N/A" |}).
  vm_compute. reflexivity.
Defined.

Lemma normalize_without_missing_points `{Builtins} (ev : py_value)
    (res : Agent.evaluation) :
  Py.contains "missing_points" ev = Ok false ->
  Agent.normalize ev = Ok res ->
  Agent.ev_missing_points res = "N/A".
Proof.
  unfold Agent.normalize. intros C E. rewrite C in E. cbn [bind negb] in E.
  destruct (Agent.check_required Agent.required_fields ev);
    cbn [bind] in E; [|discriminate E].
  rewrite C in E. cbn [bind negb] in E.
  destruct ev as [| | | | |l|d]; try discriminate E.
  cbn [Py.setitem bind Py.getitem] in E.
  repeat match type of E with
         | bind ?x _ = Ok _ =>
             let v := fresh "v" in
             destruct x as [v|] eqn:?; cbn [bind Py.setitem Py.getitem] in E;
             [|discriminate E]
         end.
  injection E as <-. cbn [Agent.ev_missing_points].
  match goal with
  | X : match Py.dict_get "missing_points" _ with _ => _ end = Ok ?v |- _ =>
      rewrite !dict_get_set_other, dict_get_set_same in X by discriminate;
      injection X as <-
  end.
  reflexivity.
Qed.

(** The report writes the section of the missing key points for an entry
    that comes from the fallback, whose text is not one of the two texts
    the report leaves out; an entry evaluated from a reply that had no
    missing points holds [N/A], and the section is left out. *)
Theorem fallback_feedback_is_printed `{Builtins} :
  (forall (answer : string) (e : entry),
      missing_points e = Agent.ev_missing_points (Agent.fallback answer) ->
      Report.shows_missing_points e = true)
  /\ (forall (ev : py_value) (res : Agent.evaluation) (e : entry),
         Py.contains "missing_points" ev = Ok false ->
         Agent.normalize ev = Ok res ->
         missing_points e = Agent.ev_missing_points res ->
         Report.shows_missing_points e = false).
Proof.
  split.
  - intros answer e E. unfold Report.shows_missing_points. rewrite E.
    unfold Agent.fallback. repeat break_match; reflexivity.
  - intros ev res e C N E. unfold Report.shows_missing_points.
    rewrite E, (normalize_without_missing_points ev res C N). reflexivity.
Qed.

(** ** Replies in a code fence *)

Lemma free_of_app (c : ascii) (a b : string) :
  free_of c (a ++ b) = free_of c a && free_of c b.
Proof.
  induction a as [|x a IH]; cbn; [reflexivity|].
  now rewrite IH, andb_assoc.
Qed.

Lemma free_of_rev (c : ascii) (s : string) :
  free_of c (Str.rev s) = free_of c s.
Proof.
  induction s as [|x s IH]; [reflexivity|].
  rewrite rev_cons, free_of_app, IH. cbn.
  now rewrite andb_true_r, andb_comm.
Qed.

Lemma prefix_mismatch (c x : ascii) (p s : string) :
  Ascii.eqb x c = false -> prefix (String c p) (String x s) = false.
Proof.
  intros N. cbn [prefix].
  destruct (ascii_dec c x) as [->|_]; [|reflexivity].
  now rewrite Ascii.eqb_refl in N.
Qed.

Lemma prefix_same (c : ascii) (p s : string) :
  prefix (String c p) (String c s) = prefix p s.
Proof.
  cbn [prefix]. destruct (ascii_dec c c) as [_|N]; [reflexivity | now elim N].
Qed.

Lemma prefix_refl (p : string) : prefix p p = true.
Proof.
  induction p as [|c p IH]; [reflexivity|]. now rewrite prefix_same.
Qed.

Lemma free_of_not_contained (c : ascii) (p s : string) :
  free_of c s = true -> Str.contains (String c p) s = false.
Proof.
  induction s as [|x s IH]; intros F; [reflexivity|].
  cbn [free_of] in F. apply andb_true_iff in F. destruct F as [N F].
  apply negb_true_iff in N.
  cbn [Str.contains]. now rewrite (prefix_mismatch c x p s N), (IH F).
Qed.

(** Passing over a text in which the first character of the separator does
    not occur. *)
Lemma split_go_pass (c : ascii) (p a : string) :
  free_of c a = true ->
  forall acc rest : string,
    Str.split_go (String c p) 0 acc (a ++ rest)
    = Str.split_go (String c p) 0 (Str.rev a ++ acc) rest.
Proof.
  induction a as [|x a IH]; intros F acc rest; [reflexivity|].
  cbn [free_of] in F. apply andb_true_iff in F. destruct F as [N F].
  apply negb_true_iff in N.
  cbn [append Str.split_go].
  rewrite (prefix_mismatch c x p (a ++ rest) N), (IH F).
  now rewrite rev_cons, append_assoc.
Qed.

Lemma split_go_skip (sep x : string) :
  forall acc rest : string,
    Str.split_go sep (String.length x) acc (x ++ rest)
    = Str.split_go sep 0 acc rest.
Proof.
  induction x as [|c x IH]; intros acc rest; [reflexivity|].
  cbn [String.length append Str.split_go]. apply IH.
Qed.

Lemma split_go_match (c : ascii) (p acc rest : string) :
  Str.split_go (String c p) 0 acc (String c p ++ rest)
  = Str.rev acc :: Str.split_go (String c p) 0 "" rest.
Proof.
  cbn [append Str.split_go].
  change (String c (p ++ rest)) with (String c p ++ rest).
  rewrite (prefix_app _ _ rest (prefix_refl (String c p))).
  cbn [String.length Nat.sub]. rewrite Nat.sub_0_r.
  now rewrite split_go_skip.
Qed.

Lemma split_go_end (c : ascii) (p a acc : string) :
  free_of c a = true ->
  Str.split_go (String c p) 0 acc a = [Str.rev acc ++ a].
Proof.
  intros F. rewrite <- (append_empty_r a) at 1.
  rewrite (split_go_pass c p a F). cbn [Str.split_go].
  now rewrite rev_app, rev_involutive.
Qed.

Lemma split_go_step (sep acc s : string) (c : ascii) :
  Str.split_go sep 0 acc (String c s)
  = if prefix sep (String c s)
    then Str.rev acc :: Str.split_go sep (String.length sep - 1) "" s
    else Str.split_go sep 0 (String c acc) s.
Proof. reflexivity. Qed.

(** The piece before the closing fence, when the text is cut at the
    opening fences first. *)
Lemma first_piece_before_fence (body post : string) :
  free_of "`" body = true -> free_of "`" post = true ->
  nth 0 (Str.split "```"
           (nth 0 (Str.split_go "```json" 0 "" (body ++ "```" ++ post)) ""))
      ""
  = body.
Proof.
  intros Fb Fp.
  assert (whole : nth 0 (Str.split "```" (body ++ "```" ++ post)) "" = body).
  { unfold Str.split. rewrite (split_go_pass "`" "``" body Fb).
    rewrite split_go_match, append_empty_r, rev_involutive. reflexivity. }
  assert (alone : nth 0 (Str.split "```" body) "" = body).
  { unfold Str.split. now rewrite (split_go_end "`" "``" body "" Fb). }
  rewrite (split_go_pass "`" "``json" body Fb), append_empty_r.
  change ("```" ++ post) with (String "`" (String "`" (String "`" post))).
  rewrite split_go_step, !prefix_same.
  destruct (prefix "json" post) eqn:J.
  - cbn [nth]. rewrite rev_involutive. exact alone.
  - assert (M : forall p : string, prefix (String "`" p) post = false).
    { intros p. destruct post as [|x post]; [reflexivity|].
      cbn [free_of] in Fp. apply andb_true_iff in Fp. destruct Fp as [N _].
      apply negb_true_iff in N. now apply prefix_mismatch. }
    rewrite split_go_step, !prefix_same, M.
    rewrite split_go_step, !prefix_same, M.
    rewrite (split_go_end "`" "``json" post _ Fp).
    cbn [nth]. rewrite !rev_cons, rev_involutive, !append_assoc.
    exact whole.
Qed.

Lemma contains_prefix (p s : string) :
  prefix p s = true -> Str.contains p s = true.
Proof. intros P. destruct s; cbn [Str.contains]; now rewrite P. Qed.

Lemma strip_code_fence_fenced (pre body post : string) :
  free_of "`" pre = true -> free_of "`" body = true ->
  free_of "`" post = true ->
  Agent.strip_code_fence (pre ++ "```json" ++ body ++ "```" ++ post)
  = Str.strip body.
Proof.
  intros Fpre Fb Fp. unfold Agent.strip_code_fence.
  change (Agent.backticks ++ "json") with "```json".
  change Agent.backticks with "```".
  rewrite (contains_app_r "```json" pre);
    [|apply contains_prefix, prefix_app, prefix_refl].
  f_equal. unfold Str.split at 2.
  rewrite (split_go_pass "`" "``json" pre Fpre), split_go_match.
  cbn [nth]. now apply first_piece_before_fence.
Qed.

Lemma strip_code_fence_bare (body : string) :
  free_of "`" body = true -> Agent.strip_code_fence body = body.
Proof.
  intros F. unfold Agent.strip_code_fence.
  change (Agent.backticks ++ "json") with "```json".
  change Agent.backticks with "```".
  now rewrite !(free_of_not_contained "`" _ body F).
Qed.

Lemma lstrip_app_solid (p x : string) :
  starts_solid x = true ->
  exists sp p' : string, p = sp ++ p' /\ Str.lstrip (p ++ x) = p' ++ x.
Proof.
  intros S. induction p as [|c p [sp [p' [E L]]]].
  - exists "", "". split; [reflexivity|].
    destruct x as [|c x]; [discriminate S|].
    cbn in S. apply negb_true_iff in S. cbn. now rewrite S.
  - cbn [append Str.lstrip]. destruct (Str.isspace c).
    + exists (String c sp), p'. split; [now rewrite E | exact L].
    + exists "", (String c p). split; reflexivity.
Qed.

Lemma starts_solid_app (a b : string) :
  starts_solid a = true -> starts_solid (a ++ b) = true.
Proof. destruct a; [discriminate | intros S; exact S]. Qed.

Lemma ends_solid_app (a b : string) :
  ends_solid b = true -> ends_solid (a ++ b) = true.
Proof.
  intros S. induction a as [|c a IH]; [exact S|].
  cbn [append ends_solid]. destruct (a ++ b); [discriminate IH | exact IH].
Qed.

Lemma ends_solid_rev (x : string) :
  ends_solid x = true -> starts_solid (Str.rev x) = true.
Proof.
  induction x as [|c x IH]; [discriminate|].
  rewrite rev_cons. cbn [ends_solid].
  destruct x as [|d x]; [intros S; exact S|].
  intros S. apply starts_solid_app, IH, S.
Qed.

Lemma rstrip_app_solid (x p : string) :
  ends_solid x = true ->
  exists p' sp : string, p = p' ++ sp /\ Str.rstrip (x ++ p) = x ++ p'.
Proof.
  intros S. unfold Str.rstrip. rewrite rev_app.
  destruct (lstrip_app_solid (Str.rev p) (Str.rev x) (ends_solid_rev x S))
    as [sp [p' [E L]]].
  exists (Str.rev p'), (Str.rev sp). split.
  - rewrite <- rev_app, <- E. now rewrite rev_involutive.
  - rewrite L, rev_app. now rewrite rev_involutive.
Qed.

Lemma free_of_strip (c : ascii) (s : string) :
  free_of c s = true -> free_of c (Str.strip s) = true.
Proof.
  intros F. unfold Str.strip.
  destruct (lstrip_split s) as [sp1 [_ E1]].
  destruct (rstrip_split (Str.lstrip s)) as [sp2 [_ E2]].
  rewrite E1, free_of_app in F. apply andb_true_iff in F.
  destruct F as [_ F]. rewrite E2, free_of_app in F.
  apply andb_true_iff in F. now destruct F.
Qed.

(** A reply that holds the evaluation in a fence of three backticks marked
    [json], with text before and after, is parsed as the text inside the
    fence alone, provided no other backtick occurs. *)
Theorem fenced_reply_parsed_as_bare `{Builtins} (pre body post : string) :
  free_of "`" pre = true -> free_of "`" body = true ->
  free_of "`" post = true ->
  Agent.parse_response (pre ++ "```json" ++ body ++ "```" ++ post)
  = Agent.parse_response body.
Proof.
  intros Fpre Fb Fp. unfold Agent.parse_response.
  assert (E : Agent.strip_code_fence
                (Str.strip (pre ++ "```json" ++ body ++ "```" ++ post))
              = Agent.strip_code_fence (Str.strip body)).
  { rewrite (strip_code_fence_bare (Str.strip body))
      by now apply free_of_strip.
    unfold Str.strip at 1.
    destruct (lstrip_app_solid pre ("```json" ++ body ++ "```" ++ post)
                eq_refl) as [sp1 [pre' [E1 ->]]].
    replace (pre' ++ "```json" ++ body ++ "```" ++ post)
      with ((pre' ++ "```json" ++ body ++ "```") ++ post)
      by now rewrite !append_assoc.
    destruct (rstrip_app_solid (pre' ++ "```json" ++ body ++ "```") post)
      as [post' [sp2 [E2 ->]]].
    { rewrite <- !append_assoc. now apply ends_solid_app. }
    rewrite !append_assoc. apply strip_code_fence_fenced.
    - rewrite E1, free_of_app in Fpre. apply andb_true_iff in Fpre.
      now destruct Fpre.
    - exact Fb.
    - rewrite E2, free_of_app in Fp. apply andb_true_iff in Fp.
      now destruct Fp. }
  now rewrite E.
Qed.

(** ** The repair of a reply that was cut off *)

Lemma prefix_single (c x : ascii) (s : string) :
  prefix (String c "") (String x s) = Ascii.eqb c x.
Proof.
  cbn [prefix]. destruct (ascii_dec c x) as [->|N].
  - rewrite Ascii.eqb_refl. now destruct s.
  - symmetry. now apply Ascii.eqb_neq.
Qed.

Lemma count_single_step (c x : ascii) (s : string) :
  Str.count (String c "") (String x s)
  = (if Ascii.eqb c x then 1 else 0) + Str.count (String c "") s.
Proof.
  unfold Str.count. cbn [Str.count_go String.length Nat.sub].
  rewrite prefix_single. now destruct (Ascii.eqb c x).
Qed.

Lemma count_single_app (c : ascii) (a b : string) :
  Str.count (String c "") (a ++ b)
  = Str.count (String c "") a + Str.count (String c "") b.
Proof.
  induction a as [|x a IH]; [reflexivity|].
  cbn [append]. rewrite !count_single_step, IH. lia.
Qed.

Lemma count_single_repeat (c : ascii) (n : Z) :
  Str.count (String c "") (Str.repeat "}" n)
  = if Ascii.eqb c "}" then Z.max 0 n else 0.
Proof.
  unfold Str.repeat.
  assert (G : forall k : nat,
             Str.count (String c "")
                       (String.concat "" (List.repeat "}" k))
             = if Ascii.eqb c "}" then Z.of_nat k else 0).
  { induction k as [|k IH]; [now destruct (Ascii.eqb c "}")|].
    cbn [List.repeat String.concat].
    destruct (List.repeat "}" k) as [|y l] eqn:R.
    - destruct k; [|discriminate R].
      rewrite count_single_step. now destruct (Ascii.eqb c "}").
    - change ("}" ++ "" ++ String.concat "" (y :: l))
        with (String "}" (String.concat "" (y :: l))).
      rewrite count_single_step, IH.
      destruct (Ascii.eqb c "}"); lia. }
  rewrite G. destruct (Ascii.eqb c "}"); [lia | reflexivity].
Qed.

Lemma endswith_brace_not_dots (r : string) :
  Str.endswith "}" r = true -> Str.endswith "..." r = false.
Proof.
  intros B. destruct (Str.endswith "..." r) eqn:D; [|reflexivity].
  apply endswith_inv in B. apply endswith_inv in D.
  destruct B as [a ->]. destruct D as [b D].
  apply (f_equal Str.rev) in D. rewrite !rev_app in D. discriminate D.
Qed.

(** A reply that ends in a closing brace is left as it is. A reply that
    does not, and holds no three dots, is extended with what closes it: the
    result starts with the reply, has an even number of double quotes and
    as many closing braces as the greater of the two counts of braces, so
    that no more braces are open than closed. *)
Theorem repair_closes_what_is_open (r : string) :
  (Str.endswith "}" r = true -> Agent.repair_truncated r = r)
  /\ (Str.endswith "}" r = false ->
      Str.contains "..." r = false ->
      let out := Agent.repair_truncated r in
      prefix r out = true
      /\ Str.count Agent.dquote out mod 2 = 0
      /\ Str.count "{" out = Str.count "{" r
      /\ Str.count "}" out = Z.max (Str.count "}" r) (Str.count "{" r)).
Proof.
  unfold Agent.repair_truncated. split.
  - intros B. now rewrite B, (endswith_brace_not_dots r B).
  - intros B D. rewrite B, D, orb_true_r. cbn [negb].
    set (open := Str.count "{" r - Str.count "}" r).
    set (closed := if negb (Str.count Agent.dquote r mod 2 =? 0)
                   then r ++ Agent.dquote else r).
    assert (C : exists tail : string,
               closed = r ++ tail
               /\ Str.count Agent.dquote closed mod 2 = 0
               /\ Str.count "{" tail = 0 /\ Str.count "}" tail = 0).
    { subst closed. destruct (Str.count Agent.dquote r mod 2 =? 0) eqn:E.
      - exists "". rewrite append_empty_r. cbn [negb].
        apply Z.eqb_eq in E. repeat split; assumption.
      - exists Agent.dquote. cbn [negb]. split; [reflexivity|].
        apply Z.eqb_neq in E. unfold Agent.dquote in *.
        rewrite count_single_app.
        change (Str.count (String (ascii_of_nat 34) "")
                          (String (ascii_of_nat 34) "")) with 1.
        pose proof (Z.mod_pos_bound
                      (Str.count (String (ascii_of_nat 34) "") r) 2
                      ltac:(lia)).
        repeat split. rewrite Z.add_mod by lia.
        replace (Str.count (String (ascii_of_nat 34) "") r mod 2) with 1
          by lia.
        reflexivity. }
    destruct C as [tail [-> [Q [T1 T2]]]]. cbv zeta.
    rewrite !append_assoc.
    split; [apply prefix_app, prefix_refl|].
    rewrite <- !append_assoc.
    unfold Agent.dquote in *.
    rewrite (count_single_app (ascii_of_nat 34) (r ++ tail)),
      (count_single_app "{" (r ++ tail)), (count_single_app "}" (r ++ tail)),
      (count_single_app "{" r), (count_single_app "}" r),
      !count_single_repeat, T1, T2.
    change (Ascii.eqb (ascii_of_nat 34) "}") with false.
    change (Ascii.eqb "{" "}") with false.
    change (Ascii.eqb "}" "}") with true.
    cbv iota. rewrite !Z.add_0_r. split; [exact Q|].
    split; [reflexivity|]. subst open. lia.
Qed.

(** ** The summary and the report *)

(** The model is asked to summarise what the report shows: the one prompt
    [generate_report] sends carries the role, the number of questions and
    the history of the report, and its average rounded to two decimals. *)
Theorem summary_prompt_matches_report `{Builtins}
    (render : App.report_data -> option exn)
    (send_file : App.report_data -> string -> option exn)
    (s s' : App.session) (w w' : world) (resp : App.response)
    (report : App.report_data) :
  App.generate_report render send_file s w = (resp, s', w') ->
  App.payload resp = App.ReportFile report ->
  calls w'
  = (calls w
     ++ [SummaryPrompt OVERALL_SUMMARY_PROMPT (App.rd_role report)
           (App.rd_num_questions report)
           (PyFloat.round2 (App.rd_avg_rating report))
           (App.rd_history report)])%list.
Proof.
  unfold App.generate_report. intros E P.
  destruct (App.interview_history s) as [[|e h]|];
    try (injection E as <- <- <-; discriminate P).
  destruct (App.model_id s) as [m|]; cbn [bind App.key] in E;
    [|injection E as <- <- <-; discriminate P].
  destruct (App.api_keys s) as [k|]; cbn [bind App.key] in E;
    [|injection E as <- <- <-; discriminate P].
  destruct (App.language s) as [l|]; cbn [bind App.key] in E;
    [|injection E as <- <- <-; discriminate P].
  destruct (Agent.init w m l) as [agent|]; cbn [bind App.key] in E;
    [|injection E as <- <- <-; discriminate P].
  destruct (App.role s) as [r|]; cbn [bind App.key] in E;
    [|injection E as <- <- <-; discriminate P].
  unfold Agent.generate_overall_summary, invoke in E.
  destruct (replies w (List.length (calls w))) as [text|x];
    cbn [bind App.key] in E;
    [|injection E as <- <- <-; discriminate P].
  destruct (App.difficulty s) as [d|]; cbn [bind App.key] in E;
    [|injection E as <- <- <-; discriminate P].
  destruct (render _) in E; [injection E as <- <- <-; discriminate P|].
  cbv zeta in E.
  destruct (send_file _ _) in E; injection E as <- <- <-;
    [discriminate P|].
  cbn [App.payload App.respond] in P. injection P as <-. reflexivity.
Qed.

(** ** The text of the history *)

Lemma concat_cons (x : string) (l : list string) :
  String.concat "" (x :: l) = x ++ String.concat "" l.
Proof.
  destruct l as [|y l]; [cbn; now rewrite append_empty_r | reflexivity].
Qed.

Lemma format_entries_blocks `{Builtins} (history : list entry) :
  forall (i : Z) (formatted : string),
    PromptText.format_entries history i formatted
    = formatted
      ++ String.concat ""
           (map (fun b => b ++ PromptText.newline ++ PromptText.newline)
                (history_blocks i history)).
Proof.
  induction history as [|e history IH]; intros i formatted.
  - cbn. now rewrite append_empty_r.
  - cbn [PromptText.format_entries history_blocks map].
    rewrite IH, concat_cons. unfold history_block.
    now rewrite !append_assoc.
Qed.

Lemma concat_blocks (sep b : string) (bs : list string) :
  String.concat "" (map (fun b => b ++ sep) (b :: bs))
  = Str.join sep (b :: bs) ++ sep.
Proof.
  revert b. induction bs as [|b' bs IH]; intros b.
  - cbn. rewrite ?append_empty_r. reflexivity.
  - cbn [map]. rewrite concat_cons. cbn [map] in IH. rewrite IH.
    cbn [Str.join]. now rewrite !append_assoc.
Qed.

Lemma lstrip_spaces (sp y : string) :
  all_space sp = true -> Str.lstrip (sp ++ y) = Str.lstrip y.
Proof.
  induction sp as [|c sp IH]; [reflexivity|].
  cbn [all_space append Str.lstrip]. intros A.
  apply andb_true_iff in A. destruct A as [C A]. rewrite C. now apply IH.
Qed.

Lemma lstrip_solid (y : string) : starts_solid y = true -> Str.lstrip y = y.
Proof.
  destruct y as [|c y]; [reflexivity|]. cbn. intros S.
  apply negb_true_iff in S. now rewrite S.
Qed.

Lemma strip_solid_spaces (x sp : string) :
  starts_solid x = true -> ends_solid x = true -> all_space sp = true ->
  Str.strip (x ++ sp) = x.
Proof.
  intros S E A. unfold Str.strip, Str.rstrip.
  rewrite (lstrip_solid (x ++ sp)) by now apply starts_solid_app.
  rewrite rev_app, lstrip_spaces by now rewrite all_space_rev.
  rewrite lstrip_solid by now apply ends_solid_rev.
  apply rev_involutive.
Qed.

Lemma history_block_solid `{Builtins} (i : Z) (e : entry) :
  starts_solid (history_block i e) = true
  /\ ends_solid (history_block i e) = true.
Proof.
  unfold history_block. split; [reflexivity|].
  rewrite <- !append_assoc. now apply ends_solid_app.
Qed.

Lemma join_solid (sep b : string) (bs : list string) :
  Forall (fun b => starts_solid b = true /\ ends_solid b = true) (b :: bs) ->
  starts_solid (Str.join sep (b :: bs)) = true
  /\ ends_solid (Str.join sep (b :: bs)) = true.
Proof.
  revert b. induction bs as [|b' bs IH]; intros b F.
  - inversion F as [|? ? [S E] _]; subst. now split.
  - inversion F as [|? ? [S E] F']; subst.
    destruct (IH b' F') as [_ E'].
    cbn [Str.join]. split; [now apply starts_solid_app|].
    rewrite <- append_assoc. now apply ends_solid_app.
Qed.

Lemma history_blocks_solid `{Builtins} (history : list entry) (i : Z) :
  Forall (fun b => starts_solid b = true /\ ends_solid b = true)
         (history_blocks i history).
Proof.
  revert i. induction history as [|e history IH]; intros i; cbn;
    constructor; [apply history_block_solid | apply IH].
Qed.

(** The text of the history in a question prompt is, for a history that is
    not empty, the lines of its entries, numbered from 1, with one blank
    line between two entries: the final [strip] takes the last blank line
    away and nothing of a question or an answer. For an empty history it
    is the fixed sentence. *)
Theorem format_history_blocks `{Builtins} (history : list entry) :
  PromptText.format_history history
  = match history with
    | [] => "No previous questions asked yet."
    | _ => Str.join (PromptText.newline ++ PromptText.newline)
                    (history_blocks 1 history)
    end.
Proof.
  destruct history as [|e history]; [reflexivity|].
  unfold PromptText.format_history.
  rewrite format_entries_blocks. cbn [append].
  change (fun b : string => b ++ PromptText.newline ++ PromptText.newline)
    with (fun b : string => b ++ (PromptText.newline ++ PromptText.newline)).
  cbn [history_blocks]. rewrite concat_blocks.
  destruct (join_solid (PromptText.newline ++ PromptText.newline)
              (history_block 1 e) (history_blocks (1 + 1) history)
              (history_blocks_solid (e :: history) 1)) as [S E].
  now apply strip_solid_spaces.
Qed.

(** ** The statements on concrete requests *)

Lemma upload_resume_outcomes_witness :
  let resp := fst (@Routes.upload_resume reference environment resume_upload
                     App.cleared (scripted []) summary_reply) in
  (Routes.status resp = 200 ->
   exists (file : Routes.file_storage) (raw_text content : string)
          (keys : App.api_keys_t),
     Routes.files_resume resume_upload = Some file
     /\ Str.endswith ".pdf" (Str.lower (Routes.filename file)) = true
     /\ Routes.extract_text_from_pdf (Routes.pdf file) = Some raw_text
     /\ (100 <= String.length raw_text)%nat
     /\ summary_reply = Ok content
     /\ Routes.payload resp = Routes.ResumeUploaded (Str.strip content)
     /\ after_upload = Routes.set_resume App.cleared (Str.strip content) keys)
  /\ (Routes.status resp <> 200 -> after_upload = App.cleared)
  /\ In (Routes.status resp) [200; 400; 500].
Proof.
  apply (@upload_resume_outcomes reference environment resume_upload App.cleared
           after_upload (scripted []) summary_reply).
  vm_compute. reflexivity.
Defined.

Lemma evaluation_feeds_next_question_witness :
  let resp := fst (fst (@App.evaluate_answer reference
                          (answer_of "A list keeps its items in order")
                          (asked (start_easy "en" None)) evaluation_world)) in
  let s1 := snd (fst (@App.evaluate_answer reference
                        (answer_of "A list keeps its items in order")
                        (asked (start_easy "en" None)) evaluation_world)) in
  exists (ev : Agent.evaluation) (updated previous shown : string)
         (total : Z),
    App.payload resp = App.Evaluated ev updated previous total shown
    /\ forall (s2 : App.session) (w2 w3 : world) (resp2 : App.response),
        App.get_next_question s1 w2 = (resp2, s2, w3) ->
        App.status resp2 = 200 ->
        exists (t : template) (summary role : string)
               (earlier : list entry) (recorded : entry),
          calls w3
          = (calls w2
             ++ [QuestionPrompt t summary role updated
                                (earlier ++ [recorded])
                                (Some (Agent.ev_rating ev))])%list
          /\ Z.of_nat (List.length (earlier ++ [recorded])) = total
          /\ App.ed_answer (answer_of "A list keeps its items in order")
             = Some (answer recorded)
          /\ App.current_question (asked (start_easy "en" None))
             = Some (question recorded)
          /\ rating recorded = Agent.ev_rating ev.
Proof.
  apply (@evaluation_feeds_next_question reference
           (answer_of "A list keeps its items in order")
           (asked (start_easy "en" None))
           (snd (fst (@App.evaluate_answer reference
                        (answer_of "A list keeps its items in order")
                        (asked (start_easy "en" None)) evaluation_world)))
           evaluation_world
           (snd (@App.evaluate_answer reference
                   (answer_of "A list keeps its items in order")
                   (asked (start_easy "en" None)) evaluation_world))).
  - vm_compute. reflexivity.
  - vm_compute. reflexivity.
Defined.

Lemma upload_and_start_set_up_the_session_witness :
  let resp2 := fst (App.start_interview (start_easy "en" None)
                                        after_upload) in
  let s2 := snd (App.start_interview (start_easy "en" None) after_upload) in
  (App.status resp2 = 200 <->
   App.sd_role (start_easy "en" None) <> None
   /\ App.sd_difficulty (start_easy "en" None) <> None
   /\ App.sd_model_id (start_easy "en" None) <> None
   /\ App.sd_language (start_easy "en" None) <> None)
  /\ (App.status resp2 = 200 ->
      forall (rs : list App.request) (w w' : world) (s3 : App.session)
             (resps : list App.response),
        Forall is_turn rs ->
        @App.serve reference renders sends rs s2 w = (resps, s3, w') ->
        Forall2 (fun r resp =>
                   r = App.NextQuestion -> App.status resp <> 400)
                rs resps).
Proof.
  apply (@upload_and_start_set_up_the_session reference renders sends
           environment
           resume_upload App.cleared after_upload (scripted [])
           summary_reply
           (fst (@Routes.upload_resume reference environment resume_upload
                   App.cleared (scripted []) summary_reply))).
  - vm_compute. reflexivity.
  - vm_compute. reflexivity.
  - vm_compute. reflexivity.
Defined.

Lemma unknown_difficulty_fails_after_recording_witness :
  let resp := fst (fst (@App.evaluate_answer reference
                          (answer_of "A list keeps its items in order")
                          (asked start_small) evaluation_world)) in
  let s' := snd (fst (@App.evaluate_answer reference
                        (answer_of "A list keeps its items in order")
                        (asked start_small) evaluation_world)) in
  App.status resp <> 200
  /\ forall (q a m l : string) (agent : Agent.agent) (ev : Agent.evaluation),
      App.current_question (asked start_small) = Some q ->
      App.ed_answer (answer_of "A list keeps its items in order") = Some a ->
      App.model_id (asked start_small) = Some m ->
      App.language (asked start_small) = Some l ->
      App.api_keys (asked start_small) <> None ->
      Agent.init evaluation_world m l = Ok agent ->
      fst (fst (@Agent.evaluate_answer reference q a agent evaluation_world))
      = Ok (Some ev) ->
      resp = App.respond 500 (App.Failure "Evaluation failed" ValueError)
      /\ App.interview_history s'
         = Some (match App.interview_history (asked start_small) with
                 | Some h => h
                 | None => []
                 end
                 ++ [{| question := q;
                        answer := a;
                        rating := Agent.ev_rating ev;
                        strengths := Agent.ev_strengths ev;
                        improvements := Agent.ev_improvements ev;
                        missing_points := Agent.ev_missing_points ev |}])%list
      /\ App.last_rating s' = Some (Agent.ev_rating ev)
      /\ App.difficulty s' = Some "easy".
Proof.
  apply (@unknown_difficulty_fails_after_recording reference
           (answer_of "A list keeps its items in order")
           (asked start_small)
           (snd (fst (@App.evaluate_answer reference
                        (answer_of "A list keeps its items in order")
                        (asked start_small) evaluation_world)))
           evaluation_world
           (snd (@App.evaluate_answer reference
                   (answer_of "A list keeps its items in order")
                   (asked start_small) evaluation_world))).
  - vm_compute. reflexivity.
  - cbn. intros [E|[E|[E|[]]]]; discriminate E.
  - vm_compute. reflexivity.
Defined.

Lemma transcription_follows_the_session_witness :
  Routes.transcribe_audio listening recording
    (snd (App.start_interview (start_easy "en" (Some (PyBool true)))
                              uploaded))
  = Routes.transcribe_audio
      (only_language
         (if match App.sd_hinglish_mode
                      (start_easy "en" (Some (PyBool true))) with
             | Some v => Py.truthy v
             | None => false
             end
             || match App.sd_language
                        (start_easy "en" (Some (PyBool true))) with
                | Some l => String.eqb l "hi"
                | None => false
                end
          then "hi-IN" else "en-US")
         listening)
      recording
      (snd (App.start_interview (start_easy "en" (Some (PyBool true)))
                                uploaded)).
Proof.
  apply (transcription_follows_the_session
           (start_easy "en" (Some (PyBool true))) uploaded
           (snd (App.start_interview (start_easy "en" (Some (PyBool true)))
                                     uploaded))
           (fst (App.start_interview (start_easy "en" (Some (PyBool true)))
                                     uploaded))).
  - vm_compute. reflexivity.
  - vm_compute. reflexivity.
Defined.

Lemma red_marks_a_step_down_witness :
  (Report.get_rating_color 3.0 = red <-> (3.0 <? 4.0)%float = true)
  /\ (Report.get_rating_color 3.0 = red ->
      forall l : level,
        App.next_difficulty (level_name l) 3.0
        = Ok (level_name (step_down l)))
  /\ ((7.0 <? 3.0)%float = true ->
      Report.get_rating_color 3.0 = green
      \/ Report.get_rating_color 3.0 = yellow).
Proof.
  apply (red_marks_a_step_down 3.0). reflexivity.
Defined.

Lemma fenced_reply_parsed_as_bare_witness :
  @Agent.parse_response reference
    ("Here is the evaluation: " ++ "```json" ++ evaluation_json "8.2"
       ++ "```" ++ " I hope this helps.")
  = @Agent.parse_response reference (evaluation_json "8.2").
Proof.
  apply (@fenced_reply_parsed_as_bare reference "Here is the evaluation: "
           (evaluation_json "8.2") " I hope this helps.");
    vm_compute; reflexivity.
Defined.

Lemma summary_prompt_matches_report_witness :
  calls (snd (@App.generate_report reference renders sends interviewed
                                   interviewed_world))
  = (calls interviewed_world
     ++ [SummaryPrompt OVERALL_SUMMARY_PROMPT (App.rd_role delivered)
           (App.rd_num_questions delivered)
           (PyFloat.round2 (App.rd_avg_rating delivered))
           (App.rd_history delivered)])%list.
Proof.
  apply (@summary_prompt_matches_report reference renders sends interviewed
           (snd (fst (@App.generate_report reference renders sends
                        interviewed interviewed_world)))
           interviewed_world
           (snd (@App.generate_report reference renders sends interviewed
                   interviewed_world))
           (fst (fst (@App.generate_report reference renders sends
                        interviewed interviewed_world)))
           delivered).
  - vm_compute. reflexivity.
  - vm_compute. reflexivity.
Defined.

(** ** Requests that fail, and a new start *)







(** [start_interview] empties the history and the counter of questions
    and keeps the pending question of the interview before. An answer sent
    before a question of the new interview is asked is therefore accepted:
    it is recorded with the old question, as the first entry of the new
    history, with the counter still at 0. *)
Theorem restart_keeps_the_pending_question `{Builtins}
    (data : App.start_data) (s s1 : App.session) (resp1 : App.response) :
  App.start_interview data s = (resp1, s1) ->
  App.status resp1 = 200 ->
  (App.interview_history s1 = Some []
   /\ App.question_count s1 = Some 0
   /\ App.current_question s1 = App.current_question s)
  /\ forall (q : string) (answered : App.evaluate_data) (w w2 : world)
            (resp2 : App.response) (s2 : App.session),
      App.current_question s = Some q ->
      App.evaluate_answer answered s1 w = (resp2, s2, w2) ->
      App.status resp2 = 200 ->
      exists e : entry,
        App.interview_history s2 = Some [e]
        /\ question e = q
        /\ App.ed_answer answered = Some (answer e)
        /\ App.question_count s2 = Some 0.
Proof.
  intros S Hs.
  assert (App.interview_history s1 = Some []
          /\ App.question_count s1 = Some 0
          /\ App.current_question s1 = App.current_question s)
    as [Hh [Hc Hq]].
  { unfold App.start_interview in S.
    repeat break_hyp S; injection S as <- <-; cbn in Hs;
      try discriminate Hs; cbn; repeat split. }
  split; [repeat split; assumption|].
  intros q answered w w2 resp2 s2 Hq0 E H200.
  destruct (evaluate_answer_ok _ _ _ _ _ _ E H200)
    as [q' [a [prev [next [ev [Hq' [Ha [_ [_ [_ [_ Hh2]]]]]]]]]]].
  destruct (evaluate_answer_frame _ _ _ _ _ _ E) as [_ [_ Hc2]].
  rewrite Hq, Hq0 in Hq'. injection Hq' as <-.
  rewrite Hh in Hh2. cbn [app] in Hh2.
  eexists. split; [exact Hh2|]. cbn [question answer].
  repeat split; [exact Ha|]. now rewrite Hc2.
Qed.

Lemma restart_keeps_the_pending_question_witness :
  let s := asked (start_easy "en" None) in
  let s1 := snd (App.start_interview (start_easy "hi" None) s) in
  (App.interview_history s1 = Some []
   /\ App.question_count s1 = Some 0
   /\ App.current_question s1 = App.current_question s)
  /\ forall (q : string) (answered : App.evaluate_data) (w w2 : world)
            (resp2 : App.response) (s2 : App.session),
      App.current_question s = Some q ->
      @App.evaluate_answer reference answered s1 w = (resp2, s2, w2) ->
      App.status resp2 = 200 ->
      exists e : entry,
        App.interview_history s2 = Some [e]
        /\ question e = q
        /\ App.ed_answer answered = Some (answer e)
        /\ App.question_count s2 = Some 0.
Proof.
  apply (@restart_keeps_the_pending_question reference
           (start_easy "hi" None) (asked (start_easy "en" None))
           (snd (App.start_interview (start_easy "hi" None)
                   (asked (start_easy "en" None))))
           (fst (App.start_interview (start_easy "hi" None)
                   (asked (start_easy "en" None))))).
  - vm_compute. reflexivity.
  - vm_compute. reflexivity.
Defined.
